(** * Symbiosome: the message-routing and channel-lifecycle engine

  A shallow embedding of [src/symbiosome.ts] (class [Symbiosome]) and the
  properties of its routing engine.

  Modelling conventions.
  - The two registries [listeners] and [portals] are plain JavaScript
    objects used as string-keyed maps.  They are modelled by [JsObject.t],
    an association list kept in property-insertion order, because
    [getOrigins] returns [Object.keys] of such an object and that order is
    observable.  Every key the engine ever stores is the [origin] of a
    parsed [URL], which is never an integer-like string and never the name
    of a member of [Object.prototype]; the model therefore looks at own
    properties only.  [pushToOrigin], [removePortal] and [removeListener]
    look up the string their caller hands them; were it the name of such
    a member ([inherited]), the test of the source would see the member
    every object inherits.  What is stated about a name the caller
    chooses is stated for the names that are not inherited, as every
    origin is.
  - The values stored in the registries are a function (a handler) or an
    object (a [Portal]); both are truthy, so for a name that is not
    inherited the tests [if (this.x[k])] and [if (!this.x[k])] of the
    source are the presence test [JsObject.has].
  - Handlers and callbacks are code of the embedding application.  They
    are opaque identifiers here and a call to one is recorded as an
    [Event] of the log, as are the calls to the host primitives
    ([BroadcastChannel.postMessage], [Window.postMessage]).  Such a call
    is taken to return and not to call back into the instance; payloads
    are structured data, which the host primitives accept.
    [Window.postMessage] parses its target origin as a URL and throws a
    SyntaxError when that fails, as for the serialisation [null] of an
    opaque origin.  [WindowPost] records that the call is made; that a
    push to a portal returns is stated for the targets the host accepts
    ([accepted_target]).
  - The iframes the instance appends to [document.body] are kept in the
    state, by identity, so that the [frame] of a [Portal] and the element
    in the document are one shared object.
  - A [throw] is the outcome [Thrown]; the state reached at the throw is
    kept, as in JavaScript, where the effects made before an exception
    persist. *)

From Stdlib Require Import Ascii String List Bool Arith Lia.
Import ListNotations.
Open Scope string_scope.

(** ** JavaScript objects used as maps *)

Module JsObject.
Section Obj.
Context {V : Type}.

Definition t := list (string * V).

(** [{}] *)
Definition empty : t := [].

(** [o[k]]: [None] is [undefined]. *)
Fixpoint get (o : t) (k : string) : option V :=
  match o with
  | [] => None
  | (k', v) :: rest => if String.eqb k' k then Some v else get rest k
  end.

(** Truthiness of [o[k]] for an object whose values are all truthy. *)
Definition has (o : t) (k : string) : bool :=
  match get o k with Some _ => true | None => false end.

(** [o[k] = v]: an existing property keeps its place, a new one goes
    last. *)
Fixpoint set (o : t) (k : string) (v : V) : t :=
  match o with
  | [] => [(k, v)]
  | (k', v') :: rest =>
      if String.eqb k' k then (k', v) :: rest else (k', v') :: set rest k v
  end.

(** [delete o[k]] *)
Fixpoint delete (o : t) (k : string) : t :=
  match o with
  | [] => []
  | (k', v') :: rest =>
      if String.eqb k' k then delete rest k else (k', v') :: delete rest k
  end.

(** [Object.keys(o)] *)
Definition keys (o : t) : list string := map fst o.

(** [Object.assign(target, source)]: the own properties of [source] are
    set on [target] one by one, in the order of [source]. *)
Definition assign (target source : t) : t :=
  fold_left (fun acc kv => set acc (fst kv) (snd kv)) source target.
End Obj.
Arguments t : clear implicits.
End JsObject.

(** The registries are made by [{}].  These are the names of the members
    every such object inherits from [Object.prototype]; for every other
    name [o[k]] reads an own property, as [JsObject.get] does. *)
Definition Object_prototype : list string :=
  ["constructor"; "__defineGetter__"; "__defineSetter__"; "hasOwnProperty";
   "__lookupGetter__"; "__lookupSetter__"; "isPrototypeOf";
   "propertyIsEnumerable"; "toString"; "valueOf"; "__proto__";
   "toLocaleString"].

Definition inherited (k : string) : bool :=
  existsb (String.eqb k) Object_prototype.

(** ** Data of the engine *)

(** A browsing context the engine can hold a reference to: [window.parent],
  or the [contentWindow] of an iframe (by the iframe's identity). *)
Inductive Window :=
| ParentWindow
| FrameWindow (id : nat).

(** The [HTMLIFrameElement] made by [createFrame], with the attributes the
  source sets. *)
Record Frame := mkFrame {
  frame_id : nat;
  frame_name : string;
  frame_width : string;
  frame_height : string;
  frame_visibility : string;
  frame_position : string;
  frame_src : string
}.

(** [interface Portal]: [frame] is a reference to the element. *)
Record Portal := mkPortal {
  frame : nat;
  window : Window
}.

(** What the host environment (the browser) gives the engine. *)
Record Host := mkHost {
  (** [window.origin] (and [window.location.origin]) *)
  window_origin : string;
  (** [new URLSearchParams(window.location.search).get(`parent`)];
      [None] is [null] *)
  search_parent : option string;
  (** [new URL(s).origin]; [None] when the constructor throws a TypeError *)
  URL_origin : string -> option string;
  (** [src.searchParams.set(`parent`, o); src.toString()] for
      [src = new URL(s)] *)
  URL_with_parent : string -> string -> string;
  (** [frame.contentWindow]; [None] is [null] *)
  contentWindow : Frame -> option Window
}.

(** [w.postMessage( message, target )] parses [target] as [new URL] does
    and throws a SyntaxError when that fails. *)
Definition accepted_target (host : Host) (target : string) : bool :=
  match URL_origin host target with
  | Some _ => true
  | None => false
  end.

(** The errors the engine throws.  [InvalidURL] is the TypeError of
  [new URL]; every other constructor stands for [throw Error(...)]
  statements of the source:
  - [DuplicateOrigin Listeners o]: "Listener for o already exists."
  - [DuplicateOrigin Portals o]: "Portal o already connected."
  - [SelfOrigin AtAddPortal o]: "Portal o is own origin and is always
    connected."
  - [SelfOrigin AtRemovePortal o]: "Origin o is this origin, removal not
    possible."
  - [TransportUnavailable o]: "Couldn't get reference for o."
  - [PortalNotFound o]: "Cannot push to missing portal o."
  - [NotFound Portals o]: "Cannot remove missing portal o."
  - [NotFound Listeners o]: "Cannot remove missing listener o." *)
Inductive Registry := Listeners | Portals.

Inductive Site := AtAddPortal | AtRemovePortal.

Inductive Error :=
| InvalidURL (input : string)
| DuplicateOrigin (r : Registry) (origin : string)
| SelfOrigin (at_ : Site) (origin : string)
| TransportUnavailable (origin : string)
| PortalNotFound (origin : string)
| NotFound (r : Registry) (origin : string).

Section Engine.
(** Payloads are opaque to the engine; handlers and callbacks are
    references to functions of the application. *)
Context {Message Handler Callback : Type}.

(** [interface SymbiosomeContext] *)
Record SymbiosomeContext := mkContext {
  isPortal : bool;
  onPortalAdded : option Callback;
  onListenToOrigin : option Callback;
  onPushedMessage : option Callback;
  onPortalRemoved : option Callback;
  onListenerRemoved : option Callback;
  debug : option Callback
}.

(** The [MessageEvent] of a cross-context [message]: [event.origin] is
    the sender's origin, [event.data] the payload. *)
Record PortalEvent := mkPortalEvent {
  event_origin : string;
  event_data : Message
}.

(** The [MessageEvent] of the broadcast channel: [event.data] is the
    envelope [{origin, data}]. *)
Record BroadcastEvent := mkBroadcastEvent {
  data_origin : string;
  data_data : Message
}.

(** The optional second argument of [debug]. *)
Inductive DebugArg :=
| ArgString (s : option string)
| ArgPortalEvent (e : PortalEvent)
| ArgBroadcastEvent (e : BroadcastEvent).

(** What the engine does to the outside. *)
Inductive Event :=
| DebugCall (f : Callback) (message : string) (data : option (list DebugArg))
| ChannelPost (channel : string) (origin : string) (data : Message)
| HandlerCall (h : Handler) (origin : string) (message : Message)
| WindowPost (w : Window) (message : Message) (targetOrigin : string)
| CallbackCall (f : Callback) (origin : string) (message : option Message).

(** The fields of the instance, the iframes it has put in the document,
    the event listeners it has installed, and the log. *)
Record State := mkState {
  context : SymbiosomeContext;
  listeners : JsObject.t Handler;
  portals : JsObject.t Portal;
  parent : option Window;
  parentOrigin : option string;
  channelID : string;
  window_message_bound : bool;
  body : list Frame;
  next_frame : nat;
  log : list Event
}.


Definition with_listeners (l : JsObject.t Handler) (s : State) : State :=
  mkState (context s) l (portals s) (parent s) (parentOrigin s)
          (channelID s) (window_message_bound s) (body s) (next_frame s)
          (log s).

Definition with_portals (p : JsObject.t Portal) (s : State) : State :=
  mkState (context s) (listeners s) p (parent s) (parentOrigin s)
          (channelID s) (window_message_bound s) (body s) (next_frame s)
          (log s).

Definition with_parent (w : option Window) (s : State) : State :=
  mkState (context s) (listeners s) (portals s) w (parentOrigin s)
          (channelID s) (window_message_bound s) (body s) (next_frame s)
          (log s).

Definition with_parentOrigin (o : option string) (s : State) : State :=
  mkState (context s) (listeners s) (portals s) (parent s) o
          (channelID s) (window_message_bound s) (body s) (next_frame s)
          (log s).

Definition with_channelID (c : string) (s : State) : State :=
  mkState (context s) (listeners s) (portals s) (parent s) (parentOrigin s)
          c (window_message_bound s) (body s) (next_frame s) (log s).

Definition with_window_message_bound (b : bool) (s : State) : State :=
  mkState (context s) (listeners s) (portals s) (parent s) (parentOrigin s)
          (channelID s) b (body s) (next_frame s) (log s).

Definition with_body (b : list Frame) (s : State) : State :=
  mkState (context s) (listeners s) (portals s) (parent s) (parentOrigin s)
          (channelID s) (window_message_bound s) b (next_frame s) (log s).

Definition with_next_frame (n : nat) (s : State) : State :=
  mkState (context s) (listeners s) (portals s) (parent s) (parentOrigin s)
          (channelID s) (window_message_bound s) (body s) n (log s).

Definition with_log (l : list Event) (s : State) : State :=
  mkState (context s) (listeners s) (portals s) (parent s) (parentOrigin s)
          (channelID s) (window_message_bound s) (body s) (next_frame s) l.

(** *** Computations that may throw *)

Inductive Outcome (A : Type) :=
| Returned (a : A)
| Thrown (e : Error).
Arguments Returned {A} a.
Arguments Thrown {A} e.

Definition Eff (A : Type) := State -> Outcome A * State.

Definition ret {A} (a : A) : Eff A := fun s => (Returned a, s).

Definition bind {A B} (m : Eff A) (k : A -> Eff B) : Eff B :=
  fun s => match m s with
           | (Returned a, s') => k a s'
           | (Thrown e, s') => (Thrown e, s')
           end.

Definition throw {A} (e : Error) : Eff A := fun s => (Thrown e, s).

Definition gets {A} (f : State -> A) : Eff A := fun s => (Returned (f s), s).

Definition modify (f : State -> State) : Eff unit :=
  fun s => (Returned tt, f s).

Definition emit (e : Event) : Eff unit :=
  modify (fun s => with_log (log s ++ [e]) s).

Definition when (b : bool) (m : Eff unit) : Eff unit :=
  if b then m else ret tt.

Notation "x <- m ;; k" := (bind m (fun x => k))
  (at level 61, m at next level, right associativity).
Notation "m ;; k" := (bind m (fun _ => k))
  (at level 61, right associativity).

(** *** Small pieces of JavaScript *)

(** [a ?? b] *)
Definition nullish {A} (a b : option A) : option A :=
  match a with Some x => Some x | None => b end.

(** [f?.(origin)] and [f?.(origin, message)] for an optional callback. *)
Definition call_optional (f : option Callback) (origin : string)
    (message : option Message) : Eff unit :=
  match f with
  | Some g => emit (CallbackCall g origin message)
  | None => ret tt
  end.

(** [this.context.debug?.(message, data)] *)
Definition debug_trace (message : string) (data : option (list DebugArg))
    : Eff unit :=
  ctx <- gets context ;;
  match debug ctx with
  | Some g => emit (DebugCall g message data)
  | None => ret tt
  end.

(** Truthiness of a value of type [string | null | undefined]. *)
Definition truthy (v : option string) : bool :=
  match v with
  | None => false
  | Some s => negb (String.eqb s "")
  end.

(** [a === b] for [a : string] and [b : string | undefined]. *)
Definition strict_eq (a : string) (b : option string) : bool :=
  match b with
  | Some b' => String.eqb a b'
  | None => false
  end.

(** A template literal prints [undefined] as the word. *)
Definition interpolate (v : option string) : string :=
  match v with Some s => s | None => "undefined" end.

(** ** The class [Symbiosome] *)

Variable host : Host.

(** The state before the constructor has run. *)
Definition blank (ctx : SymbiosomeContext) : State :=
  mkState ctx JsObject.empty JsObject.empty None None "" false [] 0 [].

(** [constructor( private context: SymbiosomeContext )] *)
Definition constructor : Eff unit :=
  modify (with_portals JsObject.empty) ;;
  modify (with_listeners JsObject.empty) ;;
  modify (with_channelID ("symbiosome__" ++ window_origin host)) ;;
  ch <- gets channelID ;;
  debug_trace "Channel ID" (Some [ArgString (Some ch)]) ;;
  ctx <- gets context ;;
  when (isPortal ctx)
    (let parent_param := search_parent host in
     debug_trace "Parent origin" (Some [ArgString parent_param]) ;;
     modify (with_parent
               (if negb (truthy parent_param)
                   || strict_eq (window_origin host) parent_param
                then None
                else Some ParentWindow)) ;;
     w <- gets parent ;;
     modify (with_parentOrigin
               (match w with
                | Some _ => if truthy parent_param then parent_param else None
                | None => None
                end)) ;;
     po <- gets parentOrigin ;;
     when (negb (truthy po))
       (debug_trace "Is portal but parent is undefined" None) ;;
     modify (with_window_message_bound true)) ;;
  call_optional (onPortalAdded ctx) (window_origin host) None.

(** [new Symbiosome(ctx)] *)
Definition new_Symbiosome (ctx : SymbiosomeContext) : State :=
  snd (constructor (blank ctx)).

(** [private broadcast( origin: string, data: unknown )] *)
Definition broadcast (origin : string) (data : Message) : Eff unit :=
  ch <- gets channelID ;;
  emit (ChannelPost ch origin data) ;;
  l <- gets listeners ;;
  match JsObject.get l origin with
  | Some h => emit (HandlerCall h origin data)
  | None => ret tt
  end.

(** [private handleBroadcast( event: MessageEvent )] *)
Definition handleBroadcast (event : BroadcastEvent) : Eff unit :=
  debug_trace "Incoming broadcast" (Some [ArgBroadcastEvent event]) ;;
  l <- gets listeners ;;
  match JsObject.get l (data_origin event) with
  | None =>
      debug_trace "Broadcast received from unlisted origin"
                  (Some [ArgBroadcastEvent event])
  | Some h => emit (HandlerCall h (data_origin event) (data_data event))
  end.

(** [private handlePortalMessage( event: MessageEvent )] *)
Definition handlePortalMessage (event : PortalEvent) : Eff unit :=
  debug_trace "Incoming message" (Some [ArgPortalEvent event]) ;;
  po <- gets parentOrigin ;;
  if negb (strict_eq (event_origin event) po)
  then
    debug_trace ("Incoming message from " ++ event_origin event
                 ++ " not from parent " ++ interpolate po)
                (Some [ArgPortalEvent event])
  else broadcast (event_origin event) (event_data event).

(** [private createFrame( name: string ): HTMLIFrameElement] *)
Definition createFrame (name : string) : Eff Frame :=
  n <- gets next_frame ;;
  let f := mkFrame n name "1" "1" "hidden" "absolute" "" in
  modify (with_next_frame (S n)) ;;
  modify (fun s => with_body (body s ++ [f]) s) ;;
  ret f.

(** [frame.src = src]: the element is updated where it stands in the
    document. *)
Definition set_src (f : Frame) (src : string) : Frame :=
  mkFrame (frame_id f) (frame_name f) (frame_width f) (frame_height f)
          (frame_visibility f) (frame_position f) src.

Definition assign_src (id : nat) (src : string) : Eff unit :=
  modify (fun s =>
    with_body (map (fun f => if Nat.eqb (frame_id f) id
                             then set_src f src else f) (body s)) s).

(** [frame.remove()] *)
Definition remove_frame (id : nat) : Eff unit :=
  modify (fun s =>
    with_body (filter (fun f => negb (Nat.eqb (frame_id f) id)) (body s)) s).

(** [public listenToOrigin( origin, handler, onListen? )] *)
Definition listenToOrigin (origin : string) (handler : Handler)
    (onListen : option Callback) : Eff unit :=
  match URL_origin host origin with
  | None => throw (InvalidURL origin)
  | Some _origin =>
      l <- gets listeners ;;
      if JsObject.has l _origin
      then throw (DuplicateOrigin Listeners _origin)
      else
        modify (fun s =>
          with_listeners (JsObject.set (listeners s) _origin handler) s) ;;
        ctx <- gets context ;;
        call_optional (nullish onListen (onListenToOrigin ctx)) _origin None
  end.

(** [public addPortal( portalURL, onAdded? )] *)
Definition addPortal (portalURL : string) (onAdded : option Callback)
    : Eff unit :=
  match URL_origin host portalURL with
  | None => throw (InvalidURL portalURL)
  | Some _origin =>
      if String.eqb _origin (window_origin host)
      then throw (SelfOrigin AtAddPortal (window_origin host))
      else
        p <- gets portals ;;
        if JsObject.has p _origin
        then throw (DuplicateOrigin Portals _origin)
        else
          f <- createFrame _origin ;;
          let src := URL_with_parent host portalURL (window_origin host) in
          assign_src (frame_id f) src ;;
          match contentWindow host (set_src f src) with
          | None => throw (TransportUnavailable _origin)
          | Some _window =>
              modify (fun s =>
                with_portals
                  (JsObject.set (portals s) _origin
                                (mkPortal (frame_id f) _window)) s) ;;
              ctx <- gets context ;;
              call_optional (nullish onAdded (onPortalAdded ctx)) _origin None
          end
  end.

(** [public pushToOrigin( origin, message, onPush? )] *)
Definition pushToOrigin (origin : string) (message : Message)
    (onPush : option Callback) : Eff unit :=
  (if String.eqb origin (window_origin host)
   then broadcast origin message
   else
     p <- gets portals ;;
     match JsObject.get p origin with
     | None => throw (PortalNotFound origin)
     | Some portal => emit (WindowPost (window portal) message origin)
     end) ;;
  ctx <- gets context ;;
  call_optional (nullish onPush (onPushedMessage ctx)) origin (Some message).

(** [public removePortal( origin, onRemoved? )] *)
Definition removePortal (origin : string) (onRemoved : option Callback)
    : Eff unit :=
  if String.eqb origin (window_origin host)
  then throw (SelfOrigin AtRemovePortal origin)
  else
    p <- gets portals ;;
    match JsObject.get p origin with
    | None => throw (NotFound Portals origin)
    | Some portal =>
        remove_frame (frame portal) ;;
        modify (fun s => with_portals (JsObject.delete (portals s) origin) s) ;;
        ctx <- gets context ;;
        call_optional (nullish onRemoved (onPortalRemoved ctx)) origin None
    end.

(** [public removeListener( origin, onRemoved? )] *)
Definition removeListener (origin : string) (onRemoved : option Callback)
    : Eff unit :=
  l <- gets listeners ;;
  if negb (JsObject.has l origin)
  then throw (NotFound Listeners origin)
  else
    modify (fun s => with_listeners (JsObject.delete (listeners s) origin) s) ;;
    ctx <- gets context ;;
    call_optional (nullish onRemoved (onListenerRemoved ctx)) origin None.

(** The object [origins] of [getOrigins] holds portals and handlers
    alike. *)
Inductive Known :=
| KnownPortal (p : Portal)
| KnownListener (h : Handler).

Definition portal_entries (p : JsObject.t Portal) : JsObject.t Known :=
  map (fun kv => (fst kv, KnownPortal (snd kv))) p.

Definition listener_entries (l : JsObject.t Handler) : JsObject.t Known :=
  map (fun kv => (fst kv, KnownListener (snd kv))) l.

(** [public getOrigins(): string[]] *)
Definition getOrigins (s : State) : list string :=
  let origins := JsObject.assign JsObject.empty (portal_entries (portals s)) in
  let origins := JsObject.assign origins (listener_entries (listeners s)) in
  JsObject.keys origins.

(** *** The instance over time *)

(** A call of the application to one of the public methods that change
    or use the registries. *)
Inductive Call :=
| ListenToOrigin (origin : string) (handler : Handler)
                 (onListen : option Callback)
| AddPortal (portalURL : string) (onAdded : option Callback)
| PushToOrigin (origin : string) (message : Message)
               (onPush : option Callback)
| RemovePortal (origin : string) (onRemoved : option Callback)
| RemoveListener (origin : string) (onRemoved : option Callback).

Definition invoke (c : Call) : Eff unit :=
  match c with
  | ListenToOrigin o h cb => listenToOrigin o h cb
  | AddPortal u cb => addPortal u cb
  | PushToOrigin o m cb => pushToOrigin o m cb
  | RemovePortal o cb => removePortal o cb
  | RemoveListener o cb => removeListener o cb
  end.

(** What can happen to an instance: a call, a [message] event on the
    window (handled only when the constructor installed
    [handlePortalMessage]), or a [message] event on the broadcast channel
    (always handled by [handleBroadcast]). *)
Inductive Stimulus :=
| AppCall (c : Call)
| WindowMessage (event : PortalEvent)
| ChannelMessage (event : BroadcastEvent).

Definition react (x : Stimulus) : Eff unit :=
  match x with
  | AppCall c => invoke c
  | WindowMessage event =>
      bound <- gets window_message_bound ;;
      when bound (handlePortalMessage event)
  | ChannelMessage event => handleBroadcast event
  end.

(** The instance lives on after a call that threw: the application or the
    event loop takes the exception. *)
Definition run (xs : list Stimulus) (s : State) : State :=
  fold_left (fun s x => snd (react x s)) xs s.

(** The document and the frame counter after [addPortal] has made the
    iframe for [o] and pointed it at [src]. *)
Definition framed (s : State) (o src : string) : State :=
  with_body
    (map (fun f => if Nat.eqb (frame_id f) (next_frame s)
                   then set_src f src else f)
         (body s ++ [mkFrame (next_frame s) o "1" "1" "hidden" "absolute" ""]))
    (with_next_frame (S (next_frame s)) s).

(** The states an instance can be in: the one the constructor leaves and
    those that follow it. *)
Definition reachable (s : State) : Prop :=
  exists ctx xs, s = run xs (new_Symbiosome ctx).

(** *** Observing the log *)

(** The events a computation adds to the log. *)
Definition trace {A} (m : Eff A) (s : State) : list Event :=
  skipn (length (log s)) (log (snd (m s))).

Definition is_debug (e : Event) : bool :=
  match e with DebugCall _ _ _ => true | _ => false end.


(** The trace without the diagnostics. *)
Definition effects {A} (m : Eff A) (s : State) : list Event :=
  filter (fun e => negb (is_debug e)) (trace m s).

(** The call [broadcast] makes to the instance's own listener for
    [origin], when there is one. *)
Definition delivery (s : State) (origin : string) (data : Message)
    : list Event :=
  match JsObject.get (listeners s) origin with
  | Some h => [HandlerCall h origin data]
  | None => []
  end.

(** The call [(per_call ?? default)?.(origin, message)]. *)
Definition callback (per_call default : option Callback) (origin : string)
    (message : option Message) : list Event :=
  match nullish per_call default with
  | Some g => [CallbackCall g origin message]
  | None => []
  end.

(** The call [this.context.debug?.(message, data)]. *)
Definition diagnostic (s : State) (message : string)
    (data : option (list DebugArg)) : list Event :=
  match debug (context s) with
  | Some g => [DebugCall g message data]
  | None => []
  end.

End Engine.

Arguments Returned {A} a.
Arguments Thrown {A} e.

(** ** A concrete page

    A stand-in for the browser on plain [scheme://host/path] URLs, with
    payloads, handlers and callbacks named by strings.  It is used to run
    the engine on examples. *)

Module Demo.

Fixpoint until_delimiter (s : string) : string :=
  match s with
  | EmptyString => EmptyString
  | String c rest =>
      if (Ascii.eqb c "/"%char || Ascii.eqb c "?"%char
          || Ascii.eqb c "#"%char)%bool
      then EmptyString
      else String c (until_delimiter rest)
  end.

Definition origin_of (url : string) : option string :=
  match index 0 "://" url with
  | Some n =>
      Some (substring 0 (n + 3) url
            ++ until_delimiter
                 (substring (n + 3) (String.length url - (n + 3)) url))
  | None => None
  end.

Definition page (own : string) (parent_param : option string) : Host :=
  mkHost own parent_param origin_of
         (fun url o => url ++ "?parent=" ++ o)
         (fun f => Some (FrameWindow (frame_id f))).

Definition a_example := "https://a.example".
Definition b_example := "https://b.example".
Definition c_example := "https://c.example".

(** The page of [b.example], opened on its own. *)
Definition top_page : Host := page b_example None.

(** The page of [b.example], embedded as a portal by [a.example]. *)
Definition portal_page : Host := page b_example (Some a_example).

(** The page of [b.example] in portal mode, with [parent] naming
    itself. *)
Definition self_parent_page : Host := page b_example (Some b_example).

Definition verbose (portal : bool) : @SymbiosomeContext string :=
  mkContext portal (Some "onAdded") (Some "onListen") (Some "onPush")
            (Some "onRemovedPortal") (Some "onRemovedListener")
            (Some "debug").

Definition St := @State string string string.

(** A fresh instance on the top-level page. *)
Definition fresh : St := new_Symbiosome top_page (verbose false).

(** The same after [addPortal] of a page of [a.example]. *)
Definition with_portal_a : St :=
  run top_page [AppCall (AddPortal "https://a.example/portal.html" None)]
      fresh.


(** A fresh instance that listens to its own origin. *)
Definition listening_to_self : St :=
  run top_page [AppCall (ListenToOrigin b_example "onMessage" None)] fresh.

(** An instance in portal mode, embedded by [a.example] and listening to
    it. *)
Definition listening_portal : St :=
  run portal_page [AppCall (ListenToOrigin a_example "onMessage" None)]
      (new_Symbiosome portal_page (verbose true)).

End Demo.

(** ** The iframes behind the portals *)

Section Attachment.
Context {Message Handler Callback : Type}.
Variable host : Host.

(** [f] is an iframe as [addPortal] makes them for the origin [o]: named
    by the origin, one pixel wide and high, hidden, positioned absolutely,
    and pointed at a URL of that origin to which the own origin was added
    as the [parent] parameter. *)
Definition portal_frame (o : string) (f : Frame) : Prop :=
  frame_name f = o /\
  frame_width f = "1" /\
  frame_height f = "1" /\
  frame_visibility f = "hidden" /\
  frame_position f = "absolute" /\
  exists url,
    URL_origin host url = Some o /\
    frame_src f = URL_with_parent host url (window_origin host).

(** Every portal of the registry refers to an iframe that is in the
    document, was made for the portal's origin, and whose window the
    portal holds. *)
Definition portals_attached (s : @State Message Handler Callback) : Prop :=
  forall o p,
    JsObject.get (portals s) o = Some p ->
    exists f,
      In f (body s) /\
      frame_id f = frame p /\
      portal_frame o f /\
      contentWindow host f = Some (window p).

(** The iframes of the document are distinct elements, all made before
    the next one. *)
Definition frames_distinct (s : @State Message Handler Callback) : Prop :=
  NoDup (map frame_id (body s)) /\
  forall f, In f (body s) -> frame_id f < next_frame s.

End Attachment.

(** ** More concrete pages *)

Module Scenario.

(** The page of [a.example], which embeds portals. *)
Definition parent_page : Host := Demo.page Demo.a_example None.

(** An instance on [a.example] with a portal for [b.example]. *)
Definition parent_with_portal : Demo.St :=
  run parent_page
      [AppCall (AddPortal "https://b.example/portal.html" None)]
      (new_Symbiosome parent_page (Demo.verbose false)).

(** A context of [b.example] that listens to [a.example]. *)
Definition tab_listening_a : Demo.St :=
  run Demo.top_page
      [AppCall (ListenToOrigin "https://a.example/app" "onMessage" None)]
      Demo.fresh.

(** A page of [b.example] on which iframes get no window. *)
Definition windowless_page : Host :=
  mkHost Demo.b_example None Demo.origin_of
         (fun url o => url ++ "?parent=" ++ o)
         (fun _ => None).

Definition windowless_fresh : Demo.St :=
  new_Symbiosome windowless_page (Demo.verbose false).

(** An instance of [b.example] with portals for [a.example] and
    [c.example], listening to [c.example] and to itself. *)
Definition busy : Demo.St :=
  run Demo.top_page
      [AppCall (ListenToOrigin Demo.c_example "onC" None);
       AppCall (AddPortal "https://a.example/portal.html" None);
       AppCall (ListenToOrigin Demo.b_example "onSelf" None);
       AppCall (AddPortal "https://c.example/portal.html" None)]
      Demo.fresh.

Definition busy_history : list (@Stimulus string string string) :=
  [AppCall (ListenToOrigin Demo.c_example "onC" None);
   AppCall (AddPortal "https://a.example/portal.html" None);
   AppCall (ListenToOrigin Demo.b_example "onSelf" None);
   AppCall (AddPortal "https://c.example/portal.html" None)].

End Scenario.

(** ** The demonstration page: class [BasicExample]

    [BasicExample] is the context of one [Symbiosome] instance and keeps
    five containers of the page in step with it.  Its methods only touch
    those containers, and the engine never reads them, so what the
    methods do during a call of the engine is obtained by running them
    over the events the call has logged, in order.  The five containers
    are distinct elements, none inside another.

    The elements of the page that the class has not made are [Foreign];
    they are taken not to match its selectors.  Origins are taken to be
    free of quotes, so that the attribute selectors built from them select
    by equality.

    The class assumes that a payload is a string or a [Float32Array], but
    its methods take any value.  Of a value that is not a string they
    print [message.constructor.name] and [message[0]], which are kept as
    printed; for [null], [undefined] and any other value of which one of
    the two cannot be read or printed, the template throws a TypeError
    before the clock is read and before anything is appended.  The engine
    calls the handler of an incoming message last, so that such an error
    leaves the instance as the model has it. *)

Module BasicExample.

(** The methods the class hands to the engine. *)
Inductive Method :=
| OnAdded
| OnListen
| OnPush
| OnRemovedPortal
| OnRemovedListener
| OnMessage.

Inductive Payload :=
(** [typeof message === `string`] *)
| Text (s : string)
(** a [Float32Array] *)
| Floats (first : string)
(** any other value whose [constructor.name] and [[0]] can be printed *)
| Other (constructor_name first : string)
(** [null], [undefined], and any other value on which the template
    throws *)
| Unprintable.

(** The click listener of an entry: [() => this.removeListener( origin )]
    or [() => this.removePortal( origin )]. *)
Inductive Click :=
| ClickRemovesListener (origin : string)
| ClickRemovesPortal (origin : string).

Inductive Element :=
(** the [p] of [onListen] and [onAdded] *)
| Entry (textContent title data_id : string) (click : Click)
(** the [p] of [onPush] and [onMessage] *)
| Line (textContent : string)
(** the [option] of [onAdded] *)
| Choice (value textContent : string)
| Foreign.

(** The containers of [this.el], each with its children; [None] when
    [document.querySelector] found no such element. *)
Record EL := mkEL {
  origin_select : option (list Element);
  in_message : option (list Element);
  out_message : option (list Element);
  el_listeners : option (list Element);
  el_portals : option (list Element)
}.

(** The containers and the number of times the clock was read. *)
Record Page := mkPage {
  el : EL;
  readings : nat
}.

(** [container?.appendChild( child )] *)
Definition appendChild (container : option (list Element))
    (child : Element) : option (list Element) :=
  option_map (fun children => children ++ [child])%list container.

(** [container?.querySelector( selector )?.remove()] *)
Fixpoint remove_first (selector : Element -> bool)
    (children : list Element) : list Element :=
  match children with
  | [] => []
  | e :: rest =>
      if selector e then rest else e :: remove_first selector rest
  end.

(** [p[data-id="origin"]] *)
Definition entry_of (origin : string) (e : Element) : bool :=
  match e with
  | Entry _ _ id _ => String.eqb id origin
  | _ => false
  end.

(** [option[value="origin"]] *)
Definition choice_of (origin : string) (e : Element) : bool :=
  match e with
  | Choice value _ => String.eqb value origin
  | _ => false
  end.

(** [const writer = typeof message === `string` ? message
    : `${message.constructor.name} first value: ${message[ 0 ]}`]: the
    text after the last [--] of a line; [None] when the template throws. *)
Definition writer (message : Payload) : option string :=
  match message with
  | Text s => Some s
  | Floats first => Some ("Float32Array first value: " ++ first)
  | Other constructor_name first =>
      Some (constructor_name ++ " first value: " ++ first)
  | Unprintable => None
  end.

Section Class.
Variable host : Host.

(** [( new Date() ).toUTCString()] at the n-th reading of the clock. *)
Variable toUTCString : nat -> string.

(** The [p] whose text is
    [`${( new Date() ).toUTCString()}  --  ${origin} --  ${writer}`]. *)
Definition line (origin : string) (written : string) (p : Page) : Element :=
  Line (toUTCString (readings p) ++ "  --  " ++ origin ++ " --  "
        ++ written).

(** [private onPush( origin, message )] *)
Definition onPush (origin : string) (message : Payload) (p : Page) : Page :=
  match writer message with
  | Some written =>
      mkPage (mkEL (origin_select (el p)) (in_message (el p))
                   (appendChild (out_message (el p)) (line origin written p))
                   (el_listeners (el p)) (el_portals (el p)))
             (S (readings p))
  | None => p
  end.

(** [private onMessage( origin, message )] *)
Definition onMessage (origin : string) (message : Payload) (p : Page)
    : Page :=
  match writer message with
  | Some written =>
      mkPage (mkEL (origin_select (el p))
                   (appendChild (in_message (el p)) (line origin written p))
                   (out_message (el p))
                   (el_listeners (el p)) (el_portals (el p)))
             (S (readings p))
  | None => p
  end.

(** [private onListen( origin )] *)
Definition onListen (origin : string) (p : Page) : Page :=
  mkPage (mkEL (origin_select (el p)) (in_message (el p))
               (out_message (el p))
               (appendChild (el_listeners (el p))
                  (Entry origin "Click to remove" origin
                         (ClickRemovesListener origin)))
               (el_portals (el p)))
         (readings p).

(** [private onAdded( origin )] *)
Definition onAdded (origin : string) (p : Page) : Page :=
  mkPage (mkEL (appendChild (origin_select (el p)) (Choice origin origin))
               (in_message (el p)) (out_message (el p))
               (el_listeners (el p))
               (appendChild (el_portals (el p))
                  (Entry origin "Click to remove" origin
                         (ClickRemovesPortal origin))))
         (readings p).

(** [private onRemovedListener( origin )] *)
Definition onRemovedListener (origin : string) (p : Page) : Page :=
  mkPage (mkEL (origin_select (el p)) (in_message (el p))
               (out_message (el p))
               (option_map (remove_first (entry_of origin))
                           (el_listeners (el p)))
               (el_portals (el p)))
         (readings p).

(** [private onRemovedPortal( origin )] *)
Definition onRemovedPortal (origin : string) (p : Page) : Page :=
  mkPage (mkEL (option_map (remove_first (choice_of origin))
                           (origin_select (el p)))
               (in_message (el p)) (out_message (el p))
               (el_listeners (el p))
               (option_map (remove_first (entry_of origin))
                           (el_portals (el p))))
         (readings p).

(** The class as a [SymbiosomeContext]: [isPortal] is true, the five
    callbacks are its methods, and [debug] is never assigned. *)
Definition as_context : @SymbiosomeContext Method :=
  mkContext true (Some OnAdded) (Some OnListen) (Some OnPush)
            (Some OnRemovedPortal) (Some OnRemovedListener) None.

(** One call of the engine into the class. *)
Definition call (e : @Event Payload Method Method) (p : Page) : Page :=
  match e with
  | CallbackCall OnAdded origin _ => onAdded origin p
  | CallbackCall OnListen origin _ => onListen origin p
  | CallbackCall OnPush origin (Some message) => onPush origin message p
  | CallbackCall OnRemovedPortal origin _ => onRemovedPortal origin p
  | CallbackCall OnRemovedListener origin _ => onRemovedListener origin p
  | HandlerCall OnMessage origin message => onMessage origin message p
  | _ => p
  end.

Definition calls (events : list (@Event Payload Method Method)) (p : Page)
    : Page :=
  fold_left (fun p e => call e p) events p.

(** The instance [this.sym] and the page. *)
Record Example := mkExample {
  sym : @State Payload Method Method;
  page : Page
}.

(** [constructor()], on a page whose containers are [initial]: the
    engine's constructor already calls [onAdded] with the own origin. *)
Definition new_BasicExample (initial : EL) : Example :=
  let s := new_Symbiosome host as_context in
  mkExample s (calls (log s) (mkPage initial 0)).

(** A call or event of the engine and what the class does during it. *)
Definition step (x : @Stimulus Payload Method Method) (a : Example)
    : Example :=
  mkExample (snd (react host x (sym a)))
            (calls (trace (react host x) (sym a)) (page a)).

Inductive Container := ListenersList | PortalsList.

Definition children (c : Container) (p : Page) : list Element :=
  match (match c with
         | ListenersList => el_listeners (el p)
         | PortalsList => el_portals (el p)
         end) with
  | Some l => l
  | None => []
  end.

(** What happens on the page.  The values of the inputs and of the select
    are those read at the click ([None] when the element is missing); the
    first value of the array made by [send_data] is [random]. *)
Inductive PageEvent :=
| ClickAdd (input_add : option string)
| ClickListen (input_listen : option string)
| ClickSend (input_send selected : option string)
| ClickSendData (selected : option string) (random : string)
| ClickChild (c : Container) (n : nat)
| WindowMessageEvent (event : @PortalEvent Payload)
| ChannelMessageEvent (event : @BroadcastEvent Payload).

Definition on_event (u : PageEvent) (a : Example) : Example :=
  match u with
  | ClickAdd input_add =>
      match input_add with
      | Some url =>
          if truthy input_add then step (AppCall (AddPortal url None)) a
          else a
      | None => a
      end
  | ClickListen input_listen =>
      match input_listen with
      | Some url =>
          if truthy input_listen
          then step (AppCall (ListenToOrigin url OnMessage None)) a
          else a
      | None => a
      end
  | ClickSend input_send selected =>
      match input_send, selected with
      | Some text, Some origin =>
          if (truthy input_send && truthy selected)%bool
          then step (AppCall (PushToOrigin origin (Text text) None)) a
          else a
      | _, _ => a
      end
  | ClickSendData selected random =>
      match selected with
      | Some origin =>
          if truthy selected
          then step (AppCall (PushToOrigin origin (Floats random) None)) a
          else a
      | None => a
      end
  | ClickChild c n =>
      match nth_error (children c (page a)) n with
      | Some (Entry _ _ _ (ClickRemovesListener origin)) =>
          step (AppCall (RemoveListener origin None)) a
      | Some (Entry _ _ _ (ClickRemovesPortal origin)) =>
          step (AppCall (RemovePortal origin None)) a
      | _ => a
      end
  | WindowMessageEvent event => step (WindowMessage event) a
  | ChannelMessageEvent event => step (ChannelMessage event) a
  end.

Definition after (us : list PageEvent) (a : Example) : Example :=
  fold_left (fun a u => on_event u a) us a.

(** The origins shown by the entries of a container, and the values of
    the options of the select. *)
Definition entry_ids (l : list Element) : list string :=
  flat_map (fun e => match e with Entry _ _ id _ => [id] | _ => [] end) l.

Definition choice_values (l : list Element) : list string :=
  flat_map (fun e => match e with Choice value _ => [value] | _ => [] end) l.

(** A page on which the class has not yet made anything. *)
Definition untouched (initial : EL) : Prop :=
  forall l,
    origin_select initial = Some l \/ el_listeners initial = Some l
    \/ el_portals initial = Some l ->
    entry_ids l = [] /\ choice_values l = [].

(** The page shows the registries of the instance: the own origin and the
    portals in the list of portals and in the select, the listeners in
    the list of listeners. *)
Definition in_step (a : Example) : Prop :=
  (forall l,
     el_portals (el (page a)) = Some l ->
     entry_ids l = window_origin host :: JsObject.keys (portals (sym a))) /\
  (forall l,
     origin_select (el (page a)) = Some l ->
     choice_values l
       = window_origin host :: JsObject.keys (portals (sym a))) /\
  (forall l,
     el_listeners (el (page a)) = Some l ->
     entry_ids l = JsObject.keys (listeners (sym a))).

(** An entry shows the origin it is made for and removes it on a
    click. *)
Definition made_for (click : string -> Click) (e : Element) : Prop :=
  match e with
  | Entry textContent title data_id on_click =>
      textContent = data_id /\ title = "Click to remove" /\
      on_click = click data_id
  | _ => True
  end.

(** Every entry is as the class makes them, and every listener is
    [onMessage]. *)
Definition well_made (a : Example) : Prop :=
  (forall e, In e (children ListenersList (page a)) ->
             made_for ClickRemovesListener e) /\
  (forall e, In e (children PortalsList (page a)) ->
             made_for ClickRemovesPortal e) /\
  (forall o h, JsObject.get (listeners (sym a)) o = Some h -> h = OnMessage).

(** The instance of the page is an instance of the engine made with the
    class as its context. *)
Definition engine_of (a : Example) : Prop :=
  exists xs, sym a = run host xs (new_Symbiosome host as_context).

(** The calls that only write lines of messages. *)
Definition message_only (e : @Event Payload Method Method) : bool :=
  match e with
  | CallbackCall OnPush _ _ => true
  | CallbackCall _ _ _ => false
  | _ => true
  end.

(** The calls and events of the engine that the page gives rise to. *)
Definition from_page (x : @Stimulus Payload Method Method) : Prop :=
  match x with
  | AppCall (ListenToOrigin _ h cb) => h = OnMessage /\ cb = None
  | AppCall (AddPortal _ cb) => cb = None
  | AppCall (PushToOrigin _ _ cb) => cb = None
  | AppCall (RemovePortal _ cb) => cb = None
  | AppCall (RemoveListener _ cb) => cb = None
  | WindowMessage _ => True
  | ChannelMessage _ => True
  end.

End Class.

(** A page with all five containers, empty, and a clock that reads
    [t0], [t1], ... *)
Definition empty_page : EL :=
  mkEL (Some []) (Some []) (Some []) (Some []) (Some []).

Definition clock (n : nat) : string :=
  "t" ++ String (Ascii.ascii_of_nat (48 + n)) "".

(** The page of [b.example] after a portal for [a.example] was added and
    the page began to listen to its own origin. *)
Definition visit : list PageEvent :=
  [ClickAdd (Some "https://a.example/portal.html");
   ClickListen (Some "https://b.example")].

Definition visited : Example :=
  after Demo.top_page clock visit
        (new_BasicExample Demo.top_page clock empty_page).

(** The page of [b.example] in the iframe of a portal of [a.example],
    after it began to listen to [a.example]. *)
Definition embedding : list PageEvent :=
  [ClickListen (Some "https://a.example")].

Definition embedded : Example :=
  after Demo.portal_page clock embedding
        (new_BasicExample Demo.portal_page clock empty_page).

End BasicExample.

(** * Properties *)

(** ** Facts about objects used as maps *)

Module JsObjectFacts.
Import JsObject.

Section Facts.
Context {V : Type}.
Implicit Types (o : t V) (k : string) (v : V).

Lemma get_set_same o k v : get (set o k v) k = Some v.
Proof.
  induction o as [|[k' v'] rest IH]; simpl.
  - now rewrite String.eqb_refl.
  - destruct (String.eqb k' k) eqn:E; simpl; rewrite E; auto.
Qed.

Lemma get_set_other o k k' v : k <> k' -> get (set o k v) k' = get o k'.
Proof.
  intros Hne. induction o as [|[k0 v0] rest IH]; simpl.
  - apply String.eqb_neq in Hne. now rewrite Hne.
  - destruct (String.eqb k0 k) eqn:E; simpl.
    + apply String.eqb_eq in E; subst k0.
      apply String.eqb_neq in Hne. now rewrite Hne.
    + now rewrite IH.
Qed.

Lemma get_delete_same o k : get (delete o k) k = None.
Proof.
  induction o as [|[k' v'] rest IH]; simpl; auto.
  destruct (String.eqb k' k) eqn:E; simpl; auto. now rewrite E.
Qed.

Lemma get_delete_other o k k' : k <> k' -> get (delete o k) k' = get o k'.
Proof.
  intros Hne. induction o as [|[k0 v0] rest IH]; simpl; auto.
  destruct (String.eqb k0 k) eqn:E; simpl.
  - apply String.eqb_eq in E; subst k0.
    apply String.eqb_neq in Hne. now rewrite Hne.
  - now rewrite IH.
Qed.

Lemma has_set_same o k v : has (set o k v) k = true.
Proof. unfold has. now rewrite get_set_same. Qed.

Lemma has_delete_same o k : has (delete o k) k = false.
Proof. unfold has. now rewrite get_delete_same. Qed.

Lemma has_delete_other o k k' : k <> k' -> has (delete o k) k' = has o k'.
Proof. intros. unfold has. now rewrite get_delete_other. Qed.

Lemma has_set_other o k k' v : k <> k' -> has (set o k v) k' = has o k'.
Proof. intros. unfold has. now rewrite get_set_other. Qed.

Lemma has_true_iff o k : has o k = true <-> In k (keys o).
Proof.
  unfold has, keys. induction o as [|[k' v'] rest IH]; simpl.
  - split; [discriminate | tauto].
  - destruct (String.eqb k' k) eqn:E.
    + apply String.eqb_eq in E. tauto.
    + apply String.eqb_neq in E. rewrite IH. tauto.
Qed.

Lemma has_false_iff o k : has o k = false <-> ~ In k (keys o).
Proof.
  rewrite <- has_true_iff. destruct (has o k); split; congruence.
Qed.

Lemma keys_set o k v :
  keys (set o k v) = if has o k then keys o else (keys o ++ [k])%list.
Proof.
  unfold has, keys. induction o as [|[k' v'] rest IH]; simpl; auto.
  destruct (String.eqb k' k) eqn:E; simpl; auto.
  rewrite IH. now destruct (get rest k).
Qed.

Lemma NoDup_keys_set o k v : NoDup (keys o) -> NoDup (keys (set o k v)).
Proof.
  intros Hnd. rewrite keys_set. destruct (has o k) eqn:E; auto.
  apply has_false_iff in E.
  apply NoDup_app; auto.
  - repeat constructor. simpl. tauto.
  - intros x Hx [<-|[]]. auto.
Qed.

Lemma In_keys_set o k v k' :
  In k' (keys (set o k v)) <-> k' = k \/ In k' (keys o).
Proof.
  rewrite keys_set. destruct (has o k) eqn:E.
  - apply has_true_iff in E. split; [tauto|]. intros [->|]; auto.
  - rewrite in_app_iff. simpl. intuition congruence.
Qed.

Lemma In_keys_delete o k k' :
  In k' (keys (delete o k)) <-> k' <> k /\ In k' (keys o).
Proof.
  rewrite <- !has_true_iff. destruct (String.eqb_spec k k') as [<-|Hne].
  - rewrite has_delete_same. split; [discriminate | tauto].
  - rewrite has_delete_other by auto. intuition congruence.
Qed.

Lemma NoDup_keys_delete o k : NoDup (keys o) -> NoDup (keys (delete o k)).
Proof.
  unfold keys. induction o as [|[k' v'] rest IH]; simpl; auto.
  intros Hnd. inversion Hnd as [|? ? Hnotin Hrest]; subst.
  destruct (String.eqb k' k); simpl; auto.
  constructor; auto.
  intros Hin. apply Hnotin.
  apply (proj1 (In_keys_delete rest k k')) in Hin. tauto.
Qed.

Lemma In_keys_assign (target source : t V) k :
  In k (keys (assign target source)) <->
  In k (keys target) \/ In k (keys source).
Proof.
  unfold assign. revert target.
  induction source as [|[k' v'] rest IH]; intros target; simpl.
  - tauto.
  - rewrite IH, In_keys_set. intuition congruence.
Qed.

Lemma NoDup_keys_assign (target source : t V) :
  NoDup (keys target) -> NoDup (keys (assign target source)).
Proof.
  unfold assign. revert target.
  induction source as [|[k' v'] rest IH]; intros target Hnd; simpl; auto.
  apply IH. now apply NoDup_keys_set.
Qed.

(** Reading a key through the entries of the object. *)
Lemma get_absent o k : ~ In k (keys o) -> get o k = None.
Proof.
  intros H. apply has_false_iff in H. unfold has in H.
  destruct (get o k); [discriminate | reflexivity].
Qed.

Lemma get_registered o k v : NoDup (keys o) -> In (k, v) o -> get o k = Some v.
Proof.
  unfold keys. induction o as [|[k' v'] rest IH]; simpl; [tauto|].
  intros Hnd [Heq|Hin]; inversion Hnd as [|? ? Hnotin Hrest]; subst.
  - injection Heq as -> ->. now rewrite String.eqb_refl.
  - destruct (String.eqb_spec k' k) as [->|Hne]; [|auto].
    exfalso. apply Hnotin. apply (in_map fst) in Hin. exact Hin.
Qed.

Lemma In_delete o k k' v : k' <> k -> In (k', v) (delete o k) <-> In (k', v) o.
Proof.
  intros Hne. induction o as [|[k0 v0] rest IH]; simpl; [tauto|].
  destruct (String.eqb_spec k0 k) as [->|Hne0]; simpl.
  - rewrite IH. split; [tauto|]. intros [Heq|Hin]; [|exact Hin].
    injection Heq as -> _. contradiction.
  - rewrite IH. tauto.
Qed.

End Facts.
End JsObjectFacts.

(** ** Facts about the engine *)

Lemma skipn_length_app {A} (l extra : list A) :
  skipn (length l) (l ++ extra) = extra.
Proof. induction l; simpl; auto. Qed.

Lemma skipn_length_self {A} (l : list A) : skipn (length l) l = [].
Proof. induction l; simpl; auto. Qed.

Ltac unfold_eff :=
  unfold call_optional, debug_trace, when in *;
  unfold emit in *;
  unfold bind, gets, modify, throw, ret in *.

Section EngineFacts.
Context {Message Handler Callback : Type}.
Variable host : Host.
Implicit Types (s : @State Message Handler Callback).
Implicit Types (m data : Message) (h : Handler).

Lemma broadcast_spec s origin data :
  fst (broadcast origin data s) = Returned tt /\
  snd (broadcast origin data s) =
    with_log (log s ++ ChannelPost (channelID s) origin data
                :: delivery s origin data)%list s.
Proof.
  unfold broadcast, delivery. unfold_eff. simpl.
  destruct (JsObject.get (listeners s) origin); simpl;
    unfold with_log; simpl; rewrite <- ?app_assoc; auto.
Qed.

(** *** Each method in closed form *)

Lemma pushToOrigin_own_spec s m (onPush : option Callback) :
  pushToOrigin host (window_origin host) m onPush s =
    (Returned tt,
     with_log (log s
               ++ ChannelPost (channelID s) (window_origin host) m
                  :: delivery s (window_origin host) m
               ++ callback onPush (onPushedMessage (context s))
                           (window_origin host) (Some m))%list s).
Proof.
  unfold pushToOrigin. rewrite String.eqb_refl.
  unfold bind at 1 2.
  destruct (broadcast_spec s (window_origin host) m) as [Hr Hs].
  destruct (broadcast (window_origin host) m s) as [r s1]; simpl in *.
  subst r s1. unfold_eff. unfold callback. simpl.
  destruct (nullish onPush (onPushedMessage (context s))); simpl;
    unfold with_log; simpl; rewrite <- ?app_assoc; simpl;
    rewrite ?app_nil_r; reflexivity.
Qed.

Lemma pushToOrigin_remote_spec s origin m (onPush : option Callback) :
  origin <> window_origin host ->
  pushToOrigin host origin m onPush s =
    match JsObject.get (portals s) origin with
    | None => (Thrown (PortalNotFound origin), s)
    | Some portal =>
        (Returned tt,
         with_log (log s
                   ++ WindowPost (window portal) m origin
                      :: callback onPush (onPushedMessage (context s))
                                  origin (Some m))%list s)
    end.
Proof.
  intros Hne. apply String.eqb_neq in Hne.
  unfold pushToOrigin. rewrite Hne. unfold_eff. unfold callback. simpl.
  destruct (JsObject.get (portals s) origin) as [portal|]; simpl; auto.
  destruct (nullish onPush (onPushedMessage (context s))); simpl;
    unfold with_log; simpl; rewrite <- ?app_assoc; reflexivity.
Qed.

Lemma listenToOrigin_spec s origin h (onListen : option Callback) :
  listenToOrigin host origin h onListen s =
    match URL_origin host origin with
    | None => (Thrown (InvalidURL origin), s)
    | Some o =>
        if JsObject.has (listeners s) o
        then (Thrown (DuplicateOrigin Listeners o), s)
        else
          (Returned tt,
           with_log (log s
                     ++ callback onListen (onListenToOrigin (context s))
                                 o None)%list
             (with_listeners (JsObject.set (listeners s) o h) s))
    end.
Proof.
  unfold listenToOrigin.
  destruct (URL_origin host origin) as [o|]; auto.
  unfold_eff. unfold callback. simpl.
  destruct (JsObject.has (listeners s) o); simpl; auto.
  destruct (nullish onListen (onListenToOrigin (context s))); simpl;
    unfold with_log, with_listeners; simpl; rewrite ?app_nil_r;
    destruct s; reflexivity.
Qed.

Lemma removeListener_spec s origin (onRemoved : option Callback) :
  removeListener origin onRemoved s =
    if JsObject.has (listeners s) origin
    then
      (Returned tt,
       with_log (log s
                 ++ callback onRemoved (onListenerRemoved (context s))
                             origin None)%list
         (with_listeners (JsObject.delete (listeners s) origin) s))
    else (Thrown (NotFound Listeners origin), s).
Proof.
  unfold removeListener. unfold_eff. unfold callback. simpl.
  destruct (JsObject.has (listeners s) origin); simpl; auto.
  destruct (nullish onRemoved (onListenerRemoved (context s))); simpl;
    unfold with_log, with_listeners; simpl; rewrite ?app_nil_r;
    destruct s; reflexivity.
Qed.

Lemma removePortal_spec s origin (onRemoved : option Callback) :
  removePortal host origin onRemoved s =
    if String.eqb origin (window_origin host)
    then (Thrown (SelfOrigin AtRemovePortal origin), s)
    else
      match JsObject.get (portals s) origin with
      | None => (Thrown (NotFound Portals origin), s)
      | Some portal =>
          (Returned tt,
           with_log (log s
                     ++ callback onRemoved (onPortalRemoved (context s))
                                 origin None)%list
             (with_portals (JsObject.delete (portals s) origin)
                (with_body
                   (filter (fun f => negb (Nat.eqb (frame_id f)
                                                   (frame portal)))
                           (body s)) s)))
      end.
Proof.
  unfold removePortal.
  destruct (String.eqb origin (window_origin host)); auto.
  unfold remove_frame. unfold_eff. unfold callback. simpl.
  destruct (JsObject.get (portals s) origin) as [portal|]; simpl; auto.
  destruct (nullish onRemoved (onPortalRemoved (context s))); simpl;
    unfold with_log, with_portals, with_body; simpl; rewrite ?app_nil_r;
    reflexivity.
Qed.

Lemma addPortal_spec s url (onAdded : option Callback) :
  addPortal host url onAdded s =
    match URL_origin host url with
    | None => (Thrown (InvalidURL url), s)
    | Some o =>
        if String.eqb o (window_origin host)
        then (Thrown (SelfOrigin AtAddPortal (window_origin host)), s)
        else if JsObject.has (portals s) o
        then (Thrown (DuplicateOrigin Portals o), s)
        else
          let src := URL_with_parent host url (window_origin host) in
          match contentWindow host
                  (mkFrame (next_frame s) o "1" "1" "hidden" "absolute" src)
          with
          | None => (Thrown (TransportUnavailable o), framed s o src)
          | Some w =>
              (Returned tt,
               with_log (log s
                         ++ callback onAdded (onPortalAdded (context s))
                                     o None)%list
                 (with_portals
                    (JsObject.set (portals s) o (mkPortal (next_frame s) w))
                    (framed s o src)))
          end
    end.
Proof.
  unfold addPortal.
  destruct (URL_origin host url) as [o|]; auto.
  destruct (String.eqb o (window_origin host)); auto.
  unfold createFrame, assign_src, framed. unfold_eff. unfold callback.
  simpl.
  destruct (JsObject.has (portals s) o); simpl; auto.
  unfold set_src; simpl.
  destruct (contentWindow host _) as [w|]; simpl; auto.
  destruct (nullish onAdded (onPortalAdded (context s))); simpl;
    unfold with_log, with_portals, with_body, with_next_frame; simpl;
    rewrite ?app_nil_r; reflexivity.
Qed.

Lemma handleBroadcast_spec s (event : BroadcastEvent) :
  handleBroadcast event s =
    (Returned tt,
     with_log (log s
               ++ diagnostic s "Incoming broadcast"
                             (Some [ArgBroadcastEvent event])
               ++ match JsObject.get (listeners s) (data_origin event) with
                  | Some h =>
                      [HandlerCall h (data_origin event) (data_data event)]
                  | None =>
                      diagnostic s "Broadcast received from unlisted origin"
                                 (Some [ArgBroadcastEvent event])
                  end)%list s).
Proof.
  unfold handleBroadcast, diagnostic. unfold_eff.
  destruct s as [ctx l p w po ch b fs n lg]; simpl.
  destruct (debug ctx) eqn:Hd; simpl;
    destruct (JsObject.get l (data_origin event)); simpl;
    rewrite ?Hd; unfold with_log; simpl;
    rewrite <- ?app_assoc, ?app_nil_r; reflexivity.
Qed.

Lemma handlePortalMessage_spec s (event : PortalEvent) :
  handlePortalMessage event s =
    (Returned tt,
     with_log (log s
               ++ diagnostic s "Incoming message"
                             (Some [ArgPortalEvent event])
               ++ if strict_eq (event_origin event) (parentOrigin s)
                  then ChannelPost (channelID s) (event_origin event)
                                   (event_data event)
                       :: delivery s (event_origin event) (event_data event)
                  else
                    diagnostic s
                      ("Incoming message from " ++ event_origin event
                       ++ " not from parent " ++ interpolate (parentOrigin s))
                      (Some [ArgPortalEvent event]))%list s).
Proof.
  unfold handlePortalMessage, broadcast, diagnostic, delivery.
  unfold_eff.
  destruct s as [ctx l p w po ch b fs n lg]; simpl.
  destruct (debug ctx) eqn:Hd; simpl;
    destruct (strict_eq (event_origin event) po); simpl;
    try destruct (JsObject.get l (event_origin event)); simpl;
    rewrite ?Hd; unfold with_log; simpl;
    rewrite <- ?app_assoc, ?app_nil_r; reflexivity.
Qed.

End EngineFacts.

(** ** What the methods add to the log, and the constructor *)

Section Traces.
Context {Message Handler Callback : Type}.
Variable host : Host.
Implicit Types (s : @State Message Handler Callback).
Implicit Types (m data : Message) (h : Handler).

Lemma filter_diagnostic s message (args : option (list DebugArg)) :
  filter (fun e => negb (is_debug e)) (diagnostic s message args) = [].
Proof. unfold diagnostic. destruct (debug (context s)); reflexivity. Qed.

Lemma trace_with_log {A} (mm : Eff A) s (r : Outcome A) s' extra :
  mm s = (r, with_log (log s ++ extra)%list s') ->
  trace mm s = extra.
Proof.
  intros E. unfold trace. rewrite E. simpl. apply skipn_length_app.
Qed.

Lemma trace_unchanged {A} (mm : Eff A) s (r : Outcome A) :
  mm s = (r, s) -> trace mm s = [].
Proof.
  intros E. unfold trace. rewrite E. simpl. apply skipn_length_self.
Qed.

Lemma trace_same_log {A} (mm : Eff A) s :
  log (snd (mm s)) = log s -> trace mm s = [].
Proof. intros E. unfold trace. rewrite E. apply skipn_length_self. Qed.

Lemma react_window_message_spec s (event : PortalEvent) :
  react host (WindowMessage event) s =
    if window_message_bound s then handlePortalMessage event s
    else (Returned tt, s).
Proof.
  unfold react. unfold_eff. destruct (window_message_bound s); reflexivity.
Qed.

Lemma pushToOrigin_cases s origin m (onPush : option Callback) :
  pushToOrigin host origin m onPush s = (Thrown (PortalNotFound origin), s)
  \/ exists extra,
       pushToOrigin host origin m onPush s
         = (Returned tt, with_log (log s ++ extra)%list s).
Proof.
  destruct (String.eqb_spec origin (window_origin host)) as [->|Hne].
  - right. rewrite pushToOrigin_own_spec. eauto.
  - rewrite pushToOrigin_remote_spec by assumption.
    destruct (JsObject.get (portals s) origin); eauto.
Qed.

Lemma constructor_spec (ctx : @SymbiosomeContext Callback) :
  let p := search_parent host in
  let own := window_origin host in
  let captured :=
    if (isPortal ctx && truthy p && negb (strict_eq own p))%bool
    then p else None in
  constructor host (blank ctx) =
    (Returned tt,
     mkState ctx JsObject.empty JsObject.empty
       (match captured with Some _ => Some ParentWindow | None => None end)
       captured
       ("symbiosome__" ++ own)%string
       (isPortal ctx) [] 0
       (diagnostic (blank ctx) "Channel ID"
                   (Some [ArgString (Some ("symbiosome__" ++ own)%string)])
        ++ (if isPortal ctx
            then diagnostic (blank ctx) "Parent origin" (Some [ArgString p])
                 ++ match captured with
                    | Some _ => @nil (@Event Message Handler Callback)
                    | None =>
                        diagnostic (blank ctx)
                                   "Is portal but parent is undefined" None
                    end
            else @nil (@Event Message Handler Callback))
        ++ match onPortalAdded ctx with
           | Some g => [CallbackCall g own None]
           | None => @nil (@Event Message Handler Callback)
           end)%list).
Proof.
  unfold constructor, blank, diagnostic. unfold_eff.
  destruct ctx as [portal a b c d e dbg].
  cbn -[append truthy strict_eq].
  destruct portal, dbg, a; cbn -[append truthy strict_eq];
    try reflexivity;
    (destruct (search_parent host) as [q|]; [|reflexivity]);
    destruct (truthy (Some q)) eqn:Ht;
    destruct (strict_eq (window_origin host) (Some q)) eqn:Hs;
    cbn -[append truthy strict_eq]; rewrite ?Ht;
    cbn -[append]; reflexivity.
Qed.

Lemma new_Symbiosome_registries (ctx : @SymbiosomeContext Callback) :
  listeners (new_Symbiosome (Message:=Message) (Handler:=Handler) host ctx)
    = JsObject.empty /\
  portals (new_Symbiosome (Message:=Message) (Handler:=Handler) host ctx)
    = JsObject.empty /\
  context (new_Symbiosome (Message:=Message) (Handler:=Handler) host ctx)
    = ctx.
Proof.
  unfold new_Symbiosome. pose proof (constructor_spec ctx) as E.
  cbv zeta in E. rewrite E. auto.
Qed.

Lemma addPortal_fresh s (O : string) (onAdded : option Callback) :
  O <> window_origin host ->
  URL_origin host O = Some O ->
  JsObject.has (portals s) O = false ->
  (forall f, contentWindow host f <> None) ->
  exists w,
    addPortal host O onAdded s =
      (Returned tt,
       with_log (log s ++ callback onAdded (onPortalAdded (context s))
                                   O None)%list
         (with_portals
            (JsObject.set (portals s) O (mkPortal (next_frame s) w))
            (framed s O (URL_with_parent host O (window_origin host))))).
Proof.
  intros Hne Hcanon Hno Hwin. rewrite addPortal_spec, Hcanon.
  apply String.eqb_neq in Hne. rewrite Hne, Hno. cbv zeta.
  destruct (contentWindow host _) as [w|] eqn:Hw.
  - now exists w.
  - now apply Hwin in Hw.
Qed.

End Traces.

(** ** Invariants of the instance *)

Section Invariants.
Context {Message Handler Callback : Type}.
Variable host : Host.
Implicit Types (s : @State Message Handler Callback).
Implicit Types (m data : Message) (h : Handler).

(** *** What every step preserves *)

Lemma react_preserves s (x : Stimulus) :
  parentOrigin (snd (react host x s)) = parentOrigin s /\
  context (snd (react host x s)) = context s /\
  (JsObject.has (portals s) (window_origin host) = false ->
   JsObject.has (portals (snd (react host x s))) (window_origin host)
     = false).
Proof.
  destruct x as [[o h cb|u cb|o m cb|o cb|o cb]|event|event].
  - cbn [react invoke]. rewrite listenToOrigin_spec.
    destruct (URL_origin host o); [|auto].
    destruct (JsObject.has (listeners s) _); auto.
  - cbn [react invoke]. rewrite addPortal_spec.
    destruct (URL_origin host u) as [o|]; [|auto].
    destruct (String.eqb_spec o (window_origin host)) as [|Hne]; [auto|].
    destruct (JsObject.has (portals s) o); [auto|].
    cbv zeta. destruct (contentWindow host _); cbn; auto.
    repeat split. intros Hno.
    rewrite JsObjectFacts.has_set_other; auto.
  - cbn [react invoke].
    destruct (pushToOrigin_cases host s o m cb) as [E|[extra E]];
      rewrite E; auto.
  - cbn [react invoke]. rewrite removePortal_spec.
    destruct (String.eqb_spec o (window_origin host)) as [|Hne]; [auto|].
    destruct (JsObject.get (portals s) o); cbn; auto.
    repeat split. intros Hno.
    rewrite JsObjectFacts.has_delete_other; auto.
  - cbn [react invoke]. rewrite removeListener_spec.
    destruct (JsObject.has (listeners s) o); auto.
  - rewrite react_window_message_spec.
    destruct (window_message_bound s); [|auto].
    rewrite handlePortalMessage_spec. auto.
  - cbn [react]. rewrite handleBroadcast_spec. auto.
Qed.

Lemma run_preserves (xs : list Stimulus) s :
  parentOrigin (run host xs s) = parentOrigin s /\
  context (run host xs s) = context s /\
  (JsObject.has (portals s) (window_origin host) = false ->
   JsObject.has (portals (run host xs s)) (window_origin host) = false).
Proof.
  revert s. induction xs as [|x xs IH]; intros s; cbn [run fold_left].
  - auto.
  - destruct (react_preserves s x) as (Hp & Hc & Hs).
    destruct (IH (snd (react host x s))) as (Hp' & Hc' & Hs').
    unfold run in *. rewrite Hp', Hc', Hp, Hc. auto.
Qed.

(** No reachable state has a portal for the instance's own origin. *)
Lemma reachable_no_self_portal s :
  reachable host s ->
  JsObject.has (portals s) (window_origin host) = false.
Proof.
  intros (ctx & xs & ->). apply run_preserves.
  destruct (new_Symbiosome_registries (Message:=Message) (Handler:=Handler)
              host ctx) as (_ & Hp & _).
  now rewrite Hp.
Qed.

(** The registries change by one assignment or one [delete] at most. *)
Lemma react_registries s (x : Stimulus) :
  (listeners (snd (react host x s)) = listeners s
   \/ (exists o h,
         listeners (snd (react host x s)) = JsObject.set (listeners s) o h)
   \/ (exists o,
         listeners (snd (react host x s)) = JsObject.delete (listeners s) o))
  /\
  (portals (snd (react host x s)) = portals s
   \/ (exists o p,
         portals (snd (react host x s)) = JsObject.set (portals s) o p)
   \/ (exists o,
         portals (snd (react host x s)) = JsObject.delete (portals s) o)).
Proof.
  destruct x as [[o h cb|u cb|o m cb|o cb|o cb]|event|event].
  - cbn [react invoke]. rewrite listenToOrigin_spec.
    destruct (URL_origin host o) as [o'|]; [|auto].
    destruct (JsObject.has (listeners s) o'); [auto|].
    cbn. split; [right; left; eauto | auto].
  - cbn [react invoke]. rewrite addPortal_spec.
    destruct (URL_origin host u) as [o|]; [|auto].
    destruct (String.eqb o (window_origin host)); [auto|].
    destruct (JsObject.has (portals s) o); [auto|].
    cbv zeta. destruct (contentWindow host _); cbn; [|auto].
    split; [auto | right; left; eauto].
  - cbn [react invoke].
    destruct (pushToOrigin_cases host s o m cb) as [E|[extra E]];
      rewrite E; auto.
  - cbn [react invoke]. rewrite removePortal_spec.
    destruct (String.eqb o (window_origin host)); [auto|].
    destruct (JsObject.get (portals s) o); cbn; [|auto].
    split; [auto | right; right; eauto].
  - cbn [react invoke]. rewrite removeListener_spec.
    destruct (JsObject.has (listeners s) o); cbn; [|auto].
    split; [right; right; eauto | auto].
  - rewrite react_window_message_spec.
    destruct (window_message_bound s); [|auto].
    rewrite handlePortalMessage_spec. auto.
  - cbn [react]. rewrite handleBroadcast_spec. auto.
Qed.

Lemma run_registries_distinct (xs : list Stimulus) s :
  NoDup (JsObject.keys (listeners s)) ->
  NoDup (JsObject.keys (portals s)) ->
  NoDup (JsObject.keys (listeners (run host xs s))) /\
  NoDup (JsObject.keys (portals (run host xs s))).
Proof.
  revert s. induction xs as [|x xs IH]; intros s Hl Hp; cbn [run fold_left].
  - auto.
  - destruct (react_registries s x)
      as ([El|[(o & h & El)|(o & El)]] & [Ep|[(o' & p & Ep)|(o' & Ep)]]);
      apply IH; rewrite ?El, ?Ep;
      auto using JsObjectFacts.NoDup_keys_set,
                 JsObjectFacts.NoDup_keys_delete.
Qed.

(** In a reachable state each registry has one property per key, as a
    JavaScript object has. *)
Lemma reachable_registries_distinct s :
  reachable host s ->
  NoDup (JsObject.keys (listeners s)) /\ NoDup (JsObject.keys (portals s)).
Proof.
  intros (ctx & xs & ->).
  destruct (new_Symbiosome_registries (Message:=Message) (Handler:=Handler)
              host ctx) as (Hl & Hp & _).
  apply run_registries_distinct; rewrite ?Hl, ?Hp; constructor.
Qed.

(** No method rebinds the window handler or renames the channel. *)
Lemma react_keeps_bindings s (x : Stimulus) :
  window_message_bound (snd (react host x s)) = window_message_bound s /\
  channelID (snd (react host x s)) = channelID s.
Proof.
  destruct x as [[o h cb|u cb|o m cb|o cb|o cb]|event|event].
  - cbn [react invoke]. rewrite listenToOrigin_spec.
    destruct (URL_origin host o); [|auto].
    destruct (JsObject.has (listeners s) _); auto.
  - cbn [react invoke]. rewrite addPortal_spec.
    destruct (URL_origin host u) as [o|]; [|auto].
    destruct (String.eqb o (window_origin host)); [auto|].
    destruct (JsObject.has (portals s) o); [auto|].
    cbv zeta. destruct (contentWindow host _); cbn; auto.
  - cbn [react invoke].
    destruct (pushToOrigin_cases host s o m cb) as [E|[extra E]];
      rewrite E; auto.
  - cbn [react invoke]. rewrite removePortal_spec.
    destruct (String.eqb o (window_origin host)); [auto|].
    destruct (JsObject.get (portals s) o); cbn; auto.
  - cbn [react invoke]. rewrite removeListener_spec.
    destruct (JsObject.has (listeners s) o); auto.
  - rewrite react_window_message_spec.
    destruct (window_message_bound s) eqn:E; [|auto].
    rewrite handlePortalMessage_spec. auto.
  - cbn [react]. rewrite handleBroadcast_spec. auto.
Qed.

Lemma run_keeps_bindings (xs : list Stimulus) s :
  window_message_bound (run host xs s) = window_message_bound s /\
  channelID (run host xs s) = channelID s.
Proof.
  revert s. induction xs as [|x xs IH]; intros s; cbn [run fold_left].
  - auto.
  - destruct (react_keeps_bindings s x) as (Hb & Hc).
    destruct (IH (snd (react host x s))) as (Hb' & Hc').
    unfold run in *. rewrite Hb', Hc', Hb, Hc. auto.
Qed.

(** An instance made in portal mode on a page whose [parent] parameter
    names another origin handles window messages and trusts that origin,
    for as long as it lives. *)
Lemma portal_mode_trusts_parent (ctx : @SymbiosomeContext Callback)
    (xs : list Stimulus) (P : string) :
  isPortal ctx = true ->
  search_parent host = Some P ->
  P <> "" ->
  P <> window_origin host ->
  window_message_bound
    (run host xs (new_Symbiosome (Message:=Message) (Handler:=Handler)
                    host ctx)) = true /\
  parentOrigin
    (run host xs (new_Symbiosome (Message:=Message) (Handler:=Handler)
                    host ctx)) = Some P.
Proof.
  intros Hportal Hparam Hne Hown.
  destruct (run_keeps_bindings xs (new_Symbiosome host ctx)) as (Hb & _).
  destruct (run_preserves xs (new_Symbiosome host ctx)) as (Hp & _).
  rewrite Hb, Hp. unfold new_Symbiosome.
  pose proof (constructor_spec (Message:=Message) (Handler:=Handler)
                host ctx) as E.
  cbv zeta in E. rewrite E. cbn [snd window_message_bound parentOrigin].
  rewrite Hportal, Hparam. cbn [truthy strict_eq andb].
  apply String.eqb_neq in Hne.
  assert (Hown' : String.eqb (window_origin host) P = false)
    by (apply String.eqb_neq; congruence).
  rewrite Hne, Hown'. auto.
Qed.

End Invariants.

(** ** The claims *)

Section Claims.
Context {Message Handler Callback : Type}.
Variable host : Host.
Implicit Types (s : @State Message Handler Callback).
Implicit Types (m data : Message) (h : Handler).

(** C1: in portal mode with the parent origin [P] captured, a [message]
    event of the window is always handled without an exception and leaves
    the registries alone.  When the sender origin [event.origin] is [P],
    the envelope [{origin, data}] is posted on the local channel and the
    instance's own listener for that origin, if any, is called with
    [(origin, data)].  When it is not [P], nothing is posted and no
    listener is called: the only calls made are diagnostics.  So the
    message is forwarded if and only if its sender origin is [P]. *)
Theorem window_message_from_parent_only s (P : string)
    (event : PortalEvent) :
  window_message_bound s = true ->
  parentOrigin s = Some P ->
  let inbound := react host (WindowMessage event) in
  fst (inbound s) = Returned tt /\
  listeners (snd (inbound s)) = listeners s /\
  portals (snd (inbound s)) = portals s /\
  (event_origin event = P ->
   effects inbound s =
     ChannelPost (channelID s) P (event_data event)
       :: match JsObject.get (listeners s) P with
          | Some h => [HandlerCall h P (event_data event)]
          | None => []
          end) /\
  (event_origin event <> P -> effects inbound s = []) /\
  (In (ChannelPost (channelID s) (event_origin event) (event_data event))
      (trace inbound s)
   <-> event_origin event = P).
Proof.
  intros Hbound HP inbound.
  assert (E : inbound s = handlePortalMessage event s).
  { unfold inbound. rewrite react_window_message_spec. now rewrite Hbound. }
  rewrite handlePortalMessage_spec in E. rewrite HP in E.
  unfold effects. rewrite (trace_with_log _ _ _ _ _ E). rewrite E.
  unfold with_log; cbn [fst snd listeners portals strict_eq].
  rewrite !filter_app, filter_diagnostic. cbn [app].
  destruct (String.eqb_spec (event_origin event) P) as [Heq|Hne];
    (split; [reflexivity|]); (split; [reflexivity|]);
    (split; [reflexivity|]); (split; [|split]).
  - intros _. rewrite Heq. unfold delivery. cbn [filter is_debug negb].
    destruct (JsObject.get (listeners s) P); reflexivity.
  - intros Hneq. congruence.
  - split; [intros _; exact Heq|]. intros _.
    apply in_or_app. right. left. reflexivity.
  - intros Heq. congruence.
  - intros _. apply filter_diagnostic.
  - split; [|intros Heq; congruence].
    intros Hin. exfalso. unfold diagnostic in Hin.
    destruct (debug (context s)); cbn [app In] in Hin;
      intuition discriminate.
Qed.

(** C2: for every message [m], [pushToOrigin(ownOrigin, m)] goes through
    the local bus: the envelope is posted on the channel, then the handler
    registered for the own origin is called with [(ownOrigin, m)] when there
    is one and no handler is called when there is none; the call returns,
    the registries are as before, and the push callback (the per-call
    [onPush], else the default [onPushedMessage] of the context, if either
    is given) is called with [(ownOrigin, m)].  A listener [h] is
    registered for the own origin when [(ownOrigin, h)] is an entry of the
    registry, whose keys are distinct in every reachable state. *)
Theorem pushToOrigin_own_origin s m (onPush : option Callback) :
  let own := window_origin host in
  let push := pushToOrigin host own m onPush in
  let posted := ChannelPost (channelID s) own m in
  let called :=
    match onPush, onPushedMessage (context s) with
    | Some f, _ => [CallbackCall f own (Some m)]
    | None, Some f => [CallbackCall f own (Some m)]
    | None, None => []
    end in
  fst (push s) = Returned tt /\
  (forall h,
     NoDup (JsObject.keys (listeners s)) -> In (own, h) (listeners s) ->
     trace push s = posted :: HandlerCall h own m :: called) /\
  (~ In own (JsObject.keys (listeners s)) -> trace push s = posted :: called) /\
  trace push s =
    (posted
       :: match JsObject.get (listeners s) own with
          | Some h => [HandlerCall h own m]
          | None => []
          end
       ++ called)%list /\
  listeners (snd (push s)) = listeners s /\
  portals (snd (push s)) = portals s.
Proof.
  intros own push posted called.
  pose proof (pushToOrigin_own_spec host s m onPush) as E.
  fold own in E. fold push in E.
  assert (Ht : trace push s =
               (posted
                  :: match JsObject.get (listeners s) own with
                     | Some h => [HandlerCall h own m]
                     | None => []
                     end
                  ++ called)%list).
  { rewrite (trace_with_log _ _ _ _ _ E).
    unfold delivery, callback, nullish, called, posted.
    destruct onPush; [|destruct (onPushedMessage (context s))]; reflexivity. }
  rewrite E. cbn [fst snd].
  split; [reflexivity|]. split; [|split; [|split; [exact Ht|split]]].
  - intros h Hnd Hin. rewrite Ht.
    now rewrite (JsObjectFacts.get_registered _ _ _ Hnd Hin).
  - intros Hno. rewrite Ht. now rewrite (JsObjectFacts.get_absent _ _ Hno).
  - reflexivity.
  - reflexivity.
Qed.

(** C3: for every origin [O] other than the own origin for which no portal
    is registered, [pushToOrigin(O, m)] throws [PortalNotFound]; nothing is
    posted to any window (the call adds nothing to the log) and the state,
    with both registries, is as before.  An origin is not the name of a
    member of [Object.prototype]. *)
Theorem pushToOrigin_missing_portal s (O : string) m
    (onPush : option Callback) :
  inherited O = false ->
  O <> window_origin host ->
  ~ In O (JsObject.keys (portals s)) ->
  pushToOrigin host O m onPush s = (Thrown (PortalNotFound O), s) /\
  trace (pushToOrigin host O m onPush) s = [] /\
  listeners (snd (pushToOrigin host O m onPush s)) = listeners s /\
  portals (snd (pushToOrigin host O m onPush s)) = portals s.
Proof.
  intros _ Hne Hno.
  assert (E : pushToOrigin host O m onPush s = (Thrown (PortalNotFound O), s)).
  { rewrite pushToOrigin_remote_spec by assumption.
    now rewrite (JsObjectFacts.get_absent _ _ Hno). }
  rewrite (trace_unchanged _ _ _ E). rewrite E. auto.
Qed.

(** C4: for every origin [O], once [listenToOrigin(O, h)] has returned, a
    second [listenToOrigin(O, h2)] throws [DuplicateOrigin] for the
    canonical origin of [O] and changes nothing: [h] is still the handler
    registered for it, and a message for that origin, whether it comes in
    on the broadcast channel or is broadcast by the instance itself, is
    given to [h] and not to [h2]. *)
Theorem listenToOrigin_twice s (O : string) h (h2 : Handler)
    (onListen onListen2 : option Callback) :
  fst (listenToOrigin host O h onListen s) = Returned tt ->
  let s1 := snd (listenToOrigin host O h onListen s) in
  exists o,
    URL_origin host O = Some o /\
    listenToOrigin host O h2 onListen2 s1
      = (Thrown (DuplicateOrigin Listeners o), s1) /\
    JsObject.get (listeners s1) o = Some h /\
    (forall data,
       effects (handleBroadcast (mkBroadcastEvent o data)) s1
         = [HandlerCall h o data]) /\
    (forall data,
       effects (broadcast o data) s1
         = [ChannelPost (channelID s1) o data; HandlerCall h o data]).
Proof.
  intros Hok s1. pose proof (listenToOrigin_spec host s O h onListen) as E.
  fold s1. subst s1. rewrite E in *. clear E.
  destruct (URL_origin host O) as [o|] eqn:Ho; [|discriminate].
  destruct (JsObject.has (listeners s) o) eqn:Hhas; [discriminate|].
  simpl. exists o.
  set (s1 := with_log _ _).
  assert (Hget : JsObject.get (listeners s1) o = Some h).
  { subst s1. simpl. apply JsObjectFacts.get_set_same. }
  split; [reflexivity|]. split; [|split; [exact Hget|split]].
  - rewrite listenToOrigin_spec, Ho. unfold JsObject.has. now rewrite Hget.
  - intros data. unfold effects.
    rewrite (trace_with_log _ _ _ _ _
               (handleBroadcast_spec s1 (mkBroadcastEvent o data))).
    rewrite filter_app, filter_diagnostic. cbn [data_origin data_data app].
    now rewrite Hget.
  - intros data. unfold effects.
    destruct (broadcast_spec s1 o data) as [Hr Hs].
    assert (Hb : broadcast o data s1 =
                 (Returned tt,
                  with_log (log s1 ++ ChannelPost (channelID s1) o data
                              :: delivery s1 o data)%list s1)).
    { rewrite <- Hr, <- Hs. now destruct (broadcast o data s1). }
    rewrite (trace_with_log _ _ _ _ _ Hb). unfold delivery.
    now rewrite Hget.
Qed.

(** C5: [addPortal] throws [SelfOrigin] whenever the canonical origin of
    the URL is the own origin, whatever the registries hold, and throws
    [DuplicateOrigin] whenever a portal for the canonical origin of the URL
    is registered; either way the state is left as it was, so the portal
    registry is unchanged and no iframe is made, and nothing is added to
    the log: no callback is called. *)
Theorem addPortal_rejects s (portalURL : string)
    (onAdded : option Callback) :
  (URL_origin host portalURL = Some (window_origin host) ->
   addPortal host portalURL onAdded s
     = (Thrown (SelfOrigin AtAddPortal (window_origin host)), s) /\
   trace (addPortal host portalURL onAdded) s = []) /\
  (reachable host s ->
   forall o,
     URL_origin host portalURL = Some o ->
     JsObject.has (portals s) o = true ->
     addPortal host portalURL onAdded s
       = (Thrown (DuplicateOrigin Portals o), s) /\
     trace (addPortal host portalURL onAdded) s = []).
Proof.
  split.
  - intros Hself.
    assert (E : addPortal host portalURL onAdded s
                = (Thrown (SelfOrigin AtAddPortal (window_origin host)), s)).
    { rewrite addPortal_spec, Hself. now rewrite String.eqb_refl. }
    split; [exact E | exact (trace_unchanged _ _ _ E)].
  - intros Hreach o Ho Hhas.
    assert (E : addPortal host portalURL onAdded s
                = (Thrown (DuplicateOrigin Portals o), s)).
    { rewrite addPortal_spec, Ho.
      destruct (String.eqb_spec o (window_origin host)) as [->|Hne].
      - rewrite (reachable_no_self_portal host s Hreach) in Hhas.
        discriminate.
      - now rewrite Hhas. }
    split; [exact E | exact (trace_unchanged _ _ _ E)].
Qed.

(** C6: for every origin [O] other than the own origin and not yet
    portaled, on a page that gives every iframe a window, [addPortal(O)],
    [removePortal(O)] and [addPortal(O)] again all return.  After the
    first call [O] has a portal whose iframe is in the document; the
    removal takes [O] out of the registry and the iframe out of the
    document; the second [addPortal] registers [O] again. *)
Theorem portal_lifecycle_round_trip s (O : string)
    (onAdded onRemoved onAdded' : option Callback) :
  O <> window_origin host ->
  URL_origin host O = Some O ->
  JsObject.has (portals s) O = false ->
  (forall f, contentWindow host f <> None) ->
  let added := addPortal host O onAdded s in
  let removed := removePortal host O onRemoved (snd added) in
  let added' := addPortal host O onAdded' (snd removed) in
  fst added = Returned tt /\
  fst removed = Returned tt /\
  fst added' = Returned tt /\
  JsObject.has (portals (snd added)) O = true /\
  JsObject.has (portals (snd removed)) O = false /\
  JsObject.has (portals (snd added')) O = true /\
  (forall p,
     JsObject.get (portals (snd added)) O = Some p ->
     (exists f, In f (body (snd added)) /\ frame_id f = frame p) /\
     (forall f, In f (body (snd removed)) -> frame_id f <> frame p)).
Proof.
  intros Hne Hcanon Hno Hwin added removed added'.
  destruct (addPortal_fresh host s O onAdded Hne Hcanon Hno Hwin) as [w E1].
  fold added in E1.
  assert (Hget : JsObject.get (portals (snd added)) O
                 = Some (mkPortal (next_frame s) w)).
  { rewrite E1. cbn. apply JsObjectFacts.get_set_same. }
  assert (E2 : exists s2,
             removed = (Returned tt, s2) /\
             portals s2 = JsObject.delete (portals (snd added)) O /\
             body s2 = filter (fun f => negb (Nat.eqb (frame_id f)
                                                      (next_frame s)))
                              (body (snd added))).
  { unfold removed. rewrite removePortal_spec.
    apply String.eqb_neq in Hne. rewrite Hne, Hget. cbn [frame].
    eexists. split; [reflexivity|]. cbn. auto. }
  destruct E2 as (s2 & E2 & Hp2 & Hb2).
  assert (Hno2 : JsObject.has (portals (snd removed)) O = false).
  { rewrite E2. cbn [snd]. rewrite Hp2. apply JsObjectFacts.has_delete_same. }
  destruct (addPortal_fresh host (snd removed) O onAdded' Hne Hcanon Hno2 Hwin)
    as [w' E3].
  fold added' in E3.
  split; [now rewrite E1|]. split; [now rewrite E2|].
  split; [now rewrite E3|].
  split; [unfold JsObject.has; now rewrite Hget|].
  split; [exact Hno2|].
  split; [rewrite E3; cbn; apply JsObjectFacts.has_set_same|].
  intros p Hp. rewrite Hget in Hp. injection Hp as <-. cbn [frame].
  split.
  - rewrite E1. cbn.
    exists (set_src (mkFrame (next_frame s) O "1" "1" "hidden" "absolute" "")
                    (URL_with_parent host O (window_origin host))).
    split; [|reflexivity].
    apply in_map_iff.
    exists (mkFrame (next_frame s) O "1" "1" "hidden" "absolute" "").
    split.
    + cbn. now rewrite Nat.eqb_refl.
    + apply in_or_app. right. now left.
  - intros f Hin. rewrite E2 in Hin. cbn [snd] in Hin. rewrite Hb2 in Hin.
    apply filter_In in Hin. destruct Hin as [_ Hf].
    apply negb_true_iff, Nat.eqb_neq in Hf. exact Hf.
Qed.

Lemma keys_portal_entries (p : JsObject.t Portal) :
  JsObject.keys (portal_entries (Handler:=Handler) p) = JsObject.keys p.
Proof.
  unfold JsObject.keys, portal_entries. rewrite map_map. reflexivity.
Qed.

Lemma keys_listener_entries (l : JsObject.t Handler) :
  JsObject.keys (listener_entries l) = JsObject.keys l.
Proof.
  unfold JsObject.keys, listener_entries. rewrite map_map. reflexivity.
Qed.

Lemma getOrigins_NoDup s : NoDup (getOrigins s).
Proof.
  unfold getOrigins. apply JsObjectFacts.NoDup_keys_assign.
  apply JsObjectFacts.NoDup_keys_assign. constructor.
Qed.

Lemma getOrigins_In s (o : string) :
  In o (getOrigins s) <->
  In o (JsObject.keys (portals s)) \/ In o (JsObject.keys (listeners s)).
Proof.
  unfold getOrigins. rewrite !JsObjectFacts.In_keys_assign.
  rewrite keys_portal_entries, keys_listener_entries.
  cbn. tauto.
Qed.

Lemma getOrigins_one_each s (A B : string) (p : Portal) h :
  A <> B ->
  portals s = [(A, p)] ->
  listeners s = [(B, h)] ->
  getOrigins s = [A; B].
Proof.
  intros Hne Hp Hl. unfold getOrigins. rewrite Hp, Hl. cbn.
  apply String.eqb_neq in Hne. now rewrite Hne.
Qed.

Lemma getOrigins_listener_only s (B : string) h :
  portals s = [] ->
  listeners s = [(B, h)] ->
  getOrigins s = [B].
Proof.
  intros Hp Hl. unfold getOrigins. rewrite Hp, Hl. reflexivity.
Qed.

Lemma react_addPortal_fresh s (A : string) (cb : option Callback) :
  A <> window_origin host ->
  URL_origin host A = Some A ->
  portals s = [] ->
  (forall f, contentWindow host f <> None) ->
  exists p,
    portals (snd (react host (AppCall (AddPortal A cb)) s)) = [(A, p)] /\
    listeners (snd (react host (AppCall (AddPortal A cb)) s)) = listeners s.
Proof.
  intros Hne Hcanon Hp Hwin. cbn [react invoke].
  assert (Hno : JsObject.has (portals s) A = false) by now rewrite Hp.
  destruct (addPortal_fresh host s A cb Hne Hcanon Hno Hwin) as [w E].
  rewrite E. cbn. rewrite Hp. cbn. eauto.
Qed.

Lemma react_listen_fresh s (B : string) h (cb : option Callback) :
  URL_origin host B = Some B ->
  listeners s = [] ->
  listeners (snd (react host (AppCall (ListenToOrigin B h cb)) s))
    = [(B, h)] /\
  portals (snd (react host (AppCall (ListenToOrigin B h cb)) s)) = portals s.
Proof.
  intros Hcanon Hl. cbn [react invoke].
  rewrite listenToOrigin_spec, Hcanon. unfold JsObject.has. rewrite Hl.
  cbn. auto.
Qed.

Lemma react_removePortal_only s (A : string) (p : Portal)
    (cb : option Callback) :
  A <> window_origin host ->
  portals s = [(A, p)] ->
  portals (snd (react host (AppCall (RemovePortal A cb)) s)) = [] /\
  listeners (snd (react host (AppCall (RemovePortal A cb)) s)) = listeners s.
Proof.
  intros Hne Hp. cbn [react invoke]. rewrite removePortal_spec.
  apply String.eqb_neq in Hne. rewrite Hne, Hp. cbn.
  rewrite String.eqb_refl. cbn. rewrite ?Hp; cbn; rewrite ?String.eqb_refl.
  auto.
Qed.

(** C7: in every state [getOrigins()] returns the origins that are keys of
    the portal registry or of the listener registry, each one once, also
    when it is a key of both.  In particular, on a fresh instance, after a
    portal for [A] and a listener for [B] have been added (in either
    order, [A] and [B] distinct origins), it returns [A] and [B] and
    nothing else, and after [removePortal(A)] it returns [B] alone. *)
Theorem getOrigins_union_of_registries s
    (ctx : @SymbiosomeContext Callback) (A B : string) h
    (onAdded onListen onRemoved : option Callback) :
  (NoDup (getOrigins s) /\
   forall o,
     In o (getOrigins s) <->
     In o (JsObject.keys (portals s)) \/ In o (JsObject.keys (listeners s)))
  /\
  (A <> B ->
   A <> window_origin host ->
   URL_origin host A = Some A ->
   URL_origin host B = Some B ->
   (forall f, contentWindow host f <> None) ->
   let fresh : @State Message Handler Callback := new_Symbiosome host ctx in
   let add := AppCall (AddPortal A onAdded) in
   let listen := AppCall (ListenToOrigin B h onListen) in
   let remove := AppCall (RemovePortal A onRemoved) in
   getOrigins (run host [add; listen] fresh) = [A; B] /\
   getOrigins (run host [listen; add] fresh) = [A; B] /\
   getOrigins (run host [add; listen; remove] fresh) = [B] /\
   getOrigins (run host [listen; add; remove] fresh) = [B]).
Proof.
  split; [split; [apply getOrigins_NoDup | apply getOrigins_In]|].
  intros Hne HA HcA HcB Hwin fresh add listen remove.
  destruct (new_Symbiosome_registries (Message:=Message) (Handler:=Handler)
              host ctx) as (Hl0 & Hp0 & _).
  fold fresh in Hl0, Hp0.
  (* portal first *)
  destruct (react_addPortal_fresh fresh A onAdded HA HcA Hp0 Hwin)
    as (p & Hp1 & Hl1).
  fold add in Hp1, Hl1. rewrite Hl0 in Hl1.
  destruct (react_listen_fresh (snd (react host add fresh)) B h onListen
              HcB Hl1) as (Hl2 & Hp2).
  fold listen in Hl2, Hp2. rewrite Hp1 in Hp2.
  destruct (react_removePortal_only _ A p onRemoved HA Hp2) as (Hp3 & Hl3).
  fold remove in Hp3, Hl3. rewrite Hl2 in Hl3.
  (* listener first *)
  destruct (react_listen_fresh fresh B h onListen HcB Hl0) as (Hl1' & Hp1').
  fold listen in Hl1', Hp1'. rewrite Hp0 in Hp1'.
  destruct (react_addPortal_fresh (snd (react host listen fresh)) A onAdded
              HA HcA Hp1' Hwin) as (p' & Hp2' & Hl2').
  fold add in Hp2', Hl2'. rewrite Hl1' in Hl2'.
  destruct (react_removePortal_only _ A p' onRemoved HA Hp2')
    as (Hp3' & Hl3').
  fold remove in Hp3', Hl3'. rewrite Hl2' in Hl3'.
  cbn [run fold_left].
  split; [exact (getOrigins_one_each _ A B p h Hne Hp2 Hl2)|].
  split; [exact (getOrigins_one_each _ A B p' h Hne Hp2' Hl2')|].
  split; [exact (getOrigins_listener_only _ B h Hp3 Hl3)|].
  exact (getOrigins_listener_only _ B h Hp3' Hl3').
Qed.

(** C8: in portal mode, when the [parent] parameter is absent or is the
    own origin, the constructor returns without capturing a parent origin;
    it installs the handler of window messages and logs, besides the
    channel and the parameter, the diagnostic that the parent is
    undefined, and then announces the own origin.  Whatever happens to the
    instance afterwards, no parent origin is ever captured, and every
    [message] event of the window, whatever its sender origin, is handled
    without an exception, posts nothing on the local channel and calls no
    listener: diagnostics apart, it adds nothing to the log and the
    registries stay as they are. *)
Theorem portal_without_parent_drops_all
    (ctx : @SymbiosomeContext Callback) (xs : list Stimulus)
    (event : PortalEvent) :
  isPortal ctx = true ->
  search_parent host = None
  \/ search_parent host = Some (window_origin host) ->
  let s0 : @State Message Handler Callback := new_Symbiosome host ctx in
  let s := run host xs s0 in
  fst (constructor host (blank ctx : @State Message Handler Callback))
    = Returned tt /\
  parentOrigin s0 = None /\
  window_message_bound s0 = true /\
  log s0 =
    (diagnostic s0 "Channel ID" (Some [ArgString (Some (channelID s0))])
     ++ diagnostic s0 "Parent origin" (Some [ArgString (search_parent host)])
     ++ diagnostic s0 "Is portal but parent is undefined" None
     ++ match onPortalAdded ctx with
        | Some g => [CallbackCall g (window_origin host) None]
        | None => []
        end)%list /\
  parentOrigin s = None /\
  fst (react host (WindowMessage event) s) = Returned tt /\
  effects (react host (WindowMessage event)) s = [] /\
  listeners (snd (react host (WindowMessage event) s)) = listeners s /\
  portals (snd (react host (WindowMessage event) s)) = portals s.
Proof.
  intros Hportal Hparam s0 s.
  pose proof (constructor_spec (Message:=Message) (Handler:=Handler)
                host ctx) as E.
  cbv zeta in E.
  assert (Hcap : (if (isPortal ctx && truthy (search_parent host)
                      && negb (strict_eq (window_origin host)
                                         (search_parent host)))%bool
                  then search_parent host else None) = None).
  { rewrite Hportal. destruct Hparam as [-> | ->]; cbn.
    - reflexivity.
    - rewrite String.eqb_refl. now rewrite andb_false_r. }
  rewrite Hcap, Hportal in E.
  assert (Hs0 : parentOrigin s0 = None).
  { unfold s0, new_Symbiosome. now rewrite E. }
  assert (Hs : parentOrigin s = None).
  { unfold s. destruct (run_preserves host xs s0) as (Hp & _). now rewrite Hp. }
  split; [now rewrite E|]. split; [exact Hs0|].
  split; [unfold s0, new_Symbiosome; now rewrite E|].
  split.
  { unfold s0, new_Symbiosome. unfold diagnostic in *. rewrite E.
    cbn -[append]. destruct (debug ctx); reflexivity. }
  split; [exact Hs|].
  rewrite react_window_message_spec.
  assert (Hm : (if window_message_bound s then handlePortalMessage event s
                else (Returned tt, s))
               = (Returned tt, s)
               \/ exists a b,
                   (if window_message_bound s
                    then handlePortalMessage event s
                    else (Returned tt, s))
                   = (Returned tt,
                      with_log
                        (log s
                         ++ diagnostic s a (Some [ArgPortalEvent event])
                         ++ diagnostic s b (Some [ArgPortalEvent event]))%list
                        s)).
  { destruct (window_message_bound s); [right|left; reflexivity].
    rewrite handlePortalMessage_spec, Hs. cbn [strict_eq]. eauto. }
  unfold effects.
  destruct Hm as [Hm|(a & b & Hm)].
  - rewrite (trace_unchanged (react host (WindowMessage event)) s (Returned tt))
      by (rewrite react_window_message_spec; exact Hm).
    rewrite Hm. auto.
  - rewrite (trace_with_log (react host (WindowMessage event)) s
               (Returned tt) s _)
      by (rewrite react_window_message_spec; exact Hm).
    rewrite Hm, filter_app, !filter_diagnostic. auto.
Qed.


(** C10: [removeListener] has no self-origin check, unlike [removePortal].
    For every origin [O], the own origin included, [removeListener(O)]
    returns exactly when a listener for [O] is registered, and then the
    listener is gone, the other listeners and the portals are as before and
    the removal callback (the per-call [onRemoved], else the default
    [onListenerRemoved] of the context, if either is given) is called with
    [O]; it throws [NotFound] exactly when no listener for [O] is
    registered, and then the state is as before and nothing is called.
    [removePortal(ownOrigin)] throws [SelfOrigin] whatever the registry
    holds.  An origin is not the name of a member of [Object.prototype]. *)
Theorem removeListener_any_origin s (O : string)
    (onRemoved : option Callback) :
  inherited O = false ->
  let r := removeListener O onRemoved s in
  let called :=
    match onRemoved, onListenerRemoved (context s) with
    | Some f, _ => [CallbackCall f O None]
    | None, Some f => [CallbackCall f O None]
    | None, None => []
    end in
  (fst r = Returned tt <-> In O (JsObject.keys (listeners s))) /\
  (fst r = Thrown (NotFound Listeners O)
   <-> ~ In O (JsObject.keys (listeners s))) /\
  (In O (JsObject.keys (listeners s)) ->
   listeners (snd r) = JsObject.delete (listeners s) O /\
   ~ In O (JsObject.keys (listeners (snd r))) /\
   (forall O' h, O' <> O ->
      (In (O', h) (listeners (snd r)) <-> In (O', h) (listeners s))) /\
   (forall O', O' <> O ->
      JsObject.get (listeners (snd r)) O' = JsObject.get (listeners s) O') /\
   portals (snd r) = portals s /\
   trace (removeListener O onRemoved) s = called) /\
  (~ In O (JsObject.keys (listeners s)) ->
   snd r = s /\ trace (removeListener O onRemoved) s = []) /\
  removePortal host (window_origin host) onRemoved s =
    (Thrown (SelfOrigin AtRemovePortal (window_origin host)), s).
Proof.
  intros _ r called. pose proof (removeListener_spec s O onRemoved) as E.
  fold r in E.
  rewrite <- JsObjectFacts.has_false_iff, <- JsObjectFacts.has_true_iff.
  split; [|split; [|split; [|split]]].
  - rewrite E. destruct (JsObject.has (listeners s) O); simpl;
      split; congruence.
  - rewrite E. destruct (JsObject.has (listeners s) O); simpl;
      split; congruence.
  - intros Hhas. rewrite Hhas in E.
    rewrite (trace_with_log (removeListener O onRemoved) _ _ _ _ E).
    rewrite E. cbn [snd listeners portals with_log with_listeners].
    split; [reflexivity|]. split; [|split; [|split; [|split]]].
    + apply JsObjectFacts.has_false_iff, JsObjectFacts.has_delete_same.
    + intros O' h Hne. now apply JsObjectFacts.In_delete.
    + intros O' Hne. apply JsObjectFacts.get_delete_other. congruence.
    + reflexivity.
    + unfold callback, nullish, called.
      destruct onRemoved; [|destruct (onListenerRemoved (context s))];
        reflexivity.
  - intros Hno. rewrite Hno in E.
    rewrite (trace_unchanged _ _ _ E). now rewrite E.
  - rewrite removePortal_spec. now rewrite String.eqb_refl.
Qed.

End Claims.

(** ** The theorems at work on the concrete page *)

Lemma window_message_from_parent_only_witness :
  window_message_bound Demo.listening_portal = true /\
  parentOrigin Demo.listening_portal = Some Demo.a_example /\
  effects (react Demo.portal_page
                 (WindowMessage (mkPortalEvent Demo.a_example "hi")))
          Demo.listening_portal
    = [ChannelPost "symbiosome__https://b.example" Demo.a_example "hi";
       HandlerCall "onMessage" Demo.a_example "hi"] /\
  effects (react Demo.portal_page
                 (WindowMessage (mkPortalEvent Demo.c_example "hi")))
          Demo.listening_portal
    = [].
Proof.
  split; [reflexivity|]. split; [reflexivity|]. split.
  - pose proof (window_message_from_parent_only Demo.portal_page
                  Demo.listening_portal Demo.a_example
                  (mkPortalEvent Demo.a_example "hi") eq_refl eq_refl) as H.
    cbv zeta in H. destruct H as (_ & _ & _ & H & _). exact (H eq_refl).
  - pose proof (window_message_from_parent_only Demo.portal_page
                  Demo.listening_portal Demo.a_example
                  (mkPortalEvent Demo.c_example "hi") eq_refl eq_refl) as H.
    cbv zeta in H. destruct H as (_ & _ & _ & _ & H & _).
    apply H. cbn. discriminate.
Defined.

Lemma pushToOrigin_missing_portal_witness :
  inherited Demo.c_example = false /\
  Demo.c_example <> window_origin Demo.top_page /\
  ~ In Demo.c_example (JsObject.keys (portals Demo.with_portal_a)) /\
  pushToOrigin Demo.top_page Demo.c_example "hello" None Demo.with_portal_a
    = (Thrown (PortalNotFound Demo.c_example), Demo.with_portal_a) /\
  trace (pushToOrigin Demo.top_page Demo.c_example "hello" None)
        Demo.with_portal_a = [].
Proof.
  assert (Hne : Demo.c_example <> window_origin Demo.top_page)
    by (cbn; discriminate).
  assert (Hno : ~ In Demo.c_example
                     (JsObject.keys (portals Demo.with_portal_a)))
    by (cbn; intros [H|[]]; discriminate H).
  split; [reflexivity|]. split; [exact Hne|]. split; [exact Hno|].
  destruct (pushToOrigin_missing_portal Demo.top_page Demo.with_portal_a
              Demo.c_example "hello" None eq_refl Hne Hno) as (H & Ht & _).
  split; [exact H | exact Ht].
Defined.

Lemma listenToOrigin_twice_witness :
  fst (listenToOrigin Demo.top_page "https://a.example/app" "first" None
                      Demo.fresh) = Returned tt /\
  exists o,
    let s1 := snd (listenToOrigin Demo.top_page "https://a.example/app"
                                  "first" None Demo.fresh) in
    listenToOrigin Demo.top_page "https://a.example/app" "second" None s1
      = (Thrown (DuplicateOrigin Listeners o), s1) /\
    JsObject.get (listeners s1) o = Some "first".
Proof.
  split; [reflexivity|].
  destruct (listenToOrigin_twice Demo.top_page Demo.fresh
              "https://a.example/app" "first" "second" None None eq_refl)
    as (o & _ & Hdup & Hget & _).
  exists o. split; [exact Hdup | exact Hget].
Defined.

Lemma addPortal_rejects_witness :
  URL_origin Demo.top_page "https://b.example/me" = Some Demo.b_example /\
  addPortal Demo.top_page "https://b.example/me" None Demo.fresh
    = (Thrown (SelfOrigin AtAddPortal Demo.b_example), Demo.fresh) /\
  reachable Demo.top_page Demo.with_portal_a /\
  JsObject.has (portals Demo.with_portal_a) Demo.a_example = true /\
  addPortal Demo.top_page "https://a.example/other" None Demo.with_portal_a
    = (Thrown (DuplicateOrigin Portals Demo.a_example), Demo.with_portal_a).
Proof.
  assert (Hreach : reachable Demo.top_page Demo.with_portal_a).
  { exists (Demo.verbose false).
    exists [AppCall (AddPortal "https://a.example/portal.html" None)].
    reflexivity. }
  split; [reflexivity|].
  split.
  { apply (proj1 (addPortal_rejects Demo.top_page Demo.fresh
                    "https://b.example/me" None)). reflexivity. }
  split; [exact Hreach|]. split; [reflexivity|].
  apply (proj2 (addPortal_rejects Demo.top_page Demo.with_portal_a
                  "https://a.example/other" None) Hreach Demo.a_example);
    reflexivity.
Defined.

Lemma portal_lifecycle_round_trip_witness :
  Demo.a_example <> window_origin Demo.top_page /\
  URL_origin Demo.top_page Demo.a_example = Some Demo.a_example /\
  JsObject.has (portals Demo.fresh) Demo.a_example = false /\
  (forall f, contentWindow Demo.top_page f <> None) /\
  let added := addPortal Demo.top_page Demo.a_example None Demo.fresh in
  let removed := removePortal Demo.top_page Demo.a_example None (snd added) in
  let added' := addPortal Demo.top_page Demo.a_example None (snd removed) in
  fst added = Returned tt /\ fst removed = Returned tt /\
  fst added' = Returned tt /\
  JsObject.has (portals (snd added')) Demo.a_example = true.
Proof.
  assert (Hne : Demo.a_example <> window_origin Demo.top_page)
    by (cbn; discriminate).
  assert (Hwin : forall f, contentWindow Demo.top_page f <> None)
    by (intros f; cbn; discriminate).
  split; [exact Hne|]. split; [reflexivity|]. split; [reflexivity|].
  split; [exact Hwin|].
  pose proof (portal_lifecycle_round_trip Demo.top_page Demo.fresh
                Demo.a_example None None None Hne eq_refl eq_refl Hwin) as H.
  cbv zeta in *. destruct H as (H1 & H2 & H3 & _ & _ & H4 & _).
  repeat split; assumption.
Defined.

Lemma listening_to_self_distinct :
  NoDup (JsObject.keys (listeners Demo.listening_to_self)).
Proof. repeat constructor. simpl. tauto. Defined.

Lemma pushToOrigin_own_origin_witness :
  NoDup (JsObject.keys (listeners Demo.listening_to_self)) /\
  In (Demo.b_example, "onMessage") (listeners Demo.listening_to_self) /\
  trace (pushToOrigin Demo.top_page Demo.b_example "note" (Some "sent"))
        Demo.listening_to_self
    = [ChannelPost "symbiosome__https://b.example" Demo.b_example "note";
       HandlerCall "onMessage" Demo.b_example "note";
       CallbackCall "sent" Demo.b_example (Some "note")] /\
  ~ In Demo.b_example (JsObject.keys (listeners Demo.listening_portal)) /\
  trace (pushToOrigin Demo.portal_page Demo.b_example "note" None)
        Demo.listening_portal
    = [ChannelPost "symbiosome__https://b.example" Demo.b_example "note";
       CallbackCall "onPush" Demo.b_example (Some "note")].
Proof.
  assert (Hin : In (Demo.b_example, "onMessage")
                   (listeners Demo.listening_to_self))
    by (left; reflexivity).
  assert (Hno : ~ In Demo.b_example
                     (JsObject.keys (listeners Demo.listening_portal)))
    by (cbn; intros [H|[]]; discriminate H).
  split; [exact listening_to_self_distinct|]. split; [exact Hin|].
  pose proof (pushToOrigin_own_origin Demo.top_page Demo.listening_to_self
                "note" (Some "sent")) as H.
  pose proof (pushToOrigin_own_origin Demo.portal_page Demo.listening_portal
                "note" None) as H'.
  cbv zeta in H, H'.
  destruct H as (_ & Hcalled & _). destruct H' as (_ & _ & Hnone & _).
  split; [exact (Hcalled "onMessage" listening_to_self_distinct Hin)|].
  split; [exact Hno | exact (Hnone Hno)].
Defined.

Lemma getOrigins_union_of_registries_witness :
  Demo.a_example <> Demo.c_example /\
  Demo.a_example <> window_origin Demo.top_page /\
  URL_origin Demo.top_page Demo.a_example = Some Demo.a_example /\
  URL_origin Demo.top_page Demo.c_example = Some Demo.c_example /\
  (forall f, contentWindow Demo.top_page f <> None) /\
  getOrigins (run Demo.top_page
                  [AppCall (AddPortal Demo.a_example None);
                   AppCall (ListenToOrigin Demo.c_example "onMessage" None)]
                  Demo.fresh)
    = [Demo.a_example; Demo.c_example] /\
  getOrigins (run Demo.top_page
                  [AppCall (AddPortal Demo.a_example None);
                   AppCall (ListenToOrigin Demo.c_example "onMessage" None);
                   AppCall (RemovePortal Demo.a_example None)]
                  Demo.fresh)
    = [Demo.c_example].
Proof.
  assert (Hab : Demo.a_example <> Demo.c_example) by discriminate.
  assert (Hne : Demo.a_example <> window_origin Demo.top_page)
    by (cbn; discriminate).
  assert (Hwin : forall f, contentWindow Demo.top_page f <> None)
    by (intros f; cbn; discriminate).
  split; [exact Hab|]. split; [exact Hne|]. split; [reflexivity|].
  split; [reflexivity|]. split; [exact Hwin|].
  pose proof (proj2 (getOrigins_union_of_registries Demo.top_page Demo.fresh
                       (Demo.verbose false) Demo.a_example Demo.c_example
                       "onMessage" None None None)
                    Hab Hne eq_refl eq_refl Hwin) as H.
  cbv zeta in H. destruct H as (H1 & _ & H3 & _).
  split; [exact H1 | exact H3].
Defined.

Lemma portal_without_parent_drops_all_witness :
  isPortal (Demo.verbose true) = true /\
  search_parent Demo.self_parent_page
    = Some (window_origin Demo.self_parent_page) /\
  search_parent Demo.top_page = None /\
  let listen := AppCall (ListenToOrigin Demo.b_example "onMessage" None) in
  let named_self : Demo.St :=
    run Demo.self_parent_page [listen]
        (new_Symbiosome Demo.self_parent_page (Demo.verbose true)) in
  let unnamed : Demo.St :=
    run Demo.top_page [listen]
        (new_Symbiosome Demo.top_page (Demo.verbose true)) in
  parentOrigin named_self = None /\
  effects (react Demo.self_parent_page
                 (WindowMessage (mkPortalEvent Demo.b_example "hi")))
          named_self
    = [] /\
  parentOrigin unnamed = None /\
  effects (react Demo.top_page
                 (WindowMessage (mkPortalEvent Demo.a_example "hi")))
          unnamed
    = [].
Proof.
  split; [reflexivity|]. split; [reflexivity|]. split; [reflexivity|].
  pose proof (portal_without_parent_drops_all (Message:=string)
                (Handler:=string) Demo.self_parent_page
                (Demo.verbose true)
                [AppCall (ListenToOrigin Demo.b_example "onMessage" None)]
                (mkPortalEvent Demo.b_example "hi")
                eq_refl (or_intror eq_refl)) as H.
  pose proof (portal_without_parent_drops_all (Message:=string)
                (Handler:=string) Demo.top_page
                (Demo.verbose true)
                [AppCall (ListenToOrigin Demo.b_example "onMessage" None)]
                (mkPortalEvent Demo.a_example "hi")
                eq_refl (or_introl eq_refl)) as H'.
  cbv zeta in *.
  destruct H as (_ & _ & _ & _ & Hp & _ & He & _).
  destruct H' as (_ & _ & _ & _ & Hp' & _ & He' & _).
  repeat split; assumption.
Defined.


Lemma removeListener_any_origin_witness :
  inherited Demo.b_example = false /\
  inherited Demo.a_example = false /\
  In Demo.b_example (JsObject.keys (listeners Demo.listening_to_self)) /\
  fst (removeListener Demo.b_example (Some "gone") Demo.listening_to_self)
    = Returned tt /\
  listeners (snd (removeListener Demo.b_example (Some "gone")
                                 Demo.listening_to_self)) = [] /\
  trace (removeListener Demo.b_example (Some "gone")) Demo.listening_to_self
    = [CallbackCall "gone" Demo.b_example None] /\
  trace (removeListener Demo.b_example None) Demo.listening_to_self
    = [CallbackCall "onRemovedListener" Demo.b_example None] /\
  ~ In Demo.a_example (JsObject.keys (listeners Demo.listening_to_self)) /\
  fst (removeListener Demo.a_example (Some "gone") Demo.listening_to_self)
    = Thrown (NotFound Listeners Demo.a_example) /\
  trace (removeListener Demo.a_example (Some "gone")) Demo.listening_to_self
    = [] /\
  removePortal Demo.top_page Demo.b_example (Some "gone")
               Demo.listening_to_self
    = (Thrown (SelfOrigin AtRemovePortal Demo.b_example),
       Demo.listening_to_self).
Proof.
  assert (Hin : In Demo.b_example
                   (JsObject.keys (listeners Demo.listening_to_self)))
    by (left; reflexivity).
  assert (Hno : ~ In Demo.a_example
                     (JsObject.keys (listeners Demo.listening_to_self)))
    by (cbn; intros [H|[]]; discriminate H).
  pose proof (removeListener_any_origin Demo.top_page
                Demo.listening_to_self Demo.b_example (Some "gone") eq_refl)
    as H.
  pose proof (removeListener_any_origin Demo.top_page
                Demo.listening_to_self Demo.b_example None eq_refl) as H0.
  pose proof (removeListener_any_origin Demo.top_page
                Demo.listening_to_self Demo.a_example (Some "gone") eq_refl)
    as H'.
  cbv zeta in H, H0, H'.
  destruct H as (Hret & _ & Hgone & _).
  destruct H0 as (_ & _ & Hgone0 & _).
  destruct H' as (_ & Hthrown & _ & Hkept & Hself).
  destruct (Hgone Hin) as (Hl & _ & _ & _ & _ & Ht).
  destruct (Hgone0 Hin) as (_ & _ & _ & _ & _ & Ht0).
  split; [reflexivity|]. split; [reflexivity|]. split; [exact Hin|].
  split; [exact (proj2 Hret Hin)|].
  split; [rewrite Hl; reflexivity|].
  split; [exact Ht|]. split; [exact Ht0|]. split; [exact Hno|].
  split; [exact (proj2 Hthrown Hno)|].
  split; [exact (proj2 (Hkept Hno)) | exact Hself].
Defined.
(** * Further properties of the engine *)

(** ** More facts about objects used as maps *)

Module JsObjectMore.
Import JsObject.

Section Facts.
Context {V : Type}.
Implicit Types (o : t V) (k : string) (v : V).

Lemma set_absent o k v : has o k = false -> set o k v = (o ++ [(k, v)])%list.
Proof.
  unfold has. induction o as [|[k' v'] rest IH]; simpl; auto.
  destruct (String.eqb k' k); [discriminate|].
  intros H. now rewrite IH.
Qed.

Lemma delete_absent o k : has o k = false -> delete o k = o.
Proof.
  unfold has. induction o as [|[k' v'] rest IH]; simpl; auto.
  destruct (String.eqb k' k); [discriminate|].
  intros H. now rewrite IH.
Qed.

Lemma delete_app o (o2 : t V) k :
  delete (o ++ o2)%list k = (delete o k ++ delete o2 k)%list.
Proof.
  induction o as [|[k' v'] rest IH]; simpl; auto.
  destruct (String.eqb k' k); simpl; now rewrite IH.
Qed.

Lemma delete_set_absent o k v : has o k = false -> delete (set o k v) k = o.
Proof.
  intros H. rewrite set_absent, delete_app by assumption.
  rewrite delete_absent by assumption. simpl.
  now rewrite String.eqb_refl, app_nil_r.
Qed.

Lemma get_In o k v : get o k = Some v -> In (k, v) o.
Proof.
  induction o as [|[k' v'] rest IH]; simpl; [discriminate|].
  destruct (String.eqb_spec k' k) as [->|Hne].
  - intros [= ->]. now left.
  - intros H. right. auto.
Qed.

(** The keys [Object.assign] adds are those of the source that the target
    lacks, in the order of the source. *)
Lemma keys_assign (target source : t V) :
  NoDup (keys source) ->
  keys (assign target source) =
    (keys target
     ++ filter (fun k => negb (has target k)) (keys source))%list.
Proof.
  unfold assign. revert target.
  induction source as [|[k v] rest IH]; intros target Hnd; simpl.
  - now rewrite app_nil_r.
  - inversion Hnd as [|? ? Hnotin Hrest]; subst.
    rewrite (IH _ Hrest). rewrite JsObjectFacts.keys_set.
    assert (Hfilter :
      filter (fun k0 => negb (has (set target k v) k0)) (keys rest)
      = filter (fun k0 => negb (has target k0)) (keys rest)).
    { apply filter_ext_in. intros k0 Hin.
      rewrite JsObjectFacts.has_set_other; auto.
      intros ->. contradiction. }
    rewrite Hfilter.
    destruct (has target k) eqn:E; simpl; auto.
    now rewrite <- app_assoc.
Qed.

Lemma keys_assign_empty (source : t V) :
  NoDup (keys source) -> keys (assign empty source) = keys source.
Proof.
  intros Hnd. rewrite keys_assign by assumption. cbn.
  induction (keys source) as [|k l IH]; cbn; auto.
  inversion Hnd; subst. now rewrite IH.
Qed.

End Facts.

(** Whether an object has a key depends on its keys only. *)
Lemma has_keys_ext {V W : Type} (o : t V) (o' : t W) (k : string) :
  keys o = keys o' -> has o k = has o' k.
Proof.
  intros Hk.
  destruct (has o k) eqn:E1, (has o' k) eqn:E2; auto.
  - apply JsObjectFacts.has_true_iff in E1.
    apply JsObjectFacts.has_false_iff in E2. rewrite Hk in E1. tauto.
  - apply JsObjectFacts.has_true_iff in E2.
    apply JsObjectFacts.has_false_iff in E1. rewrite Hk in E1. tauto.
Qed.

End JsObjectMore.

(** ** The iframes of the document *)

Section Frames.
Context {Message Handler Callback : Type}.
Variable host : Host.
Implicit Types (s : @State Message Handler Callback).
Implicit Types (m data : Message) (h : Handler).

Lemma same_id_same_frame (l : list Frame) (f g : Frame) :
  NoDup (map frame_id l) ->
  In f l -> In g l -> frame_id f = frame_id g -> f = g.
Proof.
  induction l as [|a l IH]; simpl; [tauto|].
  intros Hnd Hf Hg Hid. inversion Hnd as [|? ? Hnotin Hrest]; subst.
  destruct Hf as [->|Hf], Hg as [->|Hg]; auto.
  - exfalso. apply Hnotin. rewrite Hid. now apply in_map.
  - exfalso. apply Hnotin. rewrite <- Hid. now apply in_map.
Qed.

Lemma map_src_old (l : list Frame) (n : nat) (src : string) :
  (forall f, In f l -> frame_id f < n) ->
  map (fun f => if Nat.eqb (frame_id f) n then set_src f src else f) l = l.
Proof.
  intros Hlt. rewrite <- (map_id l) at 2. apply map_ext_in.
  intros f Hin. destruct (Nat.eqb_spec (frame_id f) n) as [E|]; auto.
  apply Hlt in Hin. lia.
Qed.

Lemma filter_id_old (l : list Frame) (n : nat) :
  (forall f, In f l -> frame_id f < n) ->
  filter (fun f => negb (Nat.eqb (frame_id f) n)) l = l.
Proof.
  intros Hlt. induction l as [|a l IH]; simpl; auto.
  destruct (Nat.eqb_spec (frame_id a) n) as [E|_]; simpl.
  - specialize (Hlt a (or_introl eq_refl)). lia.
  - rewrite IH; auto. intros f Hin. apply Hlt. now right.
Qed.

(** With distinct elements, the document after [createFrame] and the
    assignment of [src] is the old one followed by the new iframe. *)
Lemma framed_body s (o src : string) :
  frames_distinct s ->
  body (framed s o src) =
    (body s
     ++ [mkFrame (next_frame s) o "1" "1" "hidden" "absolute" src])%list.
Proof.
  intros [_ Hlt]. unfold framed. cbn [body with_body].
  rewrite map_app, (map_src_old _ _ _ Hlt). cbn [map frame_id].
  now rewrite Nat.eqb_refl.
Qed.

Lemma framed_distinct s (o src : string) :
  frames_distinct s -> frames_distinct (framed s o src).
Proof.
  intros Hd. pose proof (framed_body s o src Hd) as Hb.
  destruct Hd as [Hnd Hlt]. unfold frames_distinct. rewrite Hb.
  assert (Hn : next_frame (framed s o src) = S (next_frame s))
    by reflexivity.
  rewrite Hn. split.
  - rewrite map_app. cbn [map frame_id]. apply NoDup_app; auto.
    + repeat constructor. simpl. tauto.
    + intros x Hx [<-|[]]. apply in_map_iff in Hx.
      destruct Hx as (f & Hid & Hin). apply Hlt in Hin. lia.
  - intros f Hin. apply in_app_or in Hin. destruct Hin as [Hin|[<-|[]]].
    + apply Hlt in Hin. lia.
    + cbn. lia.
Qed.

Lemma NoDup_map_filter {A B} (g : A -> B) (keep : A -> bool) (l : list A) :
  NoDup (map g l) -> NoDup (map g (filter keep l)).
Proof.
  induction l as [|a l IH]; simpl; auto.
  intros Hnd. inversion Hnd as [|? ? Hnotin Hrest]; subst.
  destruct (keep a); simpl; auto.
  constructor; auto.
  intros Hin. apply Hnotin. apply in_map_iff in Hin.
  destruct Hin as (x & Hx & Hin). apply filter_In in Hin.
  rewrite <- Hx. apply in_map. tauto.
Qed.

(** One step keeps the elements distinct and the portals attached. *)
Lemma react_attached s (x : Stimulus) :
  frames_distinct s -> portals_attached host s ->
  frames_distinct (snd (react host x s)) /\
  portals_attached host (snd (react host x s)).
Proof.
  intros Hd Ha.
  destruct x as [[o h cb|u cb|o m cb|o cb|o cb]|event|event].
  - cbn [react invoke]. rewrite listenToOrigin_spec.
    destruct (URL_origin host o) as [o'|]; [|auto].
    destruct (JsObject.has (listeners s) o'); auto.
  - cbn [react invoke]. rewrite addPortal_spec.
    destruct (URL_origin host u) as [o|] eqn:Ho; [|auto].
    destruct (String.eqb o (window_origin host)); [auto|].
    destruct (JsObject.has (portals s) o); [auto|].
    cbv zeta.
    set (src := URL_with_parent host u (window_origin host)).
    pose proof (framed_body s o src Hd) as Hb.
    pose proof (framed_distinct s o src Hd) as Hd'.
    assert (Hold : portals_attached host (framed s o src)).
    { intros o' p' Hget. destruct (Ha o' p' Hget) as (f & Hin & Hrest).
      exists f. split; [|exact Hrest]. rewrite Hb. apply in_or_app. now left. }
    destruct (contentWindow host _) as [w|] eqn:Hw; cbn [snd].
    + split; [exact Hd'|].
      intros o' p' Hget. cbn [portals with_log with_portals] in Hget.
      destruct (String.eqb_spec o o') as [<-|Hne].
      * rewrite JsObjectFacts.get_set_same in Hget. injection Hget as <-.
        exists (mkFrame (next_frame s) o "1" "1" "hidden" "absolute" src).
        split; [|split; [reflexivity|split; [|exact Hw]]].
        -- cbn [body with_log with_portals]. rewrite Hb.
           apply in_or_app. right. now left.
        -- unfold portal_frame. cbn. repeat split. exists u. auto.
      * rewrite JsObjectFacts.get_set_other in Hget by assumption.
        exact (Hold o' p' Hget).
    + auto.
  - cbn [react invoke].
    destruct (pushToOrigin_cases host s o m cb) as [E|[extra E]];
      rewrite E; auto.
  - cbn [react invoke]. rewrite removePortal_spec.
    destruct (String.eqb o (window_origin host)); [auto|].
    destruct (JsObject.get (portals s) o) as [p|] eqn:Hp; [|auto].
    cbn [snd]. destruct Hd as [Hnd Hlt]. split.
    + split; cbn.
      * now apply NoDup_map_filter.
      * intros f Hin. apply filter_In in Hin. apply Hlt. tauto.
    + intros o' p' Hget. cbn [portals with_log with_portals] in Hget.
      destruct (String.eqb_spec o o') as [<-|Hne].
      * now rewrite JsObjectFacts.get_delete_same in Hget.
      * rewrite JsObjectFacts.get_delete_other in Hget by assumption.
        destruct (Ha o' p' Hget) as (f' & Hin' & Hid' & Hpf' & Hw').
        destruct (Ha o p Hp) as (f & Hin & Hid & Hpf & _).
        exists f'. split; [|auto]. cbn. apply filter_In. split; auto.
        apply negb_true_iff, Nat.eqb_neq. intros Heq.
        assert (f' = f)
          by (apply (same_id_same_frame (body s)); auto; congruence).
        subst f'. destruct Hpf as [Hn _], Hpf' as [Hn' _]. congruence.
  - cbn [react invoke]. rewrite removeListener_spec.
    destruct (JsObject.has (listeners s) o); auto.
  - rewrite react_window_message_spec.
    destruct (window_message_bound s); [|auto].
    rewrite handlePortalMessage_spec. auto.
  - cbn [react]. rewrite handleBroadcast_spec. auto.
Qed.

Lemma run_attached (xs : list Stimulus) s :
  frames_distinct s -> portals_attached host s ->
  frames_distinct (run host xs s) /\ portals_attached host (run host xs s).
Proof.
  revert s. induction xs as [|x xs IH]; intros s Hd Ha; cbn [run fold_left].
  - auto.
  - destruct (react_attached s x Hd Ha) as [Hd' Ha']. now apply IH.
Qed.

Lemma reachable_attached s :
  reachable host s -> frames_distinct s /\ portals_attached host s.
Proof.
  intros (ctx & xs & ->). apply run_attached.
  - unfold new_Symbiosome.
    pose proof (constructor_spec (Message:=Message) (Handler:=Handler)
                  host ctx) as E.
    cbv zeta in E. rewrite E. split; cbn; [constructor | tauto].
  - intros o p Hget.
    destruct (new_Symbiosome_registries (Message:=Message)
                (Handler:=Handler) host ctx) as (_ & Hp & _).
    rewrite Hp in Hget. discriminate.
Qed.

End Frames.

(** ** Properties beyond the claims *)

Section Extras.
Context {Message Handler Callback : Type}.
Variable host : Host.
Implicit Types (s : @State Message Handler Callback).
Implicit Types (m data : Message) (h : Handler).

(** X1: in every reachable state each registered portal has its iframe in
    the document: an element named by the portal's origin, one pixel wide
    and high, hidden and absolutely positioned, pointed at a URL of that
    origin with [parent] set to the own origin, whose [contentWindow] is the
    window the portal holds.  Portals of different origins have different
    iframes, and no element is in the document twice. *)
Theorem portals_have_their_iframes s :
  reachable host s ->
  (forall o p,
     JsObject.get (portals s) o = Some p ->
     exists f,
       In f (body s) /\ frame_id f = frame p /\ portal_frame host o f /\
       contentWindow host f = Some (window p)) /\
  (forall o1 o2 p1 p2,
     JsObject.get (portals s) o1 = Some p1 ->
     JsObject.get (portals s) o2 = Some p2 ->
     o1 <> o2 -> frame p1 <> frame p2) /\
  NoDup (map frame_id (body s)).
Proof.
  intros Hreach.
  destruct (reachable_attached host s Hreach) as [[Hnd Hlt] Ha].
  split; [exact Ha|]. split; [|exact Hnd].
  intros o1 o2 p1 p2 H1 H2 Hne Heq.
  destruct (Ha o1 p1 H1) as (f1 & Hin1 & Hid1 & [Hn1 _] & _).
  destruct (Ha o2 p2 H2) as (f2 & Hin2 & Hid2 & [Hn2 _] & _).
  assert (f1 = f2)
    by (apply (same_id_same_frame (body s)); auto; congruence).
  congruence.
Qed.

(** X2: when [addPortal(url)] has returned in a reachable state,
    [removePortal] of the canonical origin of [url] returns and undoes it:
    the portal registry, with the order of its keys, the iframes of the
    document and the listener registry are as they were before the portal
    was added, and so is what [getOrigins] returns. *)
Theorem addPortal_removePortal_restores s (url : string)
    (onAdded onRemoved : option Callback) :
  reachable host s ->
  fst (addPortal host url onAdded s) = Returned tt ->
  exists o,
    URL_origin host url = Some o /\
    let s1 := snd (addPortal host url onAdded s) in
    let s2 := snd (removePortal host o onRemoved s1) in
    fst (removePortal host o onRemoved s1) = Returned tt /\
    portals s2 = portals s /\
    body s2 = body s /\
    listeners s2 = listeners s /\
    getOrigins s2 = getOrigins s.
Proof.
  intros Hreach Hok.
  destruct (reachable_attached host s Hreach) as [Hd _].
  pose proof (framed_body s) as Hb.
  rewrite addPortal_spec in *.
  destruct (URL_origin host url) as [o|] eqn:Ho; [|discriminate].
  exists o. split; [reflexivity|].
  destruct (String.eqb o (window_origin host)) eqn:Hown; [discriminate|].
  destruct (JsObject.has (portals s) o) eqn:Hhas; [discriminate|].
  cbv zeta in *.
  destruct (contentWindow host _) as [w|]; [|discriminate].
  cbn [snd]. rewrite removePortal_spec, Hown.
  cbn [portals with_log with_portals].
  rewrite JsObjectFacts.get_set_same. cbn [fst snd frame].
  assert (Hp : JsObject.delete
                 (JsObject.set (portals s) o (mkPortal (next_frame s) w)) o
               = portals s)
    by now apply JsObjectMore.delete_set_absent.
  assert (Hbody : filter (fun f => negb (Nat.eqb (frame_id f) (next_frame s)))
                         (body (framed s o
                                  (URL_with_parent host url
                                                   (window_origin host))))
                  = body s).
  { rewrite (Hb _ _ Hd), filter_app. cbn [filter frame_id].
    rewrite Nat.eqb_refl. cbn [negb]. rewrite app_nil_r.
    apply filter_id_old. apply Hd. }
  split; [reflexivity|].
  unfold getOrigins. cbn. rewrite Hp. cbn in Hbody. rewrite Hbody. auto.
Qed.

(** X3: when [listenToOrigin(url, h)] has returned, [removeListener] of the
    canonical origin of [url] returns and undoes it: the listener registry,
    with the order of its keys, is as it was before, the portals and the
    document were never touched, and a broadcast for that origin is dropped
    again without any handler being called. *)
Theorem listenToOrigin_removeListener_restores s (url : string) h
    (onListen onRemoved : option Callback) :
  fst (listenToOrigin host url h onListen s) = Returned tt ->
  exists o,
    URL_origin host url = Some o /\
    let s1 := snd (listenToOrigin host url h onListen s) in
    let s2 := snd (removeListener o onRemoved s1) in
    fst (removeListener o onRemoved s1) = Returned tt /\
    listeners s2 = listeners s /\
    portals s2 = portals s /\
    body s2 = body s /\
    forall data,
      effects (handleBroadcast (mkBroadcastEvent o data)) s2 = [].
Proof.
  intros Hok. rewrite listenToOrigin_spec in *.
  destruct (URL_origin host url) as [o|] eqn:Ho; [|discriminate].
  exists o. split; [reflexivity|].
  destruct (JsObject.has (listeners s) o) eqn:Hhas; [discriminate|].
  cbn [snd]. set (s1 := with_log _ (with_listeners _ s)).
  rewrite removeListener_spec.
  assert (Hh : JsObject.has (listeners s1) o = true)
    by (subst s1; cbn; apply JsObjectFacts.has_set_same).
  rewrite Hh. cbn [fst snd].
  set (s2 := with_log _ (with_listeners _ s1)).
  assert (Hl : listeners s2 = listeners s)
    by (subst s2 s1; cbn; now apply JsObjectMore.delete_set_absent).
  split; [reflexivity|]. split; [exact Hl|].
  split; [reflexivity|]. split; [reflexivity|].
  intros data. unfold effects.
  rewrite (trace_with_log _ _ _ _ _
             (handleBroadcast_spec s2 (mkBroadcastEvent o data))).
  rewrite filter_app, filter_diagnostic. cbn [data_origin data_data app].
  rewrite Hl. unfold JsObject.has in Hhas.
  destruct (JsObject.get (listeners s) o); [discriminate|].
  apply filter_diagnostic.
Qed.

(** X4: when the new iframe has no [contentWindow], [addPortal] throws
    [TransportUnavailable] after the iframe was put in the document.  In a
    reachable state the document then holds one more element, named by the
    origin, while no portal is registered for it; [removePortal] of that
    origin throws [NotFound] and changes nothing, so the element stays in
    the document. *)
Theorem addPortal_without_window_leaves_iframe s (url o : string)
    (onAdded : option Callback) :
  reachable host s ->
  URL_origin host url = Some o ->
  o <> window_origin host ->
  JsObject.has (portals s) o = false ->
  let left_behind :=
    mkFrame (next_frame s) o "1" "1" "hidden" "absolute"
            (URL_with_parent host url (window_origin host)) in
  contentWindow host left_behind = None ->
  let s1 := snd (addPortal host url onAdded s) in
  fst (addPortal host url onAdded s) = Thrown (TransportUnavailable o) /\
  body s1 = (body s ++ [left_behind])%list /\
  portals s1 = portals s /\
  trace (addPortal host url onAdded) s = [] /\
  forall onRemoved,
    removePortal host o onRemoved s1 = (Thrown (NotFound Portals o), s1).
Proof.
  intros Hreach Ho Hne Hhas left_behind Hnull s1.
  destruct (reachable_attached host s Hreach) as [Hd _].
  assert (E : addPortal host url onAdded s
              = (Thrown (TransportUnavailable o),
                 framed s o (URL_with_parent host url (window_origin host)))).
  { rewrite addPortal_spec, Ho. apply String.eqb_neq in Hne.
    rewrite Hne, Hhas. cbv zeta. fold left_behind. now rewrite Hnull. }
  subst s1. rewrite (trace_same_log _ s) by (now rewrite E).
  rewrite E. cbn [fst snd].
  split; [reflexivity|]. split; [now apply framed_body|].
  split; [reflexivity|]. split; [reflexivity|].
  intros onRemoved. rewrite removePortal_spec.
  apply String.eqb_neq in Hne. rewrite Hne.
  unfold JsObject.has in Hhas. cbn [portals framed with_body with_next_frame].
  destruct (JsObject.get (portals s) o); [discriminate|reflexivity].
Qed.

(** X5: a push to a portaled origin [O] that [postMessage] accepts as a
    target is one [postMessage] on the window of the portal, with [O] as
    the target origin, followed by the push callback; nothing is posted on
    the local channel and no listener of this instance is called, even one
    registered for [O].  In a reachable state that window is the
    [contentWindow] of the iframe named [O] that is in the document.
    Registries and document are untouched. *)
Theorem pushToOrigin_portal_posts_to_iframe s (O : string) m
    (onPush : option Callback) (p : Portal) :
  reachable host s ->
  O <> window_origin host ->
  accepted_target host O = true ->
  JsObject.get (portals s) O = Some p ->
  let s1 := snd (pushToOrigin host O m onPush s) in
  fst (pushToOrigin host O m onPush s) = Returned tt /\
  trace (pushToOrigin host O m onPush) s =
    WindowPost (window p) m O
      :: match onPush, onPushedMessage (context s) with
         | Some f, _ => [CallbackCall f O (Some m)]
         | None, Some f => [CallbackCall f O (Some m)]
         | None, None => []
         end /\
  (exists f,
     In f (body s) /\ frame_name f = O /\
     contentWindow host f = Some (window p)) /\
  listeners s1 = listeners s /\ portals s1 = portals s /\ body s1 = body s.
Proof.
  intros Hreach Hne _ Hp s1.
  pose proof (pushToOrigin_remote_spec host s O m onPush Hne) as E.
  rewrite Hp in E. subst s1.
  rewrite (trace_with_log _ _ _ _ _ E). rewrite E. cbn [fst snd].
  split; [reflexivity|]. split.
  { unfold callback, nullish.
    destruct onPush; [|destruct (onPushedMessage (context s))]; reflexivity. }
  split; [|auto].
  destruct (reachable_attached host s Hreach) as [_ Ha].
  destruct (Ha O p Hp) as (f & Hin & _ & [Hname _] & Hw). eauto.
Qed.

(** X6: a portal is keyed by the canonical origin of the URL it was added
    with, not by the URL.  After [addPortal(url)] has returned, where [url]
    is not its own canonical origin [o] (and is neither the own origin nor
    a key of the registry), [pushToOrigin(url, m)] throws [PortalNotFound]
    and [removePortal(url)] throws [NotFound], both without any effect,
    while [pushToOrigin(o, m)] returns when [o] is a target that
    [postMessage] accepts. *)
Theorem portal_keyed_by_origin_not_url s (url o : string)
    (onAdded : option Callback) :
  fst (addPortal host url onAdded s) = Returned tt ->
  URL_origin host url = Some o ->
  url <> o ->
  url <> window_origin host ->
  JsObject.has (portals s) url = false ->
  let s1 := snd (addPortal host url onAdded s) in
  (forall m onPush,
     pushToOrigin host url m onPush s1 = (Thrown (PortalNotFound url), s1)) /\
  (forall onRemoved,
     removePortal host url onRemoved s1 = (Thrown (NotFound Portals url), s1))
  /\
  (accepted_target host o = true ->
   forall m onPush, fst (pushToOrigin host o m onPush s1) = Returned tt).
Proof.
  intros Hok Ho Hurl Hown Hhas s1. subst s1.
  rewrite addPortal_spec, Ho in *.
  destruct (String.eqb_spec o (window_origin host)) as [|Hne]; [discriminate|].
  destruct (JsObject.has (portals s) o); [discriminate|].
  cbv zeta in *. destruct (contentWindow host _) as [w|]; [|discriminate].
  cbn [snd]. set (s1 := with_log _ _).
  assert (Hget : JsObject.get (portals s1) url = None).
  { subst s1. cbn. rewrite JsObjectFacts.get_set_other by congruence.
    unfold JsObject.has in Hhas.
    destruct (JsObject.get (portals s) url); [discriminate|reflexivity]. }
  assert (Hgeto : JsObject.get (portals s1) o
                  = Some (mkPortal (next_frame s) w)).
  { subst s1. cbn. apply JsObjectFacts.get_set_same. }
  split; [|split].
  - intros m onPush. rewrite pushToOrigin_remote_spec by assumption.
    now rewrite Hget.
  - intros onRemoved. rewrite removePortal_spec.
    apply String.eqb_neq in Hown. now rewrite Hown, Hget.
  - intros _ m onPush. rewrite pushToOrigin_remote_spec by assumption.
    now rewrite Hgeto.
Qed.

End Extras.

Section Extras2.
Context {Message Handler Callback : Type}.
Variable host : Host.
Implicit Types (s : @State Message Handler Callback).
Implicit Types (m data : Message) (h : Handler).

(** X7: the two registries and the document are kept apart.  Whether it
    returns or throws, [listenToOrigin] and [removeListener] leave the
    portals and the document as they are, [addPortal] and [removePortal]
    leave the listeners as they are, and [pushToOrigin] and the handlers
    of incoming messages leave all three as they are. *)
Theorem methods_touch_only_their_registry s (x : Stimulus) :
  let s1 := snd (react host x s) in
  match x with
  | AppCall (ListenToOrigin _ _ _) | AppCall (RemoveListener _ _) =>
      portals s1 = portals s /\ body s1 = body s
  | AppCall (AddPortal _ _) | AppCall (RemovePortal _ _) =>
      listeners s1 = listeners s
  | AppCall (PushToOrigin _ _ _) | WindowMessage _ | ChannelMessage _ =>
      listeners s1 = listeners s /\ portals s1 = portals s /\
      body s1 = body s
  end.
Proof.
  destruct x as [[o h cb|u cb|o m cb|o cb|o cb]|event|event]; cbv zeta.
  - cbn [react invoke]. rewrite listenToOrigin_spec.
    destruct (URL_origin host o) as [o'|]; [|auto].
    destruct (JsObject.has (listeners s) o'); auto.
  - cbn [react invoke]. rewrite addPortal_spec.
    destruct (URL_origin host u) as [o|]; [|auto].
    destruct (String.eqb o (window_origin host)); [auto|].
    destruct (JsObject.has (portals s) o); [auto|].
    cbv zeta. destruct (contentWindow host _); auto.
  - cbn [react invoke].
    destruct (pushToOrigin_cases host s o m cb) as [E|[extra E]];
      rewrite E; auto.
  - cbn [react invoke]. rewrite removePortal_spec.
    destruct (String.eqb o (window_origin host)); [auto|].
    destruct (JsObject.get (portals s) o); auto.
  - cbn [react invoke]. rewrite removeListener_spec.
    destruct (JsObject.has (listeners s) o); auto.
  - rewrite react_window_message_spec.
    destruct (window_message_bound s); [|auto].
    rewrite handlePortalMessage_spec. auto.
  - cbn [react]. rewrite handleBroadcast_spec. auto.
Qed.

(** X8: in a reachable state [getOrigins()] lists the origins of the
    portals first, in the order in which the portals were added, and then
    the origins listened to that have no portal, in the order in which the
    listeners were added. *)
Theorem getOrigins_portals_then_listeners s :
  reachable host s ->
  getOrigins s =
    (JsObject.keys (portals s)
     ++ filter (fun o => negb (JsObject.has (portals s) o))
               (JsObject.keys (listeners s)))%list.
Proof.
  intros Hreach.
  destruct (reachable_registries_distinct host s Hreach) as [Hl Hp].
  unfold getOrigins.
  rewrite JsObjectMore.keys_assign
    by (rewrite keys_listener_entries; exact Hl).
  assert (Hk : JsObject.keys
                 (JsObject.assign JsObject.empty
                    (portal_entries (Handler:=Handler) (portals s)))
               = JsObject.keys (portals s)).
  { rewrite JsObjectMore.keys_assign_empty;
      rewrite keys_portal_entries; auto. }
  rewrite Hk, keys_listener_entries. f_equal.
  apply filter_ext. intros k. f_equal.
  now apply JsObjectMore.has_keys_ext.
Qed.

(** X9: the constructor announces the own origin through [onPortalAdded],
    yet registers nothing: [getOrigins()] of a new instance is empty.  In
    every reachable state the own origin is listed by [getOrigins()]
    exactly when a listener for it is registered, and never because of a
    portal. *)
Theorem own_origin_listed_only_when_listened
    (ctx : @SymbiosomeContext Callback) s :
  let fresh : @State Message Handler Callback := new_Symbiosome host ctx in
  getOrigins fresh = [] /\
  (forall g,
     onPortalAdded ctx = Some g ->
     exists before,
       log fresh = (before ++ [CallbackCall g (window_origin host) None])%list)
  /\
  (reachable host s ->
   JsObject.has (portals s) (window_origin host) = false /\
   (In (window_origin host) (getOrigins s) <->
    JsObject.has (listeners s) (window_origin host) = true)).
Proof.
  intros fresh.
  destruct (new_Symbiosome_registries (Message:=Message) (Handler:=Handler)
              host ctx) as (Hl & Hp & _).
  fold fresh in Hl, Hp.
  split; [unfold getOrigins; now rewrite Hl, Hp|]. split.
  - intros g Hg. unfold fresh, new_Symbiosome.
    pose proof (constructor_spec (Message:=Message) (Handler:=Handler)
                  host ctx) as E.
    cbv zeta in E. rewrite E. cbn [snd log]. rewrite Hg.
    rewrite app_assoc. eauto.
  - intros Hreach.
    pose proof (reachable_no_self_portal host s Hreach) as Hno.
    split; [exact Hno|].
    rewrite getOrigins_In, <- !JsObjectFacts.has_true_iff, Hno.
    intuition discriminate.
Qed.

(** X10: an instance that is not made in portal mode installs no handler
    for window messages and captures no parent, whatever the [parent]
    parameter of the page says.  For as long as it lives a [message] event
    of the window changes nothing: no diagnostic, no post, no call. *)
Theorem non_portal_ignores_window_messages
    (ctx : @SymbiosomeContext Callback) (xs : list Stimulus)
    (event : PortalEvent) :
  isPortal ctx = false ->
  let s : @State Message Handler Callback :=
    run host xs (new_Symbiosome host ctx) in
  window_message_bound s = false /\
  parentOrigin s = None /\
  react host (WindowMessage event) s = (Returned tt, s) /\
  trace (react host (WindowMessage event)) s = [].
Proof.
  intros Hportal s.
  destruct (run_keeps_bindings host xs
              (new_Symbiosome (Message:=Message) (Handler:=Handler) host ctx))
    as (Hb & _).
  destruct (run_preserves host xs
              (new_Symbiosome (Message:=Message) (Handler:=Handler) host ctx))
    as (Hp & _).
  fold s in Hb, Hp.
  pose proof (constructor_spec (Message:=Message) (Handler:=Handler)
                host ctx) as E.
  cbv zeta in E. rewrite Hportal in E. cbn [andb] in E.
  unfold new_Symbiosome in Hb, Hp. rewrite E in Hb, Hp.
  cbn [snd window_message_bound parentOrigin] in Hb, Hp.
  assert (Er : react host (WindowMessage event) s = (Returned tt, s))
    by (rewrite react_window_message_spec; now rewrite Hb).
  rewrite (trace_unchanged _ _ _ Er). auto.
Qed.

(** X11: the constructor captures the [parent] parameter as the trusted
    parent origin exactly when the instance is made in portal mode and the
    parameter is present, not empty and not the own origin; it is captured
    as written, and nothing that happens to the instance afterwards
    changes it. *)
Theorem parent_origin_fixed_at_construction
    (ctx : @SymbiosomeContext Callback) (xs : list Stimulus) (P : string) :
  let s : @State Message Handler Callback :=
    run host xs (new_Symbiosome host ctx) in
  parentOrigin s = Some P <->
  isPortal ctx = true /\ search_parent host = Some P /\
  P <> "" /\ P <> window_origin host.
Proof.
  intros s.
  destruct (run_preserves host xs
              (new_Symbiosome (Message:=Message) (Handler:=Handler) host ctx))
    as (Hp & _).
  fold s in Hp. rewrite Hp. unfold new_Symbiosome.
  pose proof (constructor_spec (Message:=Message) (Handler:=Handler)
                host ctx) as E.
  cbv zeta in E. rewrite E. cbn [snd parentOrigin].
  destruct (isPortal ctx); cbn [andb].
  2: { split; [discriminate | intros (H & _); discriminate]. }
  destruct (search_parent host) as [q|]; cbn [truthy strict_eq].
  2: { split; [discriminate | intros (_ & H & _); discriminate]. }
  destruct (String.eqb_spec q "") as [->|Hne]; cbn [negb andb].
  { split; [discriminate|]. intros (_ & [= <-] & H & _). congruence. }
  destruct (String.eqb_spec (window_origin host) q) as [Heq|Hown];
    cbn [negb].
  { split; [discriminate|]. intros (_ & [= <-] & _ & H). congruence. }
  split.
  - intros [= <-]. repeat split; congruence.
  - intros (_ & H & _). exact H.
Qed.

(** X12: an instance that broadcasts hands the message to its own listener
    exactly as an instance receiving it from the channel would: what
    [broadcast(origin, data)] does after posting the envelope is what
    [handleBroadcast] does for that envelope, diagnostics apart. *)
Theorem broadcast_echoes_as_a_receiver s (origin : string) data :
  effects (broadcast origin data) s =
    ChannelPost (channelID s) origin data
      :: effects (handleBroadcast (mkBroadcastEvent origin data)) s.
Proof.
  unfold effects.
  destruct (broadcast_spec s origin data) as [Hr Hs].
  assert (Hb : broadcast origin data s =
               (Returned tt,
                with_log (log s ++ ChannelPost (channelID s) origin data
                            :: delivery s origin data)%list s)).
  { rewrite <- Hr, <- Hs. now destruct (broadcast origin data s). }
  rewrite (trace_with_log _ _ _ _ _ Hb).
  rewrite (trace_with_log _ _ _ _ _
             (handleBroadcast_spec s (mkBroadcastEvent origin data))).
  rewrite filter_app, filter_diagnostic. cbn [data_origin data_data app].
  unfold delivery. cbn [filter is_debug negb]. f_equal.
  destruct (JsObject.get (listeners s) origin); [reflexivity|].
  now rewrite filter_diagnostic.
Qed.

End Extras2.

Section Extras3.
Context {Message Handler Callback : Type}.
Variable host : Host.
Implicit Types (s : @State Message Handler Callback).
Implicit Types (m data : Message) (h : Handler).

Lemma In_callback (per_call default : option Callback) (o : string)
    (msg : option Message) (e : @Event Message Handler Callback) :
  In e (callback per_call default o msg) ->
  exists g, e = CallbackCall g o msg.
Proof.
  unfold callback. destruct (nullish per_call default); simpl;
    [intros [<-|[]]; eauto | tauto].
Qed.

Lemma In_diagnostic s (message : string) (args : option (list DebugArg))
    (e : @Event Message Handler Callback) :
  In e (diagnostic s message args) ->
  exists g, debug (context s) = Some g /\ e = DebugCall g message args.
Proof.
  unfold diagnostic. destruct (debug (context s)); simpl;
    [intros [<-|[]]; eauto | tauto].
Qed.

Lemma In_delivery s (o : string) data
    (e : @Event Message Handler Callback) :
  In e (delivery s o data) ->
  exists h, JsObject.get (listeners s) o = Some h /\ e = HandlerCall h o data.
Proof.
  unfold delivery. destruct (JsObject.get (listeners s) o); simpl;
    [intros [<-|[]]; eauto | tauto].
Qed.

(** Every event a step adds to the log is accounted for by the state the
    step started in. *)
Lemma react_effects s (x : Stimulus) (e : @Event Message Handler Callback) :
  In e (trace (react host x) s) ->
  match e with
  | DebugCall g _ _ => debug (context s) = Some g
  | ChannelPost channel _ _ => channel = channelID s
  | HandlerCall h o _ => JsObject.get (listeners s) o = Some h
  | WindowPost w _ target =>
      exists p, JsObject.get (portals s) target = Some p /\ w = window p
  | CallbackCall _ _ _ => True
  end.
Proof.
  destruct x as [[o h cb|u cb|o m cb|o cb|o cb]|event|event].
  - cbn [react invoke].
    pose proof (listenToOrigin_spec host s o h cb) as E.
    destruct (URL_origin host o) as [o'|];
      [|rewrite (trace_unchanged _ _ _ E); intros []].
    destruct (JsObject.has (listeners s) o');
      [rewrite (trace_unchanged _ _ _ E); intros []|].
    rewrite (trace_with_log _ _ _ _ _ E).
    intros Hin. apply In_callback in Hin. now destruct Hin as [g ->].
  - cbn [react invoke].
    pose proof (addPortal_spec host s u cb) as E.
    destruct (URL_origin host u) as [o|];
      [|rewrite (trace_unchanged _ _ _ E); intros []].
    destruct (String.eqb o (window_origin host));
      [rewrite (trace_unchanged _ _ _ E); intros []|].
    destruct (JsObject.has (portals s) o);
      [rewrite (trace_unchanged _ _ _ E); intros []|].
    cbv zeta in E. destruct (contentWindow host _).
    + rewrite (trace_with_log _ _ _ _ _ E).
      intros Hin. apply In_callback in Hin. now destruct Hin as [g ->].
    + rewrite (trace_same_log _ s) by (now rewrite E). intros [].
  - cbn [react invoke].
    destruct (String.eqb_spec o (window_origin host)) as [->|Hne].
    + rewrite (trace_with_log _ _ _ _ _ (pushToOrigin_own_spec host s m cb)).
      intros [<-|Hin]; [reflexivity|].
      apply in_app_or in Hin. destruct Hin as [Hin|Hin].
      * apply In_delivery in Hin. now destruct Hin as (h & Hget & ->).
      * apply In_callback in Hin. now destruct Hin as [g ->].
    + pose proof (pushToOrigin_remote_spec host s o m cb Hne) as E.
      destruct (JsObject.get (portals s) o) as [p|] eqn:Hp;
        [|rewrite (trace_unchanged _ _ _ E); intros []].
      rewrite (trace_with_log _ _ _ _ _ E).
      intros [<-|Hin]; [eauto|].
      apply In_callback in Hin. now destruct Hin as [g ->].
  - cbn [react invoke].
    pose proof (removePortal_spec host s o cb) as E.
    destruct (String.eqb o (window_origin host));
      [rewrite (trace_unchanged _ _ _ E); intros []|].
    destruct (JsObject.get (portals s) o);
      [|rewrite (trace_unchanged _ _ _ E); intros []].
    rewrite (trace_with_log _ _ _ _ _ E).
    intros Hin. apply In_callback in Hin. now destruct Hin as [g ->].
  - cbn [react invoke].
    pose proof (removeListener_spec s o cb) as E.
    destruct (JsObject.has (listeners s) o);
      [|rewrite (trace_unchanged _ _ _ E); intros []].
    rewrite (trace_with_log _ _ _ _ _ E).
    intros Hin. apply In_callback in Hin. now destruct Hin as [g ->].
  - pose proof (react_window_message_spec host s event) as E.
    destruct (window_message_bound s);
      [|rewrite (trace_unchanged _ _ _ E); intros []].
    rewrite handlePortalMessage_spec in E.
    rewrite (trace_with_log _ _ _ _ _ E).
    intros Hin. apply in_app_or in Hin. destruct Hin as [Hin|Hin].
    + apply In_diagnostic in Hin. now destruct Hin as (g & Hg & ->).
    + destruct (strict_eq (event_origin event) (parentOrigin s)).
      * destruct Hin as [<-|Hin]; [reflexivity|].
        apply In_delivery in Hin. now destruct Hin as (h & Hget & ->).
      * apply In_diagnostic in Hin. now destruct Hin as (g & Hg & ->).
  - cbn [react].
    rewrite (trace_with_log _ _ _ _ _ (handleBroadcast_spec s event)).
    intros Hin. apply in_app_or in Hin. destruct Hin as [Hin|Hin].
    + apply In_diagnostic in Hin. now destruct Hin as (g & Hg & ->).
    + destruct (JsObject.get (listeners s) (data_origin event)) eqn:Hget.
      * destruct Hin as [<-|[]]. exact Hget.
      * apply In_diagnostic in Hin. now destruct Hin as (g & Hg & ->).
Qed.

Lemma reachable_channelID s :
  reachable host s -> channelID s = ("symbiosome__" ++ window_origin host).
Proof.
  intros (ctx & xs & ->).
  destruct (run_keeps_bindings host xs
              (new_Symbiosome (Message:=Message) (Handler:=Handler) host ctx))
    as (_ & Hc).
  rewrite Hc. unfold new_Symbiosome.
  pose proof (constructor_spec (Message:=Message) (Handler:=Handler)
                host ctx) as E.
  cbv zeta in E. now rewrite E.
Qed.

(** X13: whatever happens to an instance, it posts on no broadcast channel
    but the one named after its own origin, [symbiosome__] followed by the
    origin, and it posts to no window but the window of a registered
    portal, with the origin of that portal as the target origin. *)
Theorem posts_stay_within_registries s (x : Stimulus) :
  reachable host s ->
  (forall channel o data,
     In (ChannelPost channel o data) (trace (react host x) s) ->
     channel = ("symbiosome__" ++ window_origin host)) /\
  (forall w m target,
     In (WindowPost w m target) (trace (react host x) s) ->
     target <> window_origin host /\
     exists p, JsObject.get (portals s) target = Some p /\ w = window p).
Proof.
  intros Hreach. split.
  - intros channel o data Hin. apply react_effects in Hin.
    now rewrite (reachable_channelID s Hreach) in Hin.
  - intros w m target Hin. apply react_effects in Hin.
    split; [|exact Hin]. destruct Hin as (p & Hp & _). intros ->.
    pose proof (reachable_no_self_portal host s Hreach) as Hno.
    unfold JsObject.has in Hno. now rewrite Hp in Hno.
Qed.

(** X14: a handler is called only for the origin it is registered for:
    whatever happens to an instance, each call it makes to a handler has as
    its first argument an origin for which that handler is the registered
    listener at that moment, and when the call comes from a [message] event
    of the window, that origin is the trusted parent origin. *)
Theorem handlers_called_for_their_origin_only s (x : Stimulus) h
    (o : string) data :
  In (HandlerCall h o data) (trace (react host x) s) ->
  JsObject.get (listeners s) o = Some h /\
  (forall event, x = WindowMessage event ->
     parentOrigin s = Some o /\ event_origin event = o /\
     event_data event = data).
Proof.
  intros Hin. split; [exact (react_effects s x _ Hin)|].
  intros event ->.
  pose proof (react_window_message_spec host s event) as E.
  destruct (window_message_bound s);
    [|rewrite (trace_unchanged _ _ _ E) in Hin; destruct Hin].
  rewrite handlePortalMessage_spec in E.
  rewrite (trace_with_log _ _ _ _ _ E) in Hin.
  apply in_app_or in Hin. destruct Hin as [Hin|Hin].
  { apply In_diagnostic in Hin. destruct Hin as (g & _ & Hg). discriminate. }
  destruct (parentOrigin s) as [P|]; cbn [strict_eq] in Hin.
  2: { apply In_diagnostic in Hin. destruct Hin as (g & _ & Hg).
       discriminate. }
  destruct (String.eqb_spec (event_origin event) P) as [Heq|Hne].
  - destruct Hin as [Hin|Hin]; [discriminate|].
    apply In_delivery in Hin. destruct Hin as (h' & _ & [= -> -> ->]).
    now rewrite Heq.
  - apply In_diagnostic in Hin. destruct Hin as (g & _ & Hg). discriminate.
Qed.

Lemma filter_out_one (l : list Frame) (f : Frame) :
  NoDup (map frame_id l) -> In f l ->
  length l =
    S (length (filter (fun g => negb (Nat.eqb (frame_id g) (frame_id f))) l)).
Proof.
  induction l as [|a l IH]; simpl; [tauto|].
  intros Hnd Hin. inversion Hnd as [|? ? Hnotin Hrest]; subst.
  destruct Hin as [->|Hin].
  - rewrite Nat.eqb_refl. cbn [negb]. f_equal.
    rewrite forallb_filter_id; auto.
    apply forallb_forall. intros g Hg.
    apply negb_true_iff, Nat.eqb_neq. intros Heq. apply Hnotin.
    rewrite <- Heq. now apply in_map.
  - destruct (Nat.eqb_spec (frame_id a) (frame_id f)) as [Heq|_].
    + exfalso. apply Hnotin. rewrite Heq. now apply in_map.
    + cbn [negb length]. f_equal. auto.
Qed.

(** X15: in a reachable state, [removePortal(O)] of a registered portal
    other than the own origin returns, takes exactly one element out of
    the document, the iframe of that portal, and deletes the entry of [O];
    every other portal keeps its entry and its iframe, the listeners are
    untouched, and the removal callback is called with [O]. *)
Theorem removePortal_removes_one_iframe s (O : string)
    (onRemoved : option Callback) (p : Portal) :
  reachable host s ->
  O <> window_origin host ->
  JsObject.get (portals s) O = Some p ->
  let s1 := snd (removePortal host O onRemoved s) in
  fst (removePortal host O onRemoved s) = Returned tt /\
  JsObject.get (portals s1) O = None /\
  (forall O', O' <> O ->
     JsObject.get (portals s1) O' = JsObject.get (portals s) O') /\
  (forall f, In f (body s1) <-> In f (body s) /\ frame_id f <> frame p) /\
  length (body s) = S (length (body s1)) /\
  listeners s1 = listeners s /\
  trace (removePortal host O onRemoved) s =
    match onRemoved, onPortalRemoved (context s) with
    | Some g, _ => [CallbackCall g O None]
    | None, Some g => [CallbackCall g O None]
    | None, None => []
    end.
Proof.
  intros Hreach Hne Hp s1.
  destruct (reachable_attached host s Hreach) as [[Hnd _] Ha].
  destruct (Ha O p Hp) as (f0 & Hin0 & Hid0 & _).
  pose proof (removePortal_spec host s O onRemoved) as E.
  apply String.eqb_neq in Hne. rewrite Hne, Hp in E.
  subst s1. rewrite (trace_with_log _ _ _ _ _ E). rewrite E.
  cbn [fst snd portals body listeners with_log with_portals with_body].
  split; [reflexivity|].
  split; [apply JsObjectFacts.get_delete_same|].
  split; [intros O' HO'; apply JsObjectFacts.get_delete_other; congruence|].
  split.
  { intros f. rewrite filter_In, negb_true_iff, Nat.eqb_neq. tauto. }
  split; [rewrite <- Hid0; now apply filter_out_one|].
  split; [reflexivity|].
  unfold callback, nullish.
  destruct onRemoved; [|destruct (onPortalRemoved (context s))]; reflexivity.
Qed.

(** X16: in a reachable state, an [addPortal(url)] that returns puts
    exactly one new element at the end of the document, an iframe made for
    the canonical origin of [url], registers that origin as the last key
    of the portal registry with the window of that iframe, and calls the
    added callback with the canonical origin. *)
Theorem addPortal_appends_one_iframe s (url : string)
    (onAdded : option Callback) :
  reachable host s ->
  fst (addPortal host url onAdded s) = Returned tt ->
  let s1 := snd (addPortal host url onAdded s) in
  exists o f w,
    URL_origin host url = Some o /\
    o <> window_origin host /\
    JsObject.has (portals s) o = false /\
    body s1 = (body s ++ [f])%list /\
    portal_frame host o f /\
    contentWindow host f = Some w /\
    JsObject.keys (portals s1) = (JsObject.keys (portals s) ++ [o])%list /\
    JsObject.get (portals s1) o = Some (mkPortal (frame_id f) w) /\
    trace (addPortal host url onAdded) s =
      match onAdded, onPortalAdded (context s) with
      | Some g, _ => [CallbackCall g o None]
      | None, Some g => [CallbackCall g o None]
      | None, None => []
      end.
Proof.
  intros Hreach Hok s1.
  destruct (reachable_attached host s Hreach) as [Hd _].
  pose proof (addPortal_spec host s url onAdded) as E.
  rewrite E in Hok.
  destruct (URL_origin host url) as [o|] eqn:Ho; [|discriminate].
  destruct (String.eqb_spec o (window_origin host)) as [|Hne]; [discriminate|].
  destruct (JsObject.has (portals s) o) eqn:Hhas; [discriminate|].
  cbv zeta in E, Hok.
  destruct (contentWindow host _) as [w|] eqn:Hw; [|discriminate].
  exists o.
  exists (mkFrame (next_frame s) o "1" "1" "hidden" "absolute"
                  (URL_with_parent host url (window_origin host))).
  exists w.
  subst s1. rewrite (trace_with_log _ _ _ _ _ E). rewrite E.
  cbn [snd portals body with_log with_portals frame_id].
  split; [reflexivity|]. split; [exact Hne|]. split; [exact Hhas|].
  split; [now apply framed_body|].
  split; [unfold portal_frame; cbn; repeat split; eauto|].
  split; [exact Hw|].
  split; [rewrite JsObjectFacts.keys_set; cbn [framed portals with_body
            with_next_frame]; now rewrite Hhas|].
  split; [apply JsObjectFacts.get_set_same|].
  unfold callback, nullish.
  destruct onAdded; [|destruct (onPortalAdded (context s))]; reflexivity.
Qed.

(** X17: a registration is never overwritten.  Whatever happens to an
    instance, the handler registered for an origin stays the handler for
    that origin unless the step is [removeListener] of that origin, and
    the portal registered for an origin stays the portal for that origin
    unless the step is [removePortal] of that origin. *)
Theorem registrations_last_until_removed s (x : Stimulus) (o : string) :
  let s1 := snd (react host x s) in
  (forall h,
     JsObject.get (listeners s) o = Some h ->
     JsObject.get (listeners s1) o = Some h \/
     (exists cb, x = AppCall (RemoveListener o cb))) /\
  (forall p,
     JsObject.get (portals s) o = Some p ->
     JsObject.get (portals s1) o = Some p \/
     (exists cb, x = AppCall (RemovePortal o cb))).
Proof.
  cbv zeta.
  destruct x as [[o' h' cb|u cb|o' m cb|o' cb|o' cb]|event|event].
  - cbn [react invoke]. rewrite listenToOrigin_spec.
    destruct (URL_origin host o') as [c|]; [|auto].
    destruct (JsObject.has (listeners s) c) eqn:Hhas; [auto|].
    cbn. split; [|auto]. intros h Hget. left.
    rewrite JsObjectFacts.get_set_other; auto.
    intros ->. unfold JsObject.has in Hhas. now rewrite Hget in Hhas.
  - cbn [react invoke]. rewrite addPortal_spec.
    destruct (URL_origin host u) as [c|]; [|auto].
    destruct (String.eqb c (window_origin host)); [auto|].
    destruct (JsObject.has (portals s) c) eqn:Hhas; [auto|].
    cbv zeta. destruct (contentWindow host _); cbn; [|auto].
    split; [auto|]. intros p Hget. left.
    rewrite JsObjectFacts.get_set_other; auto.
    intros ->. unfold JsObject.has in Hhas. now rewrite Hget in Hhas.
  - cbn [react invoke].
    destruct (pushToOrigin_cases host s o' m cb) as [E|[extra E]];
      rewrite E; auto.
  - cbn [react invoke]. rewrite removePortal_spec.
    destruct (String.eqb o' (window_origin host)); [auto|].
    destruct (JsObject.get (portals s) o'); cbn; [|auto].
    split; [auto|]. intros p' Hget.
    destruct (String.eqb_spec o' o) as [->|Hne]; [right; eauto|left].
    now rewrite JsObjectFacts.get_delete_other.
  - cbn [react invoke]. rewrite removeListener_spec.
    destruct (JsObject.has (listeners s) o'); cbn; [|auto].
    split; [|auto]. intros h Hget.
    destruct (String.eqb_spec o' o) as [->|Hne]; [right; eauto|left].
    now rewrite JsObjectFacts.get_delete_other.
  - rewrite react_window_message_spec.
    destruct (window_message_bound s); [|auto].
    rewrite handlePortalMessage_spec. auto.
  - cbn [react]. rewrite handleBroadcast_spec. auto.
Qed.

End Extras3.

Section Extras4.
Context {Message Handler Callback : Type}.
Implicit Types (m data : Message) (h : Handler).

(** X18: the way of a message from a parent to a listener.  A page of
    origin [A] holds a portal for the origin [B]; the page in the portal's
    iframe runs an instance in portal mode whose [parent] parameter is [A];
    a third context of origin [B] listens to [A].  Then [pushToOrigin(B, m)]
    on the parent posts [m] to the portal's window, targeted at [B]; the
    portal instance, when it gets the [message] event with origin [A] and
    data [m], posts the envelope [{origin: A, data: m}] on the channel
    named after [B] (and calls its own listener for [A], if any); and the
    third context, which is on that same channel, when it gets that
    envelope, calls its handler with [(A, m)]. *)
Theorem message_relay_from_parent_to_listener
    (parent_host portal_host tab_host : Host)
    (parent tab : @State Message Handler Callback)
    (portal_ctx : @SymbiosomeContext Callback)
    (portal_history : list Stimulus)
    (p : Portal) h m (onPush : option Callback) :
  let A := window_origin parent_host in
  let B := window_origin portal_host in
  window_origin tab_host = B ->
  A <> B ->
  A <> "" ->
  reachable parent_host parent ->
  JsObject.get (portals parent) B = Some p ->
  isPortal portal_ctx = true ->
  search_parent portal_host = Some A ->
  reachable tab_host tab ->
  JsObject.get (listeners tab) A = Some h ->
  let portal : @State Message Handler Callback :=
    run portal_host portal_history (new_Symbiosome portal_host portal_ctx) in
  (exists rest,
     trace (pushToOrigin parent_host B m onPush) parent
       = WindowPost (window p) m B :: rest) /\
  effects (react portal_host (WindowMessage (mkPortalEvent A m))) portal
    = ChannelPost ("symbiosome__" ++ B) A m
        :: match JsObject.get (listeners portal) A with
           | Some own_listener => [HandlerCall own_listener A m]
           | None => []
           end /\
  channelID tab = ("symbiosome__" ++ B) /\
  effects (react tab_host (ChannelMessage (mkBroadcastEvent A m))) tab
    = [HandlerCall h A m].
Proof.
  intros A B Htab HAB HA Hparent Hp Hmode Hparam Hreach Hh portal.
  split; [|split; [|split]].
  - assert (HBA : B <> A) by congruence.
    pose proof (pushToOrigin_remote_spec parent_host parent B m onPush HBA)
      as E.
    rewrite Hp in E. rewrite (trace_with_log _ _ _ _ _ E). eauto.
  - destruct (portal_mode_trusts_parent (Message:=Message)
                (Handler:=Handler) portal_host portal_ctx portal_history A
                Hmode Hparam HA HAB) as (Hbound & Hpo).
    fold portal in Hbound, Hpo.
    assert (Hch : channelID portal = ("symbiosome__" ++ B))
      by (apply (reachable_channelID portal_host);
          exists portal_ctx, portal_history; reflexivity).
    pose proof (react_window_message_spec portal_host portal
                  (mkPortalEvent A m)) as E.
    rewrite Hbound, handlePortalMessage_spec, Hpo in E.
    cbn [strict_eq event_origin event_data] in E.
    rewrite String.eqb_refl in E.
    unfold effects. rewrite (trace_with_log _ _ _ _ _ E).
    rewrite filter_app, filter_diagnostic. cbn [app filter is_debug negb].
    rewrite Hch. f_equal. unfold delivery.
    destruct (JsObject.get (listeners portal) A); reflexivity.
  - rewrite (reachable_channelID tab_host tab Hreach). now rewrite Htab.
  - unfold effects. cbn [react].
    rewrite (trace_with_log _ _ _ _ _
               (handleBroadcast_spec tab (mkBroadcastEvent A m))).
    rewrite filter_app, filter_diagnostic. cbn [data_origin data_data app].
    now rewrite Hh.
Qed.

Variable host : Host.
Implicit Types (s : @State Message Handler Callback).

(** X19: a listener is keyed by the canonical origin of the URL it was
    registered with.  After [listenToOrigin(url, h)] has returned,
    [listenToOrigin] with any URL of the same canonical origin throws
    [DuplicateOrigin] and changes nothing; and when [url] differs from its
    canonical origin (and is not a key of the registry), [removeListener(url)]
    throws [NotFound] and a broadcast tagged with [url] is dropped, whereas
    a broadcast tagged with the canonical origin reaches [h]. *)
Theorem listener_keyed_by_origin_not_url s (url o : string) h
    (onListen : option Callback) :
  fst (listenToOrigin host url h onListen s) = Returned tt ->
  URL_origin host url = Some o ->
  let s1 := snd (listenToOrigin host url h onListen s) in
  (forall url' h' onListen',
     URL_origin host url' = Some o ->
     listenToOrigin host url' h' onListen' s1
       = (Thrown (DuplicateOrigin Listeners o), s1)) /\
  (forall data,
     effects (handleBroadcast (mkBroadcastEvent o data)) s1
       = [HandlerCall h o data]) /\
  (url <> o ->
   JsObject.has (listeners s) url = false ->
   (forall onRemoved,
      removeListener url onRemoved s1
        = (Thrown (NotFound Listeners url), s1)) /\
   (forall data,
      effects (handleBroadcast (mkBroadcastEvent url data)) s1 = [])).
Proof.
  intros Hok Ho s1. subst s1. rewrite listenToOrigin_spec, Ho in *.
  destruct (JsObject.has (listeners s) o) eqn:Hhas; [discriminate|].
  cbn [snd]. set (s1 := with_log _ _).
  assert (Hget : JsObject.get (listeners s1) o = Some h)
    by (subst s1; cbn; apply JsObjectFacts.get_set_same).
  split; [|split].
  - intros url' h' onListen' Ho'. rewrite listenToOrigin_spec, Ho'.
    unfold JsObject.has. now rewrite Hget.
  - intros data. unfold effects.
    rewrite (trace_with_log _ _ _ _ _
               (handleBroadcast_spec s1 (mkBroadcastEvent o data))).
    rewrite filter_app, filter_diagnostic. cbn [data_origin data_data app].
    now rewrite Hget.
  - intros Hne Hno.
    assert (Hnone : JsObject.get (listeners s1) url = None).
    { subst s1. cbn. rewrite JsObjectFacts.get_set_other by congruence.
      unfold JsObject.has in Hno.
      destruct (JsObject.get (listeners s) url); [discriminate|reflexivity]. }
    split.
    + intros onRemoved. rewrite removeListener_spec. unfold JsObject.has.
      now rewrite Hnone.
    + intros data. unfold effects.
      rewrite (trace_with_log _ _ _ _ _
                 (handleBroadcast_spec s1 (mkBroadcastEvent url data))).
      rewrite filter_app, filter_diagnostic.
      cbn [data_origin data_data app]. rewrite Hnone.
      apply filter_diagnostic.
Qed.

End Extras4.

(** ** The further properties at work on concrete pages *)

Lemma busy_reachable : reachable Demo.top_page Scenario.busy.
Proof.
  exists (Demo.verbose false), Scenario.busy_history. reflexivity.
Defined.

Lemma portals_have_their_iframes_witness :
  reachable Demo.top_page Scenario.busy /\
  JsObject.get (portals Scenario.busy) Demo.c_example
    = Some (mkPortal 1 (FrameWindow 1)) /\
  exists f,
    In f (body Scenario.busy) /\ frame_id f = 1 /\
    portal_frame Demo.top_page Demo.c_example f.
Proof.
  split; [exact busy_reachable|]. split; [reflexivity|].
  destruct (portals_have_their_iframes Demo.top_page Scenario.busy
              busy_reachable) as (H & _).
  destruct (H Demo.c_example (mkPortal 1 (FrameWindow 1)) eq_refl)
    as (f & Hin & Hid & Hpf & _).
  exists f. auto.
Defined.

Lemma fresh_reachable : reachable Demo.top_page Demo.fresh.
Proof. exists (Demo.verbose false), []. reflexivity. Defined.

Lemma addPortal_removePortal_restores_witness :
  reachable Demo.top_page Scenario.busy /\
  fst (addPortal Demo.top_page "https://d.example/in" None Scenario.busy)
    = Returned tt /\
  exists o,
    let s1 := snd (addPortal Demo.top_page "https://d.example/in" None
                             Scenario.busy) in
    let s2 := snd (removePortal Demo.top_page o None s1) in
    portals s2 = portals Scenario.busy /\ body s2 = body Scenario.busy.
Proof.
  split; [exact busy_reachable|]. split; [reflexivity|].
  destruct (addPortal_removePortal_restores Demo.top_page Scenario.busy
              "https://d.example/in" None None busy_reachable eq_refl)
    as (o & _ & H).
  cbv zeta in H. destruct H as (_ & Hp & Hb & _).
  exists o. split; assumption.
Defined.

Lemma listenToOrigin_removeListener_restores_witness :
  fst (listenToOrigin Demo.top_page "https://a.example/app" "onA" None
                      Scenario.busy) = Returned tt /\
  exists o,
    let s1 := snd (listenToOrigin Demo.top_page "https://a.example/app"
                                  "onA" None Scenario.busy) in
    listeners (snd (removeListener o None s1)) = listeners Scenario.busy.
Proof.
  split; [reflexivity|].
  destruct (listenToOrigin_removeListener_restores Demo.top_page
              Scenario.busy "https://a.example/app" "onA" None None eq_refl)
    as (o & _ & H).
  cbv zeta in H. destruct H as (_ & Hl & _).
  exists o. exact Hl.
Defined.

Lemma windowless_reachable :
  reachable Scenario.windowless_page Scenario.windowless_fresh.
Proof. exists (Demo.verbose false), []. reflexivity. Defined.

Lemma addPortal_without_window_leaves_iframe_witness :
  reachable Scenario.windowless_page Scenario.windowless_fresh /\
  URL_origin Scenario.windowless_page "https://a.example/portal.html"
    = Some Demo.a_example /\
  Demo.a_example <> window_origin Scenario.windowless_page /\
  JsObject.has (portals Scenario.windowless_fresh) Demo.a_example = false /\
  fst (addPortal Scenario.windowless_page "https://a.example/portal.html"
                 None Scenario.windowless_fresh)
    = Thrown (TransportUnavailable Demo.a_example) /\
  length (body (snd (addPortal Scenario.windowless_page
                               "https://a.example/portal.html" None
                               Scenario.windowless_fresh))) = 1.
Proof.
  assert (Hne : Demo.a_example <> window_origin Scenario.windowless_page)
    by (cbn; discriminate).
  split; [exact windowless_reachable|]. split; [reflexivity|].
  split; [exact Hne|]. split; [reflexivity|].
  pose proof (addPortal_without_window_leaves_iframe
                Scenario.windowless_page Scenario.windowless_fresh
                "https://a.example/portal.html" Demo.a_example None
                windowless_reachable eq_refl Hne eq_refl eq_refl) as H.
  cbv zeta in H. destruct H as (Hthrown & Hbody & _).
  split; [exact Hthrown|]. rewrite Hbody. reflexivity.
Defined.

Lemma pushToOrigin_portal_posts_to_iframe_witness :
  reachable Demo.top_page Scenario.busy /\
  Demo.c_example <> window_origin Demo.top_page /\
  accepted_target Demo.top_page Demo.c_example = true /\
  JsObject.get (portals Scenario.busy) Demo.c_example
    = Some (mkPortal 1 (FrameWindow 1)) /\
  trace (pushToOrigin Demo.top_page Demo.c_example "hello" None)
        Scenario.busy
    = [WindowPost (FrameWindow 1) "hello" Demo.c_example;
       CallbackCall "onPush" Demo.c_example (Some "hello")].
Proof.
  assert (Hne : Demo.c_example <> window_origin Demo.top_page)
    by (cbn; discriminate).
  split; [exact busy_reachable|]. split; [exact Hne|].
  split; [reflexivity|]. split; [reflexivity|].
  pose proof (pushToOrigin_portal_posts_to_iframe Demo.top_page
                Scenario.busy Demo.c_example "hello" None
                (mkPortal 1 (FrameWindow 1)) busy_reachable Hne eq_refl
                eq_refl)
    as H.
  cbv zeta in H. destruct H as (_ & Ht & _). exact Ht.
Defined.

Lemma portal_keyed_by_origin_not_url_witness :
  fst (addPortal Demo.top_page "https://a.example/portal.html" None
                 Demo.fresh) = Returned tt /\
  URL_origin Demo.top_page "https://a.example/portal.html"
    = Some Demo.a_example /\
  "https://a.example/portal.html" <> Demo.a_example /\
  "https://a.example/portal.html" <> window_origin Demo.top_page /\
  JsObject.has (portals Demo.fresh) "https://a.example/portal.html" = false /\
  pushToOrigin Demo.top_page "https://a.example/portal.html" "hello" None
               Demo.with_portal_a
    = (Thrown (PortalNotFound "https://a.example/portal.html"),
       Demo.with_portal_a) /\
  accepted_target Demo.top_page Demo.a_example = true /\
  fst (pushToOrigin Demo.top_page Demo.a_example "hello" None
                    Demo.with_portal_a) = Returned tt.
Proof.
  assert (H1 : "https://a.example/portal.html" <> Demo.a_example)
    by discriminate.
  assert (H2 : "https://a.example/portal.html" <> window_origin Demo.top_page)
    by (cbn; discriminate).
  split; [reflexivity|]. split; [reflexivity|]. split; [exact H1|].
  split; [exact H2|]. split; [reflexivity|].
  pose proof (portal_keyed_by_origin_not_url Demo.top_page Demo.fresh
                "https://a.example/portal.html" Demo.a_example None
                eq_refl eq_refl H1 H2 eq_refl) as H.
  cbv zeta in H. destruct H as (Hpush & _ & Hkey).
  split; [exact (Hpush "hello" None)|]. split; [reflexivity|].
  exact (Hkey eq_refl "hello" None).
Defined.

Lemma getOrigins_portals_then_listeners_witness :
  reachable Demo.top_page Scenario.busy /\
  getOrigins Scenario.busy
    = [Demo.a_example; Demo.c_example; Demo.b_example].
Proof.
  split; [exact busy_reachable|].
  rewrite (getOrigins_portals_then_listeners Demo.top_page Scenario.busy
             busy_reachable).
  reflexivity.
Defined.

Lemma own_origin_listed_only_when_listened_witness :
  reachable Demo.top_page Scenario.busy /\
  onPortalAdded (Demo.verbose false) = Some "onAdded" /\
  In (window_origin Demo.top_page) (getOrigins Scenario.busy) /\
  ~ In (window_origin Demo.top_page) (getOrigins Demo.with_portal_a).
Proof.
  split; [exact busy_reachable|]. split; [reflexivity|].
  pose proof (own_origin_listed_only_when_listened (Message:=string)
                (Handler:=string) Demo.top_page (Demo.verbose false)
                Scenario.busy) as H.
  cbv zeta in H. destruct H as (_ & _ & H).
  destruct (H busy_reachable) as (_ & Hiff).
  split; [apply Hiff; reflexivity|].
  assert (Hreach : reachable Demo.top_page Demo.with_portal_a).
  { exists (Demo.verbose false).
    exists [AppCall (AddPortal "https://a.example/portal.html" None)].
    reflexivity. }
  pose proof (own_origin_listed_only_when_listened (Message:=string)
                (Handler:=string) Demo.top_page (Demo.verbose false)
                Demo.with_portal_a) as H'.
  cbv zeta in H'. destruct H' as (_ & _ & H').
  destruct (H' Hreach) as (_ & Hiff').
  intros Hin. apply Hiff' in Hin. discriminate Hin.
Defined.

Lemma non_portal_ignores_window_messages_witness :
  isPortal (Demo.verbose false) = false /\
  search_parent Demo.portal_page = Some Demo.a_example /\
  let s : Demo.St :=
    run Demo.portal_page
        [AppCall (ListenToOrigin Demo.a_example "onMessage" None)]
        (new_Symbiosome Demo.portal_page (Demo.verbose false)) in
  react Demo.portal_page (WindowMessage (mkPortalEvent Demo.a_example "hi")) s
    = (Returned tt, s).
Proof.
  split; [reflexivity|]. split; [reflexivity|].
  pose proof (non_portal_ignores_window_messages (Message:=string)
                (Handler:=string) Demo.portal_page (Demo.verbose false)
                [AppCall (ListenToOrigin Demo.a_example "onMessage" None)]
                (mkPortalEvent Demo.a_example "hi") eq_refl) as H.
  cbv zeta in *. destruct H as (_ & _ & H & _). exact H.
Defined.

Lemma parent_origin_fixed_at_construction_witness :
  isPortal (Demo.verbose true) = true /\
  search_parent Demo.portal_page = Some Demo.a_example /\
  Demo.a_example <> "" /\
  Demo.a_example <> window_origin Demo.portal_page /\
  parentOrigin Demo.listening_portal = Some Demo.a_example.
Proof.
  assert (H1 : Demo.a_example <> "") by discriminate.
  assert (H2 : Demo.a_example <> window_origin Demo.portal_page)
    by (cbn; discriminate).
  split; [reflexivity|]. split; [reflexivity|]. split; [exact H1|].
  split; [exact H2|].
  apply (proj2 (parent_origin_fixed_at_construction (Message:=string)
                  (Handler:=string) Demo.portal_page (Demo.verbose true)
                  [AppCall (ListenToOrigin Demo.a_example "onMessage" None)]
                  Demo.a_example)).
  auto.
Defined.

Lemma posts_stay_within_registries_witness :
  reachable Demo.top_page Scenario.busy /\
  In (ChannelPost "symbiosome__https://b.example" Demo.b_example "note")
     (trace (react Demo.top_page
                   (AppCall (PushToOrigin Demo.b_example "note" None)))
            Scenario.busy) /\
  "symbiosome__https://b.example"
    = "symbiosome__" ++ window_origin Demo.top_page.
Proof.
  split; [exact busy_reachable|].
  assert (Hin : In (ChannelPost "symbiosome__https://b.example"
                                Demo.b_example "note")
                   (trace (react Demo.top_page
                             (AppCall (PushToOrigin Demo.b_example "note"
                                                    None)))
                          Scenario.busy))
    by (left; reflexivity).
  split; [exact Hin|].
  exact (proj1 (posts_stay_within_registries Demo.top_page Scenario.busy
                  (AppCall (PushToOrigin Demo.b_example "note" None))
                  busy_reachable) _ _ _ Hin).
Defined.

Lemma handlers_called_for_their_origin_only_witness :
  In (HandlerCall "onMessage" Demo.a_example "hi")
     (trace (react Demo.portal_page
                   (WindowMessage (mkPortalEvent Demo.a_example "hi")))
            Demo.listening_portal) /\
  JsObject.get (listeners Demo.listening_portal) Demo.a_example
    = Some "onMessage" /\
  parentOrigin Demo.listening_portal = Some Demo.a_example.
Proof.
  assert (Hin : In (HandlerCall "onMessage" Demo.a_example "hi")
                   (trace (react Demo.portal_page
                             (WindowMessage
                                (mkPortalEvent Demo.a_example "hi")))
                          Demo.listening_portal))
    by (right; right; left; reflexivity).
  split; [exact Hin|].
  destruct (handlers_called_for_their_origin_only Demo.portal_page
              Demo.listening_portal
              (WindowMessage (mkPortalEvent Demo.a_example "hi"))
              "onMessage" Demo.a_example "hi" Hin) as (Hget & Hev).
  split; [exact Hget|].
  exact (proj1 (Hev _ eq_refl)).
Defined.

Lemma removePortal_removes_one_iframe_witness :
  reachable Demo.top_page Scenario.busy /\
  Demo.a_example <> window_origin Demo.top_page /\
  JsObject.get (portals Scenario.busy) Demo.a_example
    = Some (mkPortal 0 (FrameWindow 0)) /\
  let s1 := snd (removePortal Demo.top_page Demo.a_example None
                              Scenario.busy) in
  length (body Scenario.busy) = S (length (body s1)) /\
  JsObject.get (portals s1) Demo.c_example
    = JsObject.get (portals Scenario.busy) Demo.c_example.
Proof.
  assert (Hne : Demo.a_example <> window_origin Demo.top_page)
    by (cbn; discriminate).
  split; [exact busy_reachable|]. split; [exact Hne|].
  split; [reflexivity|].
  pose proof (removePortal_removes_one_iframe Demo.top_page Scenario.busy
                Demo.a_example None (mkPortal 0 (FrameWindow 0))
                busy_reachable Hne eq_refl) as H.
  cbv zeta in *. destruct H as (_ & _ & Hother & _ & Hlen & _).
  split; [exact Hlen|]. apply Hother. discriminate.
Defined.

Lemma addPortal_appends_one_iframe_witness :
  reachable Demo.top_page Scenario.busy /\
  fst (addPortal Demo.top_page "https://d.example/in" None Scenario.busy)
    = Returned tt /\
  exists o f,
    body (snd (addPortal Demo.top_page "https://d.example/in" None
                         Scenario.busy))
      = (body Scenario.busy ++ [f])%list /\
    frame_name f = o.
Proof.
  split; [exact busy_reachable|]. split; [reflexivity|].
  destruct (addPortal_appends_one_iframe Demo.top_page Scenario.busy
              "https://d.example/in" None busy_reachable eq_refl)
    as (o & f & w & _ & _ & _ & Hb & (Hn & _) & _).
  exists o, f. split; [exact Hb | exact Hn].
Defined.

Lemma registrations_last_until_removed_witness :
  JsObject.get (listeners Scenario.busy) Demo.c_example = Some "onC" /\
  JsObject.get
    (listeners (snd (react Demo.top_page
                           (AppCall (ListenToOrigin
                                       "https://c.example/again" "other"
                                       None))
                           Scenario.busy)))
    Demo.c_example = Some "onC".
Proof.
  split; [reflexivity|].
  pose proof (registrations_last_until_removed Demo.top_page Scenario.busy
                (AppCall (ListenToOrigin "https://c.example/again" "other"
                                         None))
                Demo.c_example) as H.
  cbv zeta in H. destruct H as (H & _).
  destruct (H "onC" eq_refl) as [Hkept|(cb & Habs)];
    [exact Hkept | discriminate Habs].
Defined.

Lemma parent_reachable :
  reachable Scenario.parent_page Scenario.parent_with_portal.
Proof.
  exists (Demo.verbose false).
  exists [AppCall (AddPortal "https://b.example/portal.html" None)].
  reflexivity.
Defined.

Lemma tab_reachable : reachable Demo.top_page Scenario.tab_listening_a.
Proof.
  exists (Demo.verbose false).
  exists [AppCall (ListenToOrigin "https://a.example/app" "onMessage" None)].
  reflexivity.
Defined.

Lemma message_relay_from_parent_to_listener_witness :
  window_origin Demo.top_page = window_origin Demo.portal_page /\
  window_origin Scenario.parent_page <> window_origin Demo.portal_page /\
  window_origin Scenario.parent_page <> "" /\
  reachable Scenario.parent_page Scenario.parent_with_portal /\
  JsObject.get (portals Scenario.parent_with_portal) Demo.b_example
    = Some (mkPortal 0 (FrameWindow 0)) /\
  isPortal (Demo.verbose true) = true /\
  search_parent Demo.portal_page = Some (window_origin Scenario.parent_page) /\
  reachable Demo.top_page Scenario.tab_listening_a /\
  JsObject.get (listeners Scenario.tab_listening_a) Demo.a_example
    = Some "onMessage" /\
  effects (react Demo.portal_page
                 (WindowMessage (mkPortalEvent Demo.a_example "hi")))
          (new_Symbiosome Demo.portal_page (Demo.verbose true) : Demo.St)
    = [ChannelPost "symbiosome__https://b.example" Demo.a_example "hi"] /\
  effects (react Demo.top_page
                 (ChannelMessage (mkBroadcastEvent Demo.a_example "hi")))
          Scenario.tab_listening_a
    = [HandlerCall "onMessage" Demo.a_example "hi"].
Proof.
  assert (H1 : window_origin Scenario.parent_page
               <> window_origin Demo.portal_page) by (cbn; discriminate).
  assert (H2 : window_origin Scenario.parent_page <> "")
    by (cbn; discriminate).
  split; [reflexivity|]. split; [exact H1|]. split; [exact H2|].
  split; [exact parent_reachable|]. split; [reflexivity|].
  split; [reflexivity|]. split; [reflexivity|].
  split; [exact tab_reachable|]. split; [reflexivity|].
  pose proof (message_relay_from_parent_to_listener
                Scenario.parent_page Demo.portal_page Demo.top_page
                Scenario.parent_with_portal Scenario.tab_listening_a
                (Demo.verbose true) [] (mkPortal 0 (FrameWindow 0))
                "onMessage" "hi" None
                eq_refl H1 H2 parent_reachable eq_refl eq_refl eq_refl
                tab_reachable eq_refl) as H.
  cbv zeta in H. destruct H as (_ & Hportal & _ & Htab).
  split; [exact Hportal | exact Htab].
Defined.

Lemma listener_keyed_by_origin_not_url_witness :
  fst (listenToOrigin Demo.top_page "https://a.example/app" "onMessage"
                      None Demo.fresh) = Returned tt /\
  URL_origin Demo.top_page "https://a.example/app" = Some Demo.a_example /\
  "https://a.example/app" <> Demo.a_example /\
  JsObject.has (listeners Demo.fresh) "https://a.example/app" = false /\
  listenToOrigin Demo.top_page "https://a.example/elsewhere" "other" None
                 Scenario.tab_listening_a
    = (Thrown (DuplicateOrigin Listeners Demo.a_example),
       Scenario.tab_listening_a) /\
  removeListener "https://a.example/app" None Scenario.tab_listening_a
    = (Thrown (NotFound Listeners "https://a.example/app"),
       Scenario.tab_listening_a).
Proof.
  assert (Hne : "https://a.example/app" <> Demo.a_example) by discriminate.
  split; [reflexivity|]. split; [reflexivity|]. split; [exact Hne|].
  split; [reflexivity|].
  pose proof (listener_keyed_by_origin_not_url Demo.top_page Demo.fresh
                "https://a.example/app" Demo.a_example "onMessage" None
                eq_refl eq_refl) as H.
  cbv zeta in H. destruct H as (Hdup & _ & Hurl).
  split.
  - exact (Hdup "https://a.example/elsewhere" "other" None eq_refl).
  - exact (proj1 (Hurl Hne eq_refl) None).
Defined.

(** * The demonstration page *)

Module BasicExampleFacts.
Import BasicExample.

Lemma entry_ids_app (l l' : list Element) :
  entry_ids (l ++ l') = (entry_ids l ++ entry_ids l')%list.
Proof. unfold entry_ids. apply flat_map_app. Qed.

Lemma choice_values_app (l l' : list Element) :
  choice_values (l ++ l') = (choice_values l ++ choice_values l')%list.
Proof. unfold choice_values. apply flat_map_app. Qed.

Lemma filter_absent (o : string) (l : list string) :
  ~ In o l -> filter (fun k => negb (String.eqb k o)) l = l.
Proof.
  induction l as [|k l IH]; simpl; auto.
  intros Hnot. destruct (String.eqb_spec k o) as [->|_]; [tauto|].
  cbn [negb]. now rewrite IH by tauto.
Qed.

Lemma entry_ids_remove_first (o : string) (l : list Element) :
  NoDup (entry_ids l) ->
  entry_ids (remove_first (entry_of o) l)
    = filter (fun k => negb (String.eqb k o)) (entry_ids l).
Proof.
  induction l as [|e l IH]; [reflexivity|].
  intros Hnd. destruct e as [t ti id c|t|v t|]; cbn [remove_first entry_of].
  - change (entry_ids (Entry t ti id c :: l)) with (id :: entry_ids l) in *.
    inversion Hnd as [|? ? Hnotin Hrest]; subst. cbn [filter].
    destruct (String.eqb_spec id o) as [->|Hne]; cbn [negb].
    + now rewrite filter_absent.
    + change (entry_ids (Entry t ti id c :: remove_first (entry_of o) l))
        with (id :: entry_ids (remove_first (entry_of o) l)).
      now rewrite IH.
  - exact (IH Hnd).
  - exact (IH Hnd).
  - exact (IH Hnd).
Qed.

Lemma choice_values_remove_first (o : string) (l : list Element) :
  NoDup (choice_values l) ->
  choice_values (remove_first (choice_of o) l)
    = filter (fun k => negb (String.eqb k o)) (choice_values l).
Proof.
  induction l as [|e l IH]; [reflexivity|].
  intros Hnd. destruct e as [t ti id c|t|v t|]; cbn [remove_first choice_of].
  - exact (IH Hnd).
  - exact (IH Hnd).
  - change (choice_values (Choice v t :: l)) with (v :: choice_values l) in *.
    inversion Hnd as [|? ? Hnotin Hrest]; subst. cbn [filter].
    destruct (String.eqb_spec v o) as [->|Hne]; cbn [negb].
    + now rewrite filter_absent.
    + change (choice_values (Choice v t :: remove_first (choice_of o) l))
        with (v :: choice_values (remove_first (choice_of o) l)).
      now rewrite IH.
  - exact (IH Hnd).
Qed.

Lemma In_remove_first (sel : Element -> bool) (l : list Element) e :
  In e (remove_first sel l) -> In e l.
Proof.
  induction l as [|a l IH]; simpl; auto.
  destruct (sel a); simpl; tauto.
Qed.

Lemma keys_delete {V} (obj : JsObject.t V) (o : string) :
  JsObject.keys (JsObject.delete obj o)
    = filter (fun k => negb (String.eqb k o)) (JsObject.keys obj).
Proof.
  unfold JsObject.keys. induction obj as [|[k v] rest IH]; simpl; auto.
  destruct (String.eqb k o); simpl; now rewrite IH.
Qed.

Section Facts.
Variable host : Host.
Variable toUTCString : nat -> string.

(** The calls that write lines leave the three lists alone. *)
Lemma calls_message_only (events : list Event) (p : Page) :
  forallb message_only events = true ->
  origin_select (el (calls toUTCString events p)) = origin_select (el p) /\
  el_listeners (el (calls toUTCString events p)) = el_listeners (el p) /\
  el_portals (el (calls toUTCString events p)) = el_portals (el p).
Proof.
  revert p. induction events as [|e events IH]; intros p; simpl; auto.
  intros H. apply andb_true_iff in H. destruct H as [He Hrest].
  destruct (IH (call toUTCString e p) Hrest) as (H1 & H2 & H3).
  unfold BasicExample.calls in *. rewrite H1, H2, H3.
  destruct e as [g msg args|ch o d|h o d|w m t|g o m]; simpl; auto.
  - destruct h; simpl; auto.
    unfold onMessage. destruct (writer d); simpl; auto.
  - destruct g; simpl in He; try discriminate. destruct m as [m|]; simpl; auto.
    unfold onPush. destruct (writer m); simpl; auto.
Qed.

Lemma engine_facts (a : Example) :
  engine_of host a ->
  reachable host (sym a) /\
  context (sym a) = as_context /\
  NoDup (JsObject.keys (listeners (sym a))) /\
  NoDup (JsObject.keys (portals (sym a))) /\
  JsObject.has (portals (sym a)) (window_origin host) = false /\
  window_message_bound (sym a) = true.
Proof.
  intros (xs & E).
  assert (Hreach : reachable host (sym a)) by (exists as_context, xs; exact E).
  destruct (reachable_registries_distinct host _ Hreach) as [Hl Hp].
  pose proof (reachable_no_self_portal host _ Hreach) as Hno.
  split; [exact Hreach|]. rewrite E.
  destruct (run_preserves host xs (new_Symbiosome host as_context))
    as (_ & Hc & _).
  destruct (run_keeps_bindings host xs (new_Symbiosome host as_context))
    as (Hb & _).
  destruct (new_Symbiosome_registries (Message:=Payload) (Handler:=Method)
              host as_context) as (_ & _ & Hc0).
  rewrite Hc, Hc0, Hb. rewrite <- E. repeat split; auto.
  unfold new_Symbiosome.
  pose proof (constructor_spec (Message:=Payload) (Handler:=Method)
                host as_context) as E0.
  cbv zeta in E0. now rewrite E0.
Qed.

Lemma in_some {A} (o : option (list A)) (child : A) (l : list A) :
  option_map (fun children => children ++ [child])%list o = Some l ->
  exists l0, o = Some l0 /\ l = (l0 ++ [child])%list.
Proof. destruct o; simpl; [intros [= <-]; eauto | discriminate]. Qed.

Lemma removed_some (sel : Element -> bool) (o : option (list Element))
    (l : list Element) :
  option_map (remove_first sel) o = Some l ->
  exists l0, o = Some l0 /\ l = remove_first sel l0.
Proof. destruct o; simpl; [intros [= <-]; eauto | discriminate]. Qed.

(** One step of the engine that comes from the page keeps the page in
    step with the registries and well made. *)
Lemma step_consistent (x : Stimulus) (a : Example) :
  from_page x ->
  engine_of host a -> in_step host a -> well_made a ->
  engine_of host (step host toUTCString x a) /\
  in_step host (step host toUTCString x a) /\
  well_made (step host toUTCString x a).
Proof.
  intros Hx He Hs Hw.
  destruct (engine_facts a He) as (Hreach & Hctx & Hndl & Hndp & Hno & Hb).
  split.
  { destruct He as (xs & E). exists (xs ++ [x])%list.
    unfold step, run. cbn [sym]. rewrite fold_left_app. cbn [fold_left].
    now rewrite E. }
  destruct Hs as (Hsp & Hss & Hsl). destruct Hw as (Hwl & Hwp & Hwh).
  destruct a as [s p]. cbn [sym page] in *.
  unfold step. cbn [sym page].
  (* the cases in which nothing is registered or removed *)
  assert (Hquiet : forall s1 events,
            listeners s1 = listeners s -> portals s1 = portals s ->
            forallb message_only events = true ->
            in_step host (mkExample s1 (calls toUTCString events p)) /\
            well_made (mkExample s1 (calls toUTCString events p))).
  { intros s1 events Hl Hp Hm.
    destruct (calls_message_only events p Hm) as (H1 & H2 & H3).
    unfold in_step, well_made, children. cbn [sym page].
    rewrite H1, H2, H3, Hl, Hp. repeat split; auto. }
  destruct x as [[u h cb|u cb|o m cb|o cb|o cb]|event|event];
    cbn [from_page] in Hx;
    try change (react host (AppCall ?c)) with (invoke host c);
    cbn [invoke].
  - (* listenToOrigin *)
    destruct Hx as [-> ->].
    pose proof (listenToOrigin_spec host s u OnMessage None) as E.
    destruct (URL_origin host u) as [o|].
    2: { rewrite (trace_unchanged _ _ _ E), E. now apply Hquiet. }
    destruct (JsObject.has (listeners s) o) eqn:Hhas.
    { rewrite (trace_unchanged _ _ _ E), E. now apply Hquiet. }
    rewrite (trace_with_log _ _ _ _ _ E), E. rewrite Hctx.
    cbn [snd callback nullish onListenToOrigin as_context calls fold_left
         call onListen el page sym listeners portals with_log
         with_listeners].
    unfold in_step, well_made, children.
    cbn [sym page el el_listeners el_portals origin_select listeners portals
         with_log with_listeners with_portals with_body with_next_frame
         framed onListen onAdded onRemovedListener onRemovedPortal].
    split; [split; [exact Hsp|split; [exact Hss|]]|split; [|split]].
    + intros l Hl. apply in_some in Hl. destruct Hl as (l0 & Hl0 & ->).
      rewrite entry_ids_app, (Hsl _ Hl0), JsObjectFacts.keys_set, Hhas.
      reflexivity.
    + intros e Hin. destruct (el_listeners (el p)) as [l0|] eqn:Hl0;
        cbn [appendChild option_map] in Hin; [|destruct Hin].
      apply in_app_or in Hin. destruct Hin as [Hin|[<-|[]]].
      * apply Hwl. unfold children. now rewrite Hl0.
      * cbn. auto.
    + exact Hwp.
    + intros o' h' Hget. destruct (String.eqb_spec o o') as [<-|Hne].
      * rewrite JsObjectFacts.get_set_same in Hget. congruence.
      * rewrite JsObjectFacts.get_set_other in Hget by assumption. eauto.
  - (* addPortal *)
    subst cb. pose proof (addPortal_spec host s u None) as E.
    destruct (URL_origin host u) as [o|].
    2: { rewrite (trace_unchanged _ _ _ E), E. now apply Hquiet. }
    destruct (String.eqb o (window_origin host)).
    { rewrite (trace_unchanged _ _ _ E), E. now apply Hquiet. }
    destruct (JsObject.has (portals s) o) eqn:Hhas.
    { rewrite (trace_unchanged _ _ _ E), E. now apply Hquiet. }
    cbv zeta in E. destruct (contentWindow host _) as [w|].
    2: { rewrite (trace_same_log _ s) by (now rewrite E). rewrite E.
         now apply Hquiet. }
    rewrite (trace_with_log _ _ _ _ _ E), E. rewrite Hctx.
    cbn [snd callback nullish onPortalAdded as_context calls fold_left
         call onAdded el page sym listeners portals with_log with_portals
         framed with_body with_next_frame].
    unfold in_step, well_made, children.
    cbn [sym page el el_listeners el_portals origin_select listeners portals
         with_log with_listeners with_portals with_body with_next_frame
         framed onListen onAdded onRemovedListener onRemovedPortal].
    split; [split; [|split; [|exact Hsl]]|split; [exact Hwl|split]].
    + intros l Hl. apply in_some in Hl. destruct Hl as (l0 & Hl0 & ->).
      rewrite entry_ids_app, (Hsp _ Hl0), JsObjectFacts.keys_set, Hhas.
      reflexivity.
    + intros l Hl. apply in_some in Hl. destruct Hl as (l0 & Hl0 & ->).
      rewrite choice_values_app, (Hss _ Hl0), JsObjectFacts.keys_set, Hhas.
      reflexivity.
    + intros e Hin. destruct (el_portals (el p)) as [l0|] eqn:Hl0;
        cbn [appendChild option_map] in Hin; [|destruct Hin].
      apply in_app_or in Hin. destruct Hin as [Hin|[<-|[]]].
      * apply Hwp. unfold children. now rewrite Hl0.
      * cbn. auto.
    + exact Hwh.
  - (* pushToOrigin *)
    subst cb.
    destruct (String.eqb_spec o (window_origin host)) as [->|Hne].
    + pose proof (pushToOrigin_own_spec host s m None) as E.
      rewrite (trace_with_log _ _ _ _ _ E), E. apply Hquiet; auto.
      cbn [forallb message_only andb]. rewrite forallb_app.
      apply andb_true_iff. split.
      * unfold delivery.
        destruct (JsObject.get (listeners s) (window_origin host));
          reflexivity.
      * rewrite Hctx. reflexivity.
    + pose proof (pushToOrigin_remote_spec host s o m None Hne) as E.
      destruct (JsObject.get (portals s) o).
      * rewrite (trace_with_log _ _ _ _ _ E), E. apply Hquiet; auto.
        rewrite Hctx. reflexivity.
      * rewrite (trace_unchanged _ _ _ E), E. now apply Hquiet.
  - (* removePortal *)
    subst cb. pose proof (removePortal_spec host s o None) as E.
    destruct (String.eqb_spec o (window_origin host)) as [|Hne].
    { rewrite (trace_unchanged _ _ _ E), E. now apply Hquiet. }
    destruct (JsObject.get (portals s) o) as [pt|].
    2: { rewrite (trace_unchanged _ _ _ E), E. now apply Hquiet. }
    rewrite (trace_with_log _ _ _ _ _ E), E. rewrite Hctx.
    cbn [snd callback nullish onPortalRemoved as_context calls fold_left
         call onRemovedPortal el page sym listeners portals with_log
         with_portals with_body].
    unfold in_step, well_made, children.
    cbn [sym page el el_listeners el_portals origin_select listeners portals
         with_log with_listeners with_portals with_body with_next_frame
         framed onListen onAdded onRemovedListener onRemovedPortal].
    assert (Hkeys : filter (fun k => negb (String.eqb k o))
                           (window_origin host :: JsObject.keys (portals s))
                    = window_origin host
                        :: JsObject.keys (JsObject.delete (portals s) o)).
    { cbn [filter]. destruct (String.eqb_spec (window_origin host) o);
        [congruence|]. cbn [negb]. now rewrite keys_delete. }
    assert (Hnd : NoDup (window_origin host :: JsObject.keys (portals s))).
    { constructor; [|exact Hndp].
      now apply JsObjectFacts.has_false_iff. }
    split; [split; [|split; [|exact Hsl]]|split; [exact Hwl|split]].
    + intros l Hl. apply removed_some in Hl. destruct Hl as (l0 & Hl0 & ->).
      rewrite entry_ids_remove_first; rewrite (Hsp _ Hl0); auto.
    + intros l Hl. apply removed_some in Hl. destruct Hl as (l0 & Hl0 & ->).
      rewrite choice_values_remove_first; rewrite (Hss _ Hl0); auto.
    + intros e Hin. destruct (el_portals (el p)) as [l0|] eqn:Hl0;
        cbn [option_map] in Hin; [|destruct Hin].
      apply In_remove_first in Hin. apply Hwp. unfold children.
      now rewrite Hl0.
    + exact Hwh.
  - (* removeListener *)
    subst cb. pose proof (removeListener_spec s o None) as E.
    destruct (JsObject.has (listeners s) o).
    2: { rewrite (trace_unchanged _ _ _ E), E. now apply Hquiet. }
    rewrite (trace_with_log _ _ _ _ _ E), E. rewrite Hctx.
    cbn [snd callback nullish onListenerRemoved as_context calls fold_left
         call onRemovedListener el page sym listeners portals with_log
         with_listeners].
    unfold in_step, well_made, children.
    cbn [sym page el el_listeners el_portals origin_select listeners portals
         with_log with_listeners with_portals with_body with_next_frame
         framed onListen onAdded onRemovedListener onRemovedPortal].
    split; [split; [exact Hsp|split; [exact Hss|]]|split; [|split]].
    + intros l Hl. apply removed_some in Hl. destruct Hl as (l0 & Hl0 & ->).
      rewrite entry_ids_remove_first; rewrite (Hsl _ Hl0); auto.
      now rewrite keys_delete.
    + intros e Hin. destruct (el_listeners (el p)) as [l0|] eqn:Hl0;
        cbn [option_map] in Hin; [|destruct Hin].
      apply In_remove_first in Hin. apply Hwl. unfold children.
      now rewrite Hl0.
    + exact Hwp.
    + intros o' h' Hget. destruct (String.eqb_spec o o') as [<-|Hne].
      * now rewrite JsObjectFacts.get_delete_same in Hget.
      * rewrite JsObjectFacts.get_delete_other in Hget by assumption. eauto.
  - (* a message event of the window *)
    pose proof (react_window_message_spec host s event) as E.
    rewrite Hb, handlePortalMessage_spec in E.
    rewrite (trace_with_log _ _ _ _ _ E), E. apply Hquiet; auto.
    unfold diagnostic, delivery. rewrite Hctx. cbn [debug as_context app].
    destruct (strict_eq (event_origin event) (parentOrigin s));
      [|reflexivity].
    destruct (JsObject.get (listeners s) (event_origin event)); reflexivity.
  - (* a message event of the channel *)
    pose proof (handleBroadcast_spec s event) as E.
    cbn [react]. rewrite (trace_with_log _ _ _ _ _ E), E.
    apply Hquiet; auto.
    unfold diagnostic. rewrite Hctx. cbn [debug as_context app].
    destruct (JsObject.get (listeners s) (data_origin event)); reflexivity.
Qed.

Lemma on_event_consistent (u : PageEvent) (a : Example) :
  engine_of host a -> in_step host a -> well_made a ->
  engine_of host (on_event host toUTCString u a) /\
  in_step host (on_event host toUTCString u a) /\
  well_made (on_event host toUTCString u a).
Proof.
  intros He Hs Hw.
  destruct u as [v|v|v sel|sel r|c n|event|event]; cbn [on_event].
  - destruct v as [url|]; [|auto]. destruct (truthy (Some url)); [|auto].
    now apply step_consistent.
  - destruct v as [url|]; [|auto]. destruct (truthy (Some url)); [|auto].
    apply step_consistent; cbn; auto.
  - destruct v as [text|]; [|auto]. destruct sel as [o|]; [|auto].
    destruct (truthy (Some text) && truthy (Some o))%bool; [|auto].
    now apply step_consistent.
  - destruct sel as [o|]; [|auto]. destruct (truthy (Some o)); [|auto].
    now apply step_consistent.
  - destruct (nth_error (children c (page a)) n) as [[t ti id [o|o]|t|v t|]|];
      auto; now apply step_consistent.
  - now apply step_consistent.
  - now apply step_consistent.
Qed.

Lemma after_consistent (us : list PageEvent) (a : Example) :
  engine_of host a -> in_step host a -> well_made a ->
  engine_of host (after host toUTCString us a) /\
  in_step host (after host toUTCString us a) /\
  well_made (after host toUTCString us a).
Proof.
  revert a. induction us as [|u us IH]; intros a He Hs Hw;
    cbn [after fold_left]; [auto|].
  destruct (on_event_consistent u a He Hs Hw) as (He' & Hs' & Hw').
  now apply IH.
Qed.

Lemma no_entries (l : list Element) e :
  entry_ids l = [] -> In e l -> forall click, made_for click e.
Proof.
  induction l as [|a l IH]; simpl; [tauto|].
  destruct a as [t ti id c|t|v t|]; simpl; try discriminate;
    intros Hids [<-|Hin] click; cbn; auto.
Qed.

Lemma new_BasicExample_page (initial : EL) :
  new_BasicExample host toUTCString initial
    = mkExample (new_Symbiosome host as_context)
                (onAdded (window_origin host) (mkPage initial 0)) /\
  listeners (new_Symbiosome (Message:=Payload) (Handler:=Method)
               host as_context) = JsObject.empty /\
  portals (new_Symbiosome (Message:=Payload) (Handler:=Method)
             host as_context) = JsObject.empty.
Proof.
  destruct (new_Symbiosome_registries (Message:=Payload) (Handler:=Method)
              host as_context) as (Hl & Hp & _).
  split; [|auto]. unfold new_BasicExample, new_Symbiosome.
  pose proof (constructor_spec (Message:=Payload) (Handler:=Method)
                host as_context) as E.
  cbv zeta in E. rewrite E. cbn [snd log as_context isPortal andb debug
    onPortalAdded diagnostic app].
  destruct (if (truthy (search_parent host)
                && negb (strict_eq (window_origin host)
                                   (search_parent host)))%bool
            then search_parent host else None); reflexivity.
Qed.

Lemma new_BasicExample_consistent (initial : EL) :
  untouched initial ->
  engine_of host (new_BasicExample host toUTCString initial) /\
  in_step host (new_BasicExample host toUTCString initial) /\
  well_made (new_BasicExample host toUTCString initial).
Proof.
  intros Hun. destruct (new_BasicExample_page initial) as (E & Hl & Hp).
  rewrite E. split; [exists []; reflexivity|].
  unfold in_step, well_made, children.
  cbn [sym page el onAdded origin_select el_listeners el_portals].
  rewrite Hl, Hp. cbn [JsObject.keys JsObject.empty map JsObject.get].
  split; [split; [|split]|split; [|split]].
  - intros l H. apply in_some in H. destruct H as (l0 & Hl0 & ->).
    rewrite entry_ids_app.
    now rewrite (proj1 (Hun l0 (or_intror (or_intror Hl0)))).
  - intros l H. apply in_some in H. destruct H as (l0 & Hl0 & ->).
    rewrite choice_values_app. now rewrite (proj2 (Hun l0 (or_introl Hl0))).
  - intros l H. exact (proj1 (Hun l (or_intror (or_introl H)))).
  - intros e Hin. destruct (el_listeners initial) as [l0|] eqn:Hl0;
      [|destruct Hin].
    apply (no_entries l0); auto.
    exact (proj1 (Hun l0 (or_intror (or_introl Hl0)))).
  - intros e Hin. destruct (el_portals initial) as [l0|] eqn:Hl0;
      cbn [appendChild option_map] in Hin; [|destruct Hin].
    apply in_app_or in Hin. destruct Hin as [Hin|[<-|[]]].
    + apply (no_entries l0); auto.
      exact (proj1 (Hun l0 (or_intror (or_intror Hl0)))).
    + cbn. auto.
  - discriminate.
Qed.

Lemma page_consistent (initial : EL) (us : list PageEvent) :
  untouched initial ->
  let a := after host toUTCString us
                 (new_BasicExample host toUTCString initial) in
  engine_of host a /\ in_step host a /\ well_made a.
Proof.
  intros Hun a.
  destruct (new_BasicExample_consistent initial Hun) as (He & Hs & Hw).
  now apply after_consistent.
Qed.

(** X20: the page shows the registries.  On a page that held no entry and
    no option before the class was made, after any clicks and incoming
    messages, the list of portals and the select show the own origin
    followed by the origins of the portal registry, in its order, and the
    list of listeners shows the origins of the listener registry, in its
    order. *)
Theorem page_shows_the_registries (initial : EL) (us : list PageEvent) :
  untouched initial ->
  let a := after host toUTCString us
                 (new_BasicExample host toUTCString initial) in
  (forall l,
     el_portals (el (page a)) = Some l ->
     entry_ids l = window_origin host :: JsObject.keys (portals (sym a))) /\
  (forall l,
     origin_select (el (page a)) = Some l ->
     choice_values l
       = window_origin host :: JsObject.keys (portals (sym a))) /\
  (forall l,
     el_listeners (el (page a)) = Some l ->
     entry_ids l = JsObject.keys (listeners (sym a))).
Proof.
  intros Hun a. destruct (page_consistent initial us Hun) as (_ & Hs & _).
  exact Hs.
Qed.

Lemma In_entry_ids (o : string) (l : list Element) :
  In o (entry_ids l) <-> exists t ti c, In (Entry t ti o c) l.
Proof.
  unfold entry_ids. rewrite in_flat_map. split.
  - intros (e & Hin & Ho). destruct e as [t ti id c|t|v t|]; simpl in Ho;
      try tauto.
    destruct Ho as [<-|[]]. eauto.
  - intros (t & ti & c & Hin). exists (Entry t ti o c). simpl. auto.
Qed.

Lemma step_thrown_unchanged (x : Stimulus) (a : Example) (e : Error) :
  react host x (sym a) = (Thrown e, sym a) ->
  step host toUTCString x a = a.
Proof.
  intros E. unfold step. rewrite (trace_unchanged _ _ _ E), E.
  now destruct a.
Qed.

(** X21: the entry of the own origin cannot be removed.  The constructor
    of the engine announces the own origin as a portal, so the list of
    portals always holds an entry for it, titled [Click to remove]; a
    click on that entry calls [removePortal] of the own origin, which
    throws, and leaves the instance and the page exactly as they were. *)
Theorem own_entry_cannot_be_removed (initial : EL) (us : list PageEvent) :
  untouched initial ->
  let a := after host toUTCString us
                 (new_BasicExample host toUTCString initial) in
  let own_entry :=
    Entry (window_origin host) "Click to remove" (window_origin host)
          (ClickRemovesPortal (window_origin host)) in
  forall l,
    el_portals (el (page a)) = Some l ->
    (exists n, nth_error l n = Some own_entry) /\
    (forall n,
       nth_error l n = Some own_entry ->
       on_event host toUTCString (ClickChild PortalsList n) a = a).
Proof.
  intros Hun a own_entry l Hl.
  destruct (page_consistent initial us Hun) as (_ & (Hsp & _) & (_ & Hwp & _)).
  fold a in Hsp, Hwp. split.
  - assert (Hin : In (window_origin host) (entry_ids l))
      by (rewrite (Hsp l Hl); now left).
    apply In_entry_ids in Hin. destruct Hin as (t & ti & c & Hin).
    assert (Hm : made_for ClickRemovesPortal
                          (Entry t ti (window_origin host) c)).
    { apply Hwp. unfold children. now rewrite Hl. }
    destruct Hm as (-> & -> & ->). now apply In_nth_error.
  - intros n Hn. cbn [on_event]. unfold children. rewrite Hl, Hn.
    apply (step_thrown_unchanged _ _
             (SelfOrigin AtRemovePortal (window_origin host))).
    cbn [react invoke]. rewrite removePortal_spec.
    now rewrite String.eqb_refl.
Qed.

(** X22: a click on an entry removes what the entry shows.  A click on an
    entry of the list of listeners removes the listener of the origin it
    shows: that origin was listened to, afterwards it is not, and the
    list no longer shows it.  A click on an entry of the list of portals
    that shows another origin than the own one removes that portal from
    the registry, from the list and from the select. *)
Theorem click_on_entry_removes_it (initial : EL) (us : list PageEvent)
    (n : nat) (t ti o : string) (c : Click) :
  untouched initial ->
  let a := after host toUTCString us
                 (new_BasicExample host toUTCString initial) in
  (nth_error (children ListenersList (page a)) n = Some (Entry t ti o c) ->
   let a1 := on_event host toUTCString (ClickChild ListenersList n) a in
   JsObject.has (listeners (sym a)) o = true /\
   JsObject.has (listeners (sym a1)) o = false /\
   ~ In o (entry_ids (children ListenersList (page a1))) /\
   portals (sym a1) = portals (sym a)) /\
  (nth_error (children PortalsList (page a)) n = Some (Entry t ti o c) ->
   o <> window_origin host ->
   let a1 := on_event host toUTCString (ClickChild PortalsList n) a in
   JsObject.has (portals (sym a)) o = true /\
   JsObject.has (portals (sym a1)) o = false /\
   ~ In o (entry_ids (children PortalsList (page a1))) /\
   (forall l, origin_select (el (page a1)) = Some l ->
              ~ In o (choice_values l)) /\
   listeners (sym a1) = listeners (sym a)).
Proof.
  intros Hun a.
  destruct (page_consistent initial us Hun) as (He & Hs & Hw).
  fold a in He, Hs, Hw.
  split.
  - intros Hn a1.
    destruct (on_event_consistent (ClickChild ListenersList n) a He Hs Hw)
      as (_ & (_ & _ & Hsl1) & _).
    fold a1 in Hsl1. destruct Hs as (_ & _ & Hsl). destruct Hw as (Hwl & _).
    pose proof (nth_error_In _ _ Hn) as Hin.
    destruct (Hwl _ Hin) as (-> & -> & ->).
    assert (Hhas : JsObject.has (listeners (sym a)) o = true).
    { apply JsObjectFacts.has_true_iff. unfold children in Hin.
      destruct (el_listeners (el (page a))) as [l|] eqn:Hl; [|destruct Hin].
      rewrite <- (Hsl l eq_refl). apply In_entry_ids. eauto. }
    assert (E : sym a1 = snd (removeListener o None (sym a))).
    { unfold a1. cbn [on_event]. now rewrite Hn. }
    rewrite removeListener_spec, Hhas in E. cbn [snd] in E.
    assert (Hgone : JsObject.has (listeners (sym a1)) o = false)
      by (rewrite E; cbn; apply JsObjectFacts.has_delete_same).
    split; [exact Hhas|]. split; [exact Hgone|].
    split; [|rewrite E; reflexivity].
    unfold children. destruct (el_listeners (el (page a1))) as [l|] eqn:Hl;
      [|tauto].
    rewrite (Hsl1 l eq_refl). now apply JsObjectFacts.has_false_iff.
  - intros Hn Hne a1.
    destruct (on_event_consistent (ClickChild PortalsList n) a He Hs Hw)
      as (_ & (Hsp1 & Hss1 & _) & _).
    fold a1 in Hsp1, Hss1. destruct Hs as (Hsp & _ & _).
    destruct Hw as (_ & Hwp & _).
    pose proof (nth_error_In _ _ Hn) as Hin.
    destruct (Hwp _ Hin) as (-> & -> & ->).
    assert (Hhas : JsObject.has (portals (sym a)) o = true).
    { apply JsObjectFacts.has_true_iff. unfold children in Hin.
      destruct (el_portals (el (page a))) as [l|] eqn:Hl; [|destruct Hin].
      assert (Hio : In o (entry_ids l)) by (apply In_entry_ids; eauto).
      rewrite (Hsp l eq_refl) in Hio. destruct Hio as [Heq|Hio]; [|exact Hio].
      congruence. }
    assert (E : sym a1 = snd (removePortal host o None (sym a))).
    { unfold a1. cbn [on_event]. now rewrite Hn. }
    rewrite removePortal_spec in E.
    apply String.eqb_neq in Hne. rewrite Hne in E.
    pose proof Hhas as Hget. unfold JsObject.has in Hget.
    destruct (JsObject.get (portals (sym a)) o) as [pt|]; [|discriminate].
    cbn [snd] in E.
    assert (Hgone : JsObject.has (portals (sym a1)) o = false)
      by (rewrite E; cbn; apply JsObjectFacts.has_delete_same).
    assert (Hnot : ~ In o (window_origin host
                             :: JsObject.keys (portals (sym a1)))).
    { intros [Heq|Hio].
      - apply String.eqb_neq in Hne. congruence.
      - apply JsObjectFacts.has_true_iff in Hio. congruence. }
    split; [exact Hhas|]. split; [exact Hgone|].
    split; [|split; [|rewrite E; reflexivity]].
    + unfold children. destruct (el_portals (el (page a1))) as [l|] eqn:Hl;
        [|tauto].
      now rewrite (Hsp1 l eq_refl).
    + intros l Hl. now rewrite (Hss1 l Hl).
Qed.

(** X23: what a click on [send] shows.  With a text and a selected origin,
    both not empty: when the selected origin is the own one, the text is
    pushed on the local channel, and the page writes a line of outgoing
    messages, preceded by a line of incoming messages when the page
    listens to its own origin; when it is the origin of a portal, and a
    target that [postMessage] accepts, the page writes a line of outgoing
    messages only; when it is neither, the push throws and the page shows
    nothing.  The registries never change. *)
Theorem send_writes_lines (initial : EL) (us : list PageEvent)
    (text selected : string) :
  untouched initial ->
  text <> "" ->
  selected <> "" ->
  let a := after host toUTCString us
                 (new_BasicExample host toUTCString initial) in
  let a1 :=
    on_event host toUTCString (ClickSend (Some text) (Some selected)) a in
  listeners (sym a1) = listeners (sym a) /\
  portals (sym a1) = portals (sym a) /\
  (selected = window_origin host ->
   page a1 =
     if JsObject.has (listeners (sym a)) selected
     then onPush toUTCString selected (Text text)
            (onMessage toUTCString selected (Text text) (page a))
     else onPush toUTCString selected (Text text) (page a)) /\
  (selected <> window_origin host ->
   In selected (JsObject.keys (portals (sym a))) ->
   accepted_target host selected = true ->
   page a1 = onPush toUTCString selected (Text text) (page a)) /\
  (selected <> window_origin host ->
   ~ In selected (JsObject.keys (portals (sym a))) ->
   a1 = a).
Proof.
  intros Hun Htext Hsel a a1.
  destruct (page_consistent initial us Hun) as (He & _ & (_ & _ & Hwh)).
  fold a in He, Hwh.
  destruct (engine_facts a He) as (_ & Hctx & _).
  assert (E1 : a1 = step host toUTCString
                     (AppCall (PushToOrigin selected (Text text) None)) a).
  { unfold a1. cbn [on_event truthy].
    apply String.eqb_neq in Htext, Hsel. now rewrite Htext, Hsel. }
  rewrite E1. unfold step. cbn [sym page react invoke].
  rewrite <- JsObjectFacts.has_false_iff, <- JsObjectFacts.has_true_iff.
  destruct (String.eqb_spec selected (window_origin host)) as [->|Hne].
  - pose proof (pushToOrigin_own_spec host (sym a) (Text text) None) as E.
    rewrite (trace_with_log _ _ _ _ _ E), E. rewrite Hctx.
    cbn [snd listeners portals with_log callback nullish onPushedMessage
         as_context].
    split; [reflexivity|]. split; [reflexivity|].
    split; [|split; intros Hne; now elim Hne].
    intros _. unfold delivery, JsObject.has.
    destruct (JsObject.get (listeners (sym a)) (window_origin host))
      as [h|] eqn:Hget; [|reflexivity].
    now rewrite (Hwh _ _ Hget).
  - pose proof (pushToOrigin_remote_spec host (sym a) selected (Text text)
                  None Hne) as E.
    unfold JsObject.has.
    destruct (JsObject.get (portals (sym a)) selected) as [pt|].
    + rewrite (trace_with_log _ _ _ _ _ E), E. rewrite Hctx.
      repeat split; try contradiction; try discriminate.
    + rewrite (trace_unchanged _ _ _ E), E.
      repeat split; try contradiction; try discriminate.
      now destruct a.
Qed.

End Facts.
End BasicExampleFacts.

(** ** The demonstration page at work *)

Lemma empty_page_untouched : BasicExample.untouched BasicExample.empty_page.
Proof.
  intros l [H|[H|H]]; injection H as <-; split; reflexivity.
Defined.

Lemma page_shows_the_registries_witness :
  BasicExample.untouched BasicExample.empty_page /\
  BasicExample.el_portals
    (BasicExample.el (BasicExample.page BasicExample.visited))
    = Some [BasicExample.Entry Demo.b_example "Click to remove"
              Demo.b_example
              (BasicExample.ClickRemovesPortal Demo.b_example);
            BasicExample.Entry Demo.a_example "Click to remove"
              Demo.a_example
              (BasicExample.ClickRemovesPortal Demo.a_example)] /\
  [Demo.b_example; Demo.a_example]
    = window_origin Demo.top_page
        :: JsObject.keys (portals (BasicExample.sym BasicExample.visited)).
Proof.
  split; [exact empty_page_untouched|]. split; [reflexivity|].
  pose proof (BasicExampleFacts.page_shows_the_registries Demo.top_page
                BasicExample.clock BasicExample.empty_page
                BasicExample.visit empty_page_untouched) as H.
  cbv zeta in H. destruct H as (H & _).
  exact (H _ eq_refl).
Defined.

Lemma own_entry_cannot_be_removed_witness :
  BasicExample.untouched BasicExample.empty_page /\
  BasicExample.on_event Demo.top_page BasicExample.clock
    (BasicExample.ClickChild BasicExample.PortalsList 0) BasicExample.visited
    = BasicExample.visited.
Proof.
  split; [exact empty_page_untouched|].
  pose proof (BasicExampleFacts.own_entry_cannot_be_removed Demo.top_page
                BasicExample.clock BasicExample.empty_page
                BasicExample.visit empty_page_untouched) as H.
  cbv zeta in H. destruct (H _ eq_refl) as (_ & Hclick).
  exact (Hclick 0 eq_refl).
Defined.

Lemma click_on_entry_removes_it_witness :
  BasicExample.untouched BasicExample.empty_page /\
  nth_error (BasicExample.children BasicExample.PortalsList
               (BasicExample.page BasicExample.visited)) 1
    = Some (BasicExample.Entry Demo.a_example "Click to remove"
              Demo.a_example
              (BasicExample.ClickRemovesPortal Demo.a_example)) /\
  Demo.a_example <> window_origin Demo.top_page /\
  JsObject.has
    (portals
       (BasicExample.sym
          (BasicExample.on_event Demo.top_page BasicExample.clock
             (BasicExample.ClickChild BasicExample.PortalsList 1)
             BasicExample.visited)))
    Demo.a_example = false.
Proof.
  assert (Hne : Demo.a_example <> window_origin Demo.top_page)
    by (cbn; discriminate).
  split; [exact empty_page_untouched|]. split; [reflexivity|].
  split; [exact Hne|].
  pose proof (BasicExampleFacts.click_on_entry_removes_it Demo.top_page
                BasicExample.clock BasicExample.empty_page
                BasicExample.visit 1 Demo.a_example "Click to remove"
                Demo.a_example
                (BasicExample.ClickRemovesPortal Demo.a_example)
                empty_page_untouched) as H.
  cbv zeta in H. destruct H as (_ & H).
  destruct (H eq_refl Hne) as (_ & Hgone & _). exact Hgone.
Defined.

Lemma send_writes_lines_witness :
  BasicExample.untouched BasicExample.empty_page /\
  "Hello, world" <> "" /\
  Demo.b_example <> "" /\
  Demo.a_example <> "" /\
  Demo.c_example <> "" /\
  Demo.a_example <> window_origin Demo.top_page /\
  Demo.c_example <> window_origin Demo.top_page /\
  In Demo.a_example
     (JsObject.keys (portals (BasicExample.sym BasicExample.visited))) /\
  ~ In Demo.c_example
       (JsObject.keys (portals (BasicExample.sym BasicExample.visited))) /\
  accepted_target Demo.top_page Demo.a_example = true /\
  let send selected :=
    BasicExample.on_event Demo.top_page BasicExample.clock
      (BasicExample.ClickSend (Some "Hello, world") (Some selected))
      BasicExample.visited in
  BasicExample.in_message
    (BasicExample.el (BasicExample.page (send Demo.b_example)))
    = Some [BasicExample.Line
              "t0  --  https://b.example --  Hello, world"] /\
  BasicExample.out_message
    (BasicExample.el (BasicExample.page (send Demo.b_example)))
    = Some [BasicExample.Line
              "t1  --  https://b.example --  Hello, world"] /\
  BasicExample.in_message
    (BasicExample.el (BasicExample.page (send Demo.a_example)))
    = Some [] /\
  BasicExample.out_message
    (BasicExample.el (BasicExample.page (send Demo.a_example)))
    = Some [BasicExample.Line
              "t0  --  https://a.example --  Hello, world"] /\
  send Demo.c_example = BasicExample.visited.
Proof.
  assert (H1 : "Hello, world" <> "") by discriminate.
  assert (Hb : Demo.b_example <> "") by discriminate.
  assert (Ha : Demo.a_example <> "") by discriminate.
  assert (Hc : Demo.c_example <> "") by discriminate.
  assert (Hna : Demo.a_example <> window_origin Demo.top_page)
    by (cbn; discriminate).
  assert (Hnc : Demo.c_example <> window_origin Demo.top_page)
    by (cbn; discriminate).
  assert (Hin : In Demo.a_example
                   (JsObject.keys
                      (portals (BasicExample.sym BasicExample.visited))))
    by (left; reflexivity).
  assert (Hout : ~ In Demo.c_example
                      (JsObject.keys
                         (portals (BasicExample.sym BasicExample.visited))))
    by (cbn; intros [H|[]]; discriminate H).
  split; [exact empty_page_untouched|]. split; [exact H1|].
  split; [exact Hb|]. split; [exact Ha|]. split; [exact Hc|].
  split; [exact Hna|]. split; [exact Hnc|]. split; [exact Hin|].
  split; [exact Hout|]. split; [reflexivity|].
  pose proof (BasicExampleFacts.send_writes_lines Demo.top_page
                BasicExample.clock BasicExample.empty_page
                BasicExample.visit "Hello, world" Demo.b_example
                empty_page_untouched H1 Hb) as Hself.
  pose proof (BasicExampleFacts.send_writes_lines Demo.top_page
                BasicExample.clock BasicExample.empty_page
                BasicExample.visit "Hello, world" Demo.a_example
                empty_page_untouched H1 Ha) as Hportal.
  pose proof (BasicExampleFacts.send_writes_lines Demo.top_page
                BasicExample.clock BasicExample.empty_page
                BasicExample.visit "Hello, world" Demo.c_example
                empty_page_untouched H1 Hc) as Hother.
  cbv zeta in *.
  destruct Hself as (_ & _ & Hself & _).
  destruct Hportal as (_ & _ & _ & Hportal & _).
  destruct Hother as (_ & _ & _ & _ & Hother).
  unfold BasicExample.visited in *.
  rewrite (Hself eq_refl), (Hportal Hna Hin eq_refl), (Hother Hnc Hout).
  repeat split; reflexivity.
Defined.

Module BasicExampleInbox.
Import BasicExample.

Section Inbox.
Variable host : Host.
Variable toUTCString : nat -> string.

(** X24: what an incoming message shows.  An envelope from the broadcast
    channel writes one line of incoming messages when the page listens to
    the origin the envelope names and the payload can be printed, and
    nothing otherwise.  A [message] event of the window writes one line of
    incoming messages when its sender is the trusted parent origin, the
    page listens to that origin and the payload can be printed, and
    nothing otherwise.  The line holds the time, the origin and the
    payload as [writer] prints it; for a payload that cannot be printed,
    such as [null], [onMessage] throws before it appends anything.  Neither
    event changes the registries, the lists or the select. *)
Theorem incoming_message_writes_line (initial : EL) (us : list PageEvent)
    (envelope : @BroadcastEvent Payload) (event : @PortalEvent Payload) :
  untouched initial ->
  let a := after host toUTCString us
                 (new_BasicExample host toUTCString initial) in
  let a1 := on_event host toUTCString (ChannelMessageEvent envelope) a in
  let a2 := on_event host toUTCString (WindowMessageEvent event) a in
  let written origin data :=
    match writer data with
    | Some text =>
        mkPage
          (mkEL (origin_select (el (page a)))
                (appendChild (in_message (el (page a)))
                   (Line (toUTCString (readings (page a)) ++ "  --  "
                          ++ origin ++ " --  " ++ text)))
                (out_message (el (page a)))
                (el_listeners (el (page a))) (el_portals (el (page a))))
          (S (readings (page a)))
    | None => page a
    end in
  listeners (sym a1) = listeners (sym a) /\
  portals (sym a1) = portals (sym a) /\
  (In (data_origin envelope) (JsObject.keys (listeners (sym a))) ->
   page a1 = written (data_origin envelope) (data_data envelope)) /\
  (~ In (data_origin envelope) (JsObject.keys (listeners (sym a))) ->
   page a1 = page a) /\
  listeners (sym a2) = listeners (sym a) /\
  portals (sym a2) = portals (sym a) /\
  (parentOrigin (sym a) = Some (event_origin event) ->
   In (event_origin event) (JsObject.keys (listeners (sym a))) ->
   page a2 = written (event_origin event) (event_data event)) /\
  (parentOrigin (sym a) <> Some (event_origin event)
   \/ ~ In (event_origin event) (JsObject.keys (listeners (sym a))) ->
   page a2 = page a).
Proof.
  intros Hun a a1 a2 written.
  destruct (BasicExampleFacts.page_consistent host toUTCString initial us Hun)
    as (He & _ & (_ & _ & Hwh)).
  fold a in He, Hwh.
  destruct (BasicExampleFacts.engine_facts host a He)
    as (_ & Hctx & _ & _ & _ & Hb).
  assert (Hch : page a1 =
                if JsObject.has (listeners (sym a)) (data_origin envelope)
                then onMessage toUTCString (data_origin envelope)
                               (data_data envelope) (page a)
                else page a).
  { unfold a1. cbn [on_event]. unfold step. cbn [sym page react].
    rewrite (trace_with_log _ _ _ _ _ (handleBroadcast_spec (sym a) envelope)).
    unfold diagnostic, JsObject.has. rewrite Hctx. cbn [debug as_context app].
    destruct (JsObject.get (listeners (sym a)) (data_origin envelope))
      as [h|] eqn:Hget; [|reflexivity].
    now rewrite (Hwh _ _ Hget). }
  assert (Hwin : page a2 =
                 if (strict_eq (event_origin event) (parentOrigin (sym a))
                     && JsObject.has (listeners (sym a))
                                     (event_origin event))%bool
                 then onMessage toUTCString (event_origin event)
                                (event_data event) (page a)
                 else page a).
  { unfold a2. cbn [on_event]. unfold step. cbn [sym page].
    pose proof (react_window_message_spec host (sym a) event) as E.
    rewrite Hb, handlePortalMessage_spec in E.
    rewrite (trace_with_log _ _ _ _ _ E).
    unfold diagnostic, delivery, JsObject.has. rewrite Hctx.
    cbn [debug as_context app].
    destruct (strict_eq (event_origin event) (parentOrigin (sym a)));
      [|reflexivity].
    cbn [andb].
    destruct (JsObject.get (listeners (sym a)) (event_origin event))
      as [h|] eqn:Hget; [|reflexivity].
    now rewrite (Hwh _ _ Hget). }
  assert (Hshown : forall origin data,
            onMessage toUTCString origin data (page a) = written origin data).
  { intros origin data. unfold onMessage, written, line.
    destruct (writer data); reflexivity. }
  rewrite Hch, Hwin.
  rewrite <- !JsObjectFacts.has_false_iff, <- !JsObjectFacts.has_true_iff.
  unfold a1, a2. cbn [on_event]. unfold step. cbn [sym page].
  split; [|split; [|split; [|split; [|split; [|split; [|split]]]]]].
  - cbn [react]. now rewrite handleBroadcast_spec.
  - cbn [react]. now rewrite handleBroadcast_spec.
  - intros ->. apply Hshown.
  - now intros ->.
  - rewrite react_window_message_spec, Hb. now rewrite handlePortalMessage_spec.
  - rewrite react_window_message_spec, Hb. now rewrite handlePortalMessage_spec.
  - intros -> ->. cbn [strict_eq]. rewrite String.eqb_refl. apply Hshown.
  - intros [Hne| ->]; [|now rewrite andb_false_r].
    revert Hne.
    destruct (parentOrigin (sym a)) as [P|]; cbn [strict_eq]; [|reflexivity].
    destruct (String.eqb_spec (event_origin event) P) as [->|_];
      [intros Hne; now elim Hne | reflexivity].
Qed.

End Inbox.
End BasicExampleInbox.

Lemma incoming_message_writes_line_witness :
  BasicExample.untouched BasicExample.empty_page /\
  let heard (data : BasicExample.Payload) :=
    BasicExample.page
      (BasicExample.on_event Demo.top_page BasicExample.clock
         (BasicExample.ChannelMessageEvent
            (mkBroadcastEvent Demo.b_example data))
         BasicExample.visited) in
  let received (sender : string) (data : BasicExample.Payload) :=
    BasicExample.page
      (BasicExample.on_event Demo.portal_page BasicExample.clock
         (BasicExample.WindowMessageEvent (mkPortalEvent sender data))
         BasicExample.embedded) in
  In Demo.b_example
     (JsObject.keys (listeners (BasicExample.sym BasicExample.visited))) /\
  BasicExample.in_message
    (BasicExample.el (heard (BasicExample.Text "hi")))
    = Some [BasicExample.Line "t0  --  https://b.example --  hi"] /\
  BasicExample.in_message
    (BasicExample.el (heard (BasicExample.Other "Object" "undefined")))
    = Some [BasicExample.Line
              "t0  --  https://b.example --  Object first value: undefined"]
  /\
  heard BasicExample.Unprintable = BasicExample.page BasicExample.visited /\
  ~ In Demo.c_example
       (JsObject.keys (listeners (BasicExample.sym BasicExample.visited))) /\
  BasicExample.page
    (BasicExample.on_event Demo.top_page BasicExample.clock
       (BasicExample.ChannelMessageEvent
          (mkBroadcastEvent Demo.c_example (BasicExample.Text "hi")))
       BasicExample.visited)
    = BasicExample.page BasicExample.visited /\
  parentOrigin (BasicExample.sym BasicExample.embedded)
    = Some Demo.a_example /\
  In Demo.a_example
     (JsObject.keys (listeners (BasicExample.sym BasicExample.embedded))) /\
  BasicExample.in_message
    (BasicExample.el (received Demo.a_example (BasicExample.Floats "0.5")))
    = Some [BasicExample.Line
              "t0  --  https://a.example --  Float32Array first value: 0.5"]
  /\
  received Demo.a_example BasicExample.Unprintable
    = BasicExample.page BasicExample.embedded /\
  parentOrigin (BasicExample.sym BasicExample.embedded)
    <> Some Demo.c_example /\
  received Demo.c_example (BasicExample.Text "hi")
    = BasicExample.page BasicExample.embedded.
Proof.
  assert (Hb : In Demo.b_example
                  (JsObject.keys
                     (listeners (BasicExample.sym BasicExample.visited))))
    by (left; reflexivity).
  assert (Hc : ~ In Demo.c_example
                    (JsObject.keys
                       (listeners (BasicExample.sym BasicExample.visited))))
    by (cbn; intros [H|[]]; discriminate H).
  assert (Ha : In Demo.a_example
                  (JsObject.keys
                     (listeners (BasicExample.sym BasicExample.embedded))))
    by (left; reflexivity).
  assert (Hp : parentOrigin (BasicExample.sym BasicExample.embedded)
               = Some Demo.a_example) by reflexivity.
  assert (Hnp : parentOrigin (BasicExample.sym BasicExample.embedded)
                <> Some Demo.c_example) by (cbn; discriminate).
  pose proof (fun envelope event =>
                BasicExampleInbox.incoming_message_writes_line Demo.top_page
                  BasicExample.clock BasicExample.empty_page
                  BasicExample.visit envelope event empty_page_untouched)
    as Top.
  pose proof (fun envelope event =>
                BasicExampleInbox.incoming_message_writes_line
                  Demo.portal_page BasicExample.clock
                  BasicExample.empty_page BasicExample.embedding
                  envelope event empty_page_untouched)
    as Framed.
  cbv zeta in Top, Framed.
  set (idle := mkPortalEvent Demo.c_example (BasicExample.Text "hi")).
  set (quiet := mkBroadcastEvent Demo.c_example (BasicExample.Text "hi")).
  destruct (Top (mkBroadcastEvent Demo.b_example (BasicExample.Text "hi"))
                idle) as (_ & _ & Htext & _).
  destruct (Top (mkBroadcastEvent Demo.b_example
                   (BasicExample.Other "Object" "undefined")) idle)
    as (_ & _ & Hother & _).
  destruct (Top (mkBroadcastEvent Demo.b_example BasicExample.Unprintable)
                idle) as (_ & _ & Hnull & _).
  destruct (Top quiet idle) as (_ & _ & _ & Hquiet & _).
  destruct (Framed quiet
              (mkPortalEvent Demo.a_example (BasicExample.Floats "0.5")))
    as (_ & _ & _ & _ & _ & _ & Hfloats & _).
  destruct (Framed quiet
              (mkPortalEvent Demo.a_example BasicExample.Unprintable))
    as (_ & _ & _ & _ & _ & _ & Hwnull & _).
  destruct (Framed quiet idle) as (_ & _ & _ & _ & _ & _ & _ & Hstranger).
  subst idle quiet.
  split; [exact empty_page_untouched|]. cbv zeta.
  split; [exact Hb|].
  unfold BasicExample.visited, BasicExample.embedded in *.
  rewrite (Htext Hb), (Hother Hb), (Hnull Hb), (Hquiet Hc).
  rewrite (Hfloats Hp Ha), (Hwnull Hp Ha), (Hstranger (or_introl Hnp)).
  repeat split; try reflexivity; assumption.
Defined.
